(** * FlexibleETL: the chunked export pipeline

    A shallow embedding of the streaming export core of the repository:
    the four format strategies of [strategies/saver_strategy.py], the
    orchestrator of [etl/etl_base.py], the error-handling decorators of
    [modules/decorators.py], the observers of [modules/notifications.py]
    and the session manager of [modules/unit_of_work.py].

    Python code that mutates objects, writes files and raises exceptions is
    rendered in a state-and-exception monad over one [State] record holding
    the file system, the process environment, the attributes of the ETL
    object and a trace of the observable calls. *)

From Stdlib Require Import ZArith NArith Lia Ascii String.
From stdpp Require Import gmap strings list fin_maps.

Open Scope string_scope.
Open Scope list_scope.

(** ** Python strings

    A [str] is held by the bytes of its UTF-8 encoding, and read as the
    sequence of its characters by [chars].  The tables are those of
    CPython 3.11 (Unicode 14) on POSIX. *)

Module Py.

Local Open Scope N_scope.

Definition between (lo hi c : N) : bool := (lo <=? c) && (c <=? hi).

Definition byte (c : ascii) : N := N_of_ascii c.

Definition continuation (b : N) : bool := between 128 191 b.

(** A byte that belongs to no well-formed sequence is a character of its
    own, outside Unicode: what the [surrogateescape] handler of
    [os.environ] makes of it. *)
Definition stray (b : N) : N := 0x110000 + b.

(** The characters of a string, as code points. *)
Fixpoint chars (s : string) : list N :=
  match s with
  | EmptyString => []
  | String a r1 =>
      let x := byte a in
      if x <? 128 then x :: chars r1
      else
        match r1 with
        | String b r2 =>
            let y := byte b in
            if between 194 223 x && continuation y
            then ((x - 192) * 64 + (y - 128)) :: chars r2
            else
              match r2 with
              | String c r3 =>
                  let z := byte c in
                  let u := (x - 224) * 4096 + (y - 128) * 64 + (z - 128) in
                  if between 224 239 x && continuation y && continuation z
                     && (0x800 <=? u) && negb (between 0xD800 0xDFFF u)
                  then u :: chars r3
                  else
                    match r3 with
                    | String d r4 =>
                        let w := byte d in
                        let v := (x - 240) * 262144 + (y - 128) * 4096
                                 + (z - 128) * 64 + (w - 128) in
                        if between 240 244 x && continuation y && continuation z
                           && continuation w && between 0x10000 0x10FFFF v
                        then v :: chars r4
                        else stray x :: chars r1
                    | EmptyString => stray x :: chars r1
                    end
              | EmptyString => stray x :: chars r1
              end
        | EmptyString => [stray x]
        end
  end.

(** [str.isspace] on one character: the whitespace of [str.strip]. *)
Definition is_space (c : N) : bool :=
  between 9 13 c || between 28 32 c || (c =? 0x85) || (c =? 0xA0) || (c =? 0x1680)
  || between 0x2000 0x200A c || (c =? 0x2028) || (c =? 0x2029) || (c =? 0x202F)
  || (c =? 0x205F) || (c =? 0x3000).

Fixpoint lstrip_by (space : N -> bool) (cs : list N) : list N :=
  match cs with
  | [] => []
  | c :: r => if space c then lstrip_by space r else cs
  end.

Definition rstrip_by (space : N -> bool) (cs : list N) : list N :=
  reverse (lstrip_by space (reverse cs)).

Definition strip_by (space : N -> bool) (cs : list N) : list N :=
  rstrip_by space (lstrip_by space cs).

(** [s.strip()] *)
Definition strip (cs : list N) : list N := strip_by is_space cs.

(** [str.lower] on the characters that matter to a comparison with a word
    of ASCII letters: the capitals of ASCII, the capital I with dot and the
    Kelvin sign.  Every other character is kept; Python maps some of them
    to other characters, none of which is in ASCII. *)
Definition lower_char (c : N) : list N :=
  if between 65 90 c then [c + 32]
  else if c =? 0x130 then [105; 0x307]
  else if c =? 0x212A then [107]
  else [c].

Definition lower (cs : list N) : list N := concat (map lower_char cs).

(** [str.upper], likewise: the small letters of ASCII and the characters
    outside ASCII whose capitals hold a letter of ASCII. *)
Definition upper_char (c : N) : list N :=
  if between 97 122 c then [c - 32]
  else if c =? 0xDF then [83; 83]
  else if c =? 0x131 then [73]
  else if c =? 0x149 then [0x2BC; 78]
  else if c =? 0x17F then [83]
  else if c =? 0x1F0 then [74; 0x30C]
  else if c =? 0x1E96 then [72; 0x331]
  else if c =? 0x1E97 then [84; 0x308]
  else if c =? 0x1E98 then [87; 0x30A]
  else if c =? 0x1E99 then [89; 0x30A]
  else if c =? 0x1E9A then [65; 0x2BE]
  else if c =? 0xFB00 then [70; 70]
  else if c =? 0xFB01 then [70; 73]
  else if c =? 0xFB02 then [70; 76]
  else if c =? 0xFB03 then [70; 70; 73]
  else if c =? 0xFB04 then [70; 70; 76]
  else if c =? 0xFB05 then [83; 84]
  else if c =? 0xFB06 then [83; 84]
  else [c].

Definition upper (cs : list N) : list N := concat (map upper_char cs).

(** [s.lower().endswith(suffix)] *)
Definition lower_endswith (s suffix : string) : bool :=
  bool_decide (chars suffix `suffix_of` lower (chars s)).

(** The whitespace that [int] accepts around a literal: that of
    [str.strip] without the four separators FS to US. *)
Definition int_space (c : N) : bool := is_space c && negb (between 28 31 c).

(** The zeros of the decimal digits of Unicode (category Nd); the nine
    characters after each are its digits 1 to 9. *)
Definition zeros : list N :=
  [0x30; 0x660; 0x6F0; 0x7C0; 0x966; 0x9E6; 0xA66; 0xAE6; 0xB66; 0xBE6; 0xC66;
   0xCE6; 0xD66; 0xDE6; 0xE50; 0xED0; 0xF20; 0x1040; 0x1090; 0x17E0; 0x1810;
   0x1946; 0x19D0; 0x1A80; 0x1A90; 0x1B50; 0x1BB0; 0x1C40; 0x1C50; 0xA620;
   0xA8D0; 0xA900; 0xA9D0; 0xA9F0; 0xAA50; 0xABF0; 0xFF10; 0x104A0; 0x10D30;
   0x11066; 0x110F0; 0x11136; 0x111D0; 0x112F0; 0x11450; 0x114D0; 0x11650;
   0x116C0; 0x11730; 0x118E0; 0x11950; 0x11C50; 0x11D50; 0x11DA0; 0x16A60;
   0x16AC0; 0x16B50; 0x1D7CE; 0x1D7D8; 0x1D7E2; 0x1D7EC; 0x1D7F6; 0x1E140;
   0x1E2F0; 0x1E950; 0x1FBF0].

Definition digit (c : N) : option Z :=
  match List.find (fun z => between z (z + 9) c) zeros with
  | Some z => Some (Z.of_N (c - z))
  | None => None
  end.

(** Digits of a decimal literal, with their number; [sep] tells whether
    the previous character was a digit, the only place where an underscore
    may stand. *)
Fixpoint digits (cs : list N) (acc : Z) (count : N) (sep : bool) : option (Z * N) :=
  match cs with
  | [] => if sep then Some (acc, count) else None
  | c :: r =>
      match digit c with
      | Some d => digits r (10 * acc + d)%Z (count + 1) true
      | None => if (c =? 95) && sep then digits r acc count false else None
      end
  end.

(** [int(s)] for a string: surrounding whitespace, an optional sign,
    decimal digits of any script, single underscores between digits, and
    no more than 4300 digits (the default of [sys.set_int_max_str_digits]).
    [None] stands for the [ValueError]. *)
Definition int (s : string) : option Z :=
  let cs := strip_by int_space (chars s) in
  let '(sign, ds) :=
    match cs with
    | 45 :: r => ((-1)%Z, r)
    | 43 :: r => (1%Z, r)
    | _ => (1%Z, cs)
    end in
  match digits ds 0 0 false with
  | Some (v, n) => if n <=? 4300 then Some (sign * v)%Z else None
  | None => None
  end.

(** Truth value of an [Optional[str]]. *)
Definition truthy (v : option string) : bool :=
  match v with
  | None => false
  | Some s => negb (String.eqb s "")
  end.

(** *** pathlib, on POSIX *)

(** What stands between the slashes of a string. *)
Fixpoint split_slash (s : string) : list string :=
  match s with
  | EmptyString => [EmptyString]
  | String c r =>
      if Ascii.eqb c "/" then EmptyString :: split_slash r
      else
        match split_slash r with
        | x :: xs => String c x :: xs
        | [] => [String c EmptyString]
        end
  end.

(** The components of a path: empty ones and single dots are dropped. *)
Definition parts (p : string) : list string :=
  filter (fun x => x <> "" /\ x <> ".") (split_slash p).

(** The root: one slash, or two when the string starts with exactly two. *)
Definition anchor (p : string) : string :=
  match p with
  | String "/" (String "/" (String "/" _)) => "/"
  | String "/" (String "/" _) => "//"
  | String "/" _ => "/"
  | _ => ""
  end.

Fixpoint join_slash (l : list string) : string :=
  match l with
  | [] => ""
  | [x] => x
  | x :: r => x +:+ "/" +:+ join_slash r
  end.

Definition render (root : string) (components : list string) : string :=
  if bool_decide (root = "" /\ components = []) then "."
  else root +:+ join_slash components.

(** [str(Path(p))] *)
Definition Path (p : string) : string := render (anchor p) (parts p).

(** [str(Path(p) / q)] *)
Definition joinpath (p q : string) : string :=
  if bool_decide (anchor q = "") then render (anchor p) (parts p ++ parts q)
  else Path q.

(** [Path(p).name]: the last component, if there is one. *)
Definition basename (p : string) : string := default "" (last (parts p)).

End Py.

(** ** config/config.py *)

Definition normalize_compression (value : option string) : option string :=
  match value with
  | None => None
  | Some v =>
      if bool_decide (Py.lower (Py.strip (Py.chars v))
                        ∈ Py.chars <$> ["none"; "null"; ""])
      then None else Some v
  end.

(** ** Row batches *)

(** A [pandas.DataFrame] without index: column labels and the rows of cells. *)
Record DataFrame := {
  columns : list string;
  rows : list (list string)
}.

(** [df.empty]: some axis has length zero. *)
Definition empty (df : DataFrame) : bool :=
  Nat.eqb (length (columns df)) 0 || Nat.eqb (length (rows df)) 0.

(** [len(df)]: the number of rows. *)
Definition len (df : DataFrame) : nat := length (rows df).

(** ** Exceptions *)

Inductive exn :=
| NoDataToSave                 (* ValueError raised by ETLBase.load *)
| ExcelCompression             (* ValueError raised by ExcelSaver.save *)
| KeyError (key : string)      (* unknown key of the strategy map *)
| NoVisibleSheet               (* IndexError of openpyxl: a workbook without sheet is saved *)
| InvalidLiteral (s : string)  (* ValueError of int() *)
| NotImplementedError          (* Observer.update *)
| OSError (what : string)      (* open() of a missing file, an unreachable server *)
| SourceError (what : string)  (* raised by the extraction source or a transform *)
| UnrecognizedCompression (c : string) (* ValueError of pandas: no such compression type *)
| UnsupportedCompression (c : string)  (* error of pyarrow: no such codec *)
| DuplicateColumns.            (* ValueError of to_json and of pyarrow: labels not unique *)

Inductive result (A : Type) :=
| Ok (a : A)
| Raise (e : exn).
Arguments Ok {A} a.
Arguments Raise {A} e.

(** ** Files *)

Inductive line :=
| HeaderLine (cols : list string)
| DataLine (cells : list string)
| RecordLine (fields : list (string * string)).

Abbreviation sheet := (gmap (nat * nat) string).

(** What one call of a pandas writer puts into a file; [compression] is
    the codec of the member that the call adds, [None] for plain text. *)
Inductive piece :=
| CsvPiece (compression : option string) (lines : list line)
| JsonPiece (compression : option string) (lines : list line)
| XlsxPiece (book : gmap string sheet)
| ParquetPiece (compression : option string) (table : DataFrame).

(** A file is the sequence of the pieces written to it; a file that was
    opened for writing and never filled is the empty sequence. *)
Abbreviation file := (list piece).

Inductive write_mode := mode_w | mode_a.

Definition write_file (mode : write_mode) (p : string) (ps : file)
    (fs : gmap string file) : gmap string file :=
  match mode with
  | mode_w => <[p := ps]> fs
  | mode_a => <[p := default [] (fs !! p) ++ ps]> fs
  end.

(** ** Observables *)

Inductive level := DEBUG | INFO | WARNING | ERROR.

(** The texts handed to observers. *)
Inductive text :=
| Notice                          (* the default subject of an e-mail *)
| EtlDone (file_name : string)    (* message of the report *)
| ExportOf (file_name : string)   (* subject of the report *)
| ExportFile (file_name : string) (* body of the report *)
| ErrorIn (func : string) (e : exn).

Record Kwargs := {
  kw_subject : option text;
  kw_body : option text;
  kw_attachment_path : option string
}.

Inductive logmsg :=
| SkipEmptyChunk
| ChunkWritten (n : nat)
| AllChunksEmpty
| RunParameters
| SavedTo (dir : string)
| Metrics (max_mem : Z) (rows_processed : nat)
| Failure (log_message : string) (e : exn)
| EmailIncomplete
| EmailSent (subject : text)
| EmailFailed (e : exn)
| AttachFailed (e : exn)
| TelegramIncomplete
| TelegramSent (t : text)
| TelegramFailed (e : exn)
| TransactionBegun
| TransactionCommitted
| TransactionFailed (e : exn)
| SessionClosed.

(** What a database session is asked to do. *)
Inductive session_method := NewSession | Commit | Rollback | Close.

Inductive event :=
| Log (l : level) (m : logmsg)
| Unlink (p : string)
| ToCsv (p : string) (mode : write_mode) (header : bool)
        (compression : option string) (chunk : DataFrame)
| ToJson (p : string) (mode : write_mode)
         (compression : option string) (chunk : DataFrame)
| WriterOpen (p : string)
| ToExcel (startrow : nat) (chunk : DataFrame)
| WriterClose (p : string)
| ToParquet (p : string) (compression : option string) (chunk : DataFrame)
| Callback (n : nat)            (* a call of the metrics callback *)
| Update (oid : nat)            (* a call of an observer's update *)
| Enter (func : string)         (* a call of a decorated method *)
| SmtpSend (subject : text) (t : text) (attachment : option string)
| TelegramPost (t : text)
| Session (m : session_method). (* a call on the database session *)

(** ** The state *)

Record State := {
  fs : gmap string file;            (* files by path *)
  env : gmap string string;         (* os.environ *)
  trace : list event;               (* observable calls, oldest first *)
  smtp_up : bool;                   (* whether the SMTP server answers *)
  telegram_up : bool;               (* whether the Telegram API answers *)
  clock : Z;                        (* time.time() *)
  timestamp : string;               (* datetime.now().strftime(...) *)
  probe : nat -> Z;                 (* successive readings of memory_usage *)
  book : gmap string sheet;         (* workbook of the open ExcelWriter *)
  filename : option string;         (* self.filename *)
  start_time : option Z;            (* self.metrics['start_time'] *)
  memory_usage : list Z;            (* self.metrics['memory_usage'] *)
  rows_processed : nat              (* self.metrics['rows_processed'] *)
}.

Definition set_fs (f : gmap string file -> gmap string file) (s : State) : State :=
  {| fs := f (fs s); env := env s; trace := trace s; smtp_up := smtp_up s;
     telegram_up := telegram_up s; clock := clock s; timestamp := timestamp s;
     probe := probe s; book := book s; filename := filename s;
     start_time := start_time s; memory_usage := memory_usage s;
     rows_processed := rows_processed s |}.

Definition set_trace (f : list event -> list event) (s : State) : State :=
  {| fs := fs s; env := env s; trace := f (trace s); smtp_up := smtp_up s;
     telegram_up := telegram_up s; clock := clock s; timestamp := timestamp s;
     probe := probe s; book := book s; filename := filename s;
     start_time := start_time s; memory_usage := memory_usage s;
     rows_processed := rows_processed s |}.

Definition set_book (f : gmap string sheet -> gmap string sheet) (s : State) : State :=
  {| fs := fs s; env := env s; trace := trace s; smtp_up := smtp_up s;
     telegram_up := telegram_up s; clock := clock s; timestamp := timestamp s;
     probe := probe s; book := f (book s); filename := filename s;
     start_time := start_time s; memory_usage := memory_usage s;
     rows_processed := rows_processed s |}.

Definition set_filename (v : option string) (s : State) : State :=
  {| fs := fs s; env := env s; trace := trace s; smtp_up := smtp_up s;
     telegram_up := telegram_up s; clock := clock s; timestamp := timestamp s;
     probe := probe s; book := book s; filename := v;
     start_time := start_time s; memory_usage := memory_usage s;
     rows_processed := rows_processed s |}.

Definition set_metrics (t : option Z) (mem : list Z) (n : nat) (s : State) : State :=
  {| fs := fs s; env := env s; trace := trace s; smtp_up := smtp_up s;
     telegram_up := telegram_up s; clock := clock s; timestamp := timestamp s;
     probe := probe s; book := book s; filename := filename s;
     start_time := t; memory_usage := mem; rows_processed := n |}.

(** ** The monad of the embedding *)

Definition M (A : Type) : Type := State -> result A * State.

Definition ret {A} (a : A) : M A := fun s => (Ok a, s).

Definition bind {A B} (c : M A) (k : A -> M B) : M B :=
  fun s =>
    match c s with
    | (Ok a, s') => k a s'
    | (Raise e, s') => (Raise e, s')
    end.

Definition raise {A} (e : exn) : M A := fun s => (Raise e, s).

Definition gets {A} (f : State -> A) : M A := fun s => (Ok (f s), s).

Definition modify (f : State -> State) : M unit := fun s => (Ok tt, f s).

Declare Scope py_scope.
Delimit Scope py_scope with py.
Notation "x <- c ;; k" := (bind c (fun x => k))
  (at level 100, c at next level, right associativity) : py_scope.
Notation "c ;; k" := (bind c (fun _ => k))
  (at level 100, right associativity) : py_scope.
Open Scope py_scope.

(** [try: c except Exception as e: h e]. *)
Definition try_except {A} (c : M A) (h : exn -> M A) : M A :=
  fun s =>
    match c s with
    | (Ok a, s') => (Ok a, s')
    | (Raise e, s') => h e s'
    end.

(** [try: c finally: fin].  An exception of [fin] replaces the outcome of
    [c], as in Python. *)
Definition try_finally {A} (c : M A) (fin : M unit) : M A :=
  fun s =>
    match c s with
    | (r, s') =>
        match fin s' with
        | (Ok _, s'') => (r, s'')
        | (Raise e, s'') => (Raise e, s'')
        end
    end.

Definition emit (e : event) : M unit := modify (set_trace (fun t => t ++ [e])).

Definition log (l : level) (m : logmsg) : M unit := emit (Log l m).

(** [if metrics_callback: metrics_callback(n)]; the call is recorded. *)
Definition call (metrics_callback : option (nat -> M unit)) (n : nat) : M unit :=
  match metrics_callback with
  | None => ret tt
  | Some f => emit (Callback n) ;; f n
  end.

(** ** modules/unit_of_work.py *)

(** What the methods of the session raise, if they do, and what getting
    the text of the query raises before the session is made: the
    [FileNotFoundError] of [extract], when no SQL text is given and the
    file of [sql_path] is missing. *)
Record Database := {
  query_error : option exn;
  commit_error : option exn;
  rollback_error : option exn;
  close_error : option exn
}.

Module UnitOfWork.

(** How a block of code ends: it returns, it raises an [Exception], or
    it is left by an exception outside [Exception], of some kind [b : B]
    ([GeneratorExit] when the consumer of a generator stops early,
    [KeyboardInterrupt]), which [except Exception] does not catch. *)
Inductive ending (B A : Type) :=
| Returns (a : A)
| Raises (e : exn)
| Exits (b : B).
Arguments Returns {B A} a.
Arguments Raises {B A} e.
Arguments Exits {B A} b.

(** Computations whose ending may be any of the three. *)
Definition T (B A : Type) : Type := State -> ending B A * State.

Definition ret {B A} (a : A) : T B A := fun s => (Returns a, s).

Definition bind {B A C} (c : T B A) (k : A -> T B C) : T B C :=
  fun s =>
    match c s with
    | (Returns a, s') => k a s'
    | (Raises e, s') => (Raises e, s')
    | (Exits b, s') => (Exits b, s')
    end.

Definition raise {B A} (e : exn) : T B A := fun s => (Raises e, s).

Definition tell {B} (e : event) : T B unit :=
  fun s => (Returns tt, set_trace (fun t => t ++ [e]) s).

(** [try: c except Exception as e: h e] *)
Definition try_except {B A} (c : T B A) (h : exn -> T B A) : T B A :=
  fun s =>
    match c s with
    | (Raises e, s') => h e s'
    | out => out
    end.

(** [try: c finally: fin] *)
Definition try_finally {B A} (c : T B A) (fin : T B unit) : T B A :=
  fun s =>
    match c s with
    | (r, s') =>
        match fin s' with
        | (Returns _, s'') => (r, s'')
        | (Raises e, s'') => (Raises e, s'')
        | (Exits b, s'') => (Exits b, s'')
        end
    end.

Declare Scope tx_scope.
Delimit Scope tx_scope with tx.
Notation "x <- c ;; k" := (bind c (fun x => k))
  (at level 100, c at next level, right associativity) : tx_scope.
Notation "c ;; k" := (bind c (fun _ => k))
  (at level 100, right associativity) : tx_scope.
Local Open Scope tx_scope.

(** A method of the session: the call is received, and raises what the
    database makes it raise. *)
Definition method {B} (m : session_method) (failure : option exn) : T B unit :=
  tell (Session m) ;;
  match failure with
  | Some e => raise e
  | None => ret tt
  end.

(** [with self.session_scope() as session: body]: the generator of the
    context manager, with the block [body] in the place of its [yield]. *)
Definition session_scope {B A} (db : Database) (body : T B A) : T B A :=
  tell (Session NewSession) ;;
  try_finally
    (try_except
       (tell (Log DEBUG TransactionBegun) ;;
        a <- body ;;
        method Commit (commit_error db) ;;
        tell (Log DEBUG TransactionCommitted) ;;
        ret a)
       (fun e =>
          method Rollback (rollback_error db) ;;
          tell (Log ERROR (TransactionFailed e)) ;;
          raise e))
    (method Close (close_error db) ;;
     tell (Log DEBUG SessionClosed)).

(** The same generator in two steps, for a block that is itself
    suspended, as the [yield from] of [PostgresETL.extract] is: [enter]
    runs it to its [yield], and [leave] from its [yield] on, with the
    ending of the block. *)
Definition enter {B} : T B unit :=
  tell (Session NewSession) ;;
  tell (Log DEBUG TransactionBegun).

Definition ended {B A} (block : ending B A) : T B A := fun s => (block, s).

Definition leave {B A} (db : Database) (block : ending B A) : T B A :=
  try_finally
    (try_except
       (a <- ended block ;;
        method Commit (commit_error db) ;;
        tell (Log DEBUG TransactionCommitted) ;;
        ret a)
       (fun e =>
          method Rollback (rollback_error db) ;;
          tell (Log ERROR (TransactionFailed e)) ;;
          raise e))
    (method Close (close_error db) ;;
     tell (Log DEBUG SessionClosed)).

(** A computation that no exception outside [Exception] ends is one of
    the monad of the embedding. *)
Definition run {A} (c : T Empty_set A) : M A :=
  fun s =>
    match c s with
    | (Returns a, s') => (Ok a, s')
    | (Raises e, s') => (Raise e, s')
    | (Exits b, _) => match b with end
    end.

End UnitOfWork.

(** ** strategies/saver_strategy.py *)

(** The argument [data] of [save]: one frame; an iterator that yields the
    frames of [chunks] and then either stops or raises [failure]; or the
    iterator that [PostgresETL.extract] returns, the generator that reads
    the query, opens a session on [db], yields the frames of [chunks] from
    the cursor and, when the cursor stops or raises [failure], ends the
    session. *)
Inductive Data :=
| Frame (df : DataFrame)
| Chunks (chunks : list DataFrame) (failure : option exn)
| Extraction (db : Database) (chunks : list DataFrame) (failure : option exn).

(** *** etl/etl_postgres.py: the body of the generator [extract] *)

Module Extract.

(** Up to the first [yield]: the text of the query is taken from
    [sql_text] or read from the file, and the session is entered. *)
Definition first (db : Database) : M unit :=
  match query_error db with
  | Some e => raise e
  | None => UnitOfWork.run UnitOfWork.enter
  end.

(** After the last frame: the [with] block ends as the cursor ended. *)
Definition last (db : Database) (failure : option exn) : M unit :=
  UnitOfWork.run
    (UnitOfWork.leave db
       match failure with
       | None => UnitOfWork.Returns tt
       | Some e => UnitOfWork.Raises e
       end).

End Extract.

Module SaverStrategy.

(** End of a [for] loop over an iterator: its exception, if it has one,
    comes out of the loop. *)
Definition exhausted (failure : option exn) : M unit :=
  match failure with
  | None => ret tt
  | Some e => raise e
  end.

(** [for chunk in self._iter_chunks(data)]: what the first [next] runs
    before a frame is yielded, the frames, and what the [next] after the
    last frame runs. *)
Definition _iter_chunks (data : Data) : M unit * list DataFrame * M unit :=
  match data with
  | Frame df => (ret tt, [df], ret tt)
  | Chunks chunks failure => (ret tt, chunks, exhausted failure)
  | Extraction db chunks failure => (Extract.first db, chunks, Extract.last db failure)
  end.

End SaverStrategy.

(** *** The pandas writers (pandas 2.1 or later, with pyarrow and openpyxl) *)

(** [pandas.io.common.infer_compression]: the codec of a path and a
    compression value; a name that is none of the codecs is refused. *)
Definition by_extension (path : string) : option string :=
  if Py.lower_endswith path ".tar" || Py.lower_endswith path ".tar.gz"
     || Py.lower_endswith path ".tar.bz2" || Py.lower_endswith path ".tar.xz"
  then Some "tar"
  else if Py.lower_endswith path ".gz" then Some "gzip"
  else if Py.lower_endswith path ".bz2" then Some "bz2"
  else if Py.lower_endswith path ".zip" then Some "zip"
  else if Py.lower_endswith path ".xz" then Some "xz"
  else if Py.lower_endswith path ".zst" then Some "zstd"
  else None.

Definition infer_compression (path : string) (compression : option string)
    : M (option string) :=
  match compression with
  | None => ret None
  | Some c =>
      if String.eqb c "infer" then ret (by_extension path)
      else if bool_decide (c ∈ ["gzip"; "bz2"; "zip"; "xz"; "zstd"; "tar"])
      then ret (Some c)
      else raise (UnrecognizedCompression c)
  end.

(** The byte order mark of the encoding [utf-8-sig]. *)
Definition bom : string :=
  String (ascii_of_nat 239) (String (ascii_of_nat 187) (String (ascii_of_nat 191) "")).

Definition sign_cells (cells : list string) : list string :=
  match cells with
  | [] => [bom]
  | c :: r => (bom +:+ c) :: r
  end.

(** A text with the mark before its first character. *)
Definition signed (ls : list line) : list line :=
  match ls with
  | HeaderLine cols :: r => HeaderLine (sign_cells cols) :: r
  | DataLine cells :: r => DataLine (sign_cells cells) :: r
  | _ => ls
  end.

Definition csv_lines (header : bool) (chunk : DataFrame) : list line :=
  (if header then [HeaderLine (columns chunk)] else [])
  ++ map DataLine (rows chunk).

Definition json_lines (chunk : DataFrame) : list line :=
  map (fun r => RecordLine (zip (columns chunk) r)) (rows chunk).

(** Whether a file holds no byte. *)
Definition blank (f : file) : bool :=
  forallb (fun p => match p with CsvPiece None [] => true | _ => false end) f.

Definition unlink (filepath : string) : M unit :=
  modify (set_fs (delete filepath)) ;; emit (Unlink filepath).

(** [chunk.to_csv(path_or_buf, mode, header, index=False,
    encoding='utf-8-sig', compression)].  Every call opens the file anew;
    the text layer writes the mark whenever its stream stands at 0, which
    is so in mode 'w', on an empty file, and under every codec, where the
    call starts a member of its own. *)
Definition to_csv (chunk : DataFrame) (path_or_buf : string) (mode : write_mode)
    (header : bool) (compression : option string) : M unit :=
  codec <- infer_compression path_or_buf compression ;;
  old <- gets (fun s => default [] (fs s !! path_or_buf)) ;;
  let at_start :=
    match mode, codec with
    | mode_a, None => blank old
    | _, _ => true
    end in
  let text := csv_lines header chunk in
  modify (set_fs (write_file mode path_or_buf
                    [CsvPiece codec (if at_start then signed text else text)])) ;;
  emit (ToCsv path_or_buf mode header compression chunk).

(** [chunk.to_json(path, orient='records', lines=True, force_ascii=False,
    compression, mode, index=False)]: the records are built first, which
    fails when two columns bear the same label. *)
Definition to_json (chunk : DataFrame) (path : string)
    (compression : option string) (mode : write_mode) : M unit :=
  if bool_decide (NoDup (columns chunk)) then
    codec <- infer_compression path compression ;;
    modify (set_fs (write_file mode path [JsonPiece codec (json_lines chunk)])) ;;
    emit (ToJson path mode compression chunk)
  else raise DuplicateColumns.

(** The codecs of pyarrow's writer, whose names are compared in upper
    case.  LZO passes that comparison and is refused all the same, as not
    implemented. *)
Definition parquet_codec (name : string) : bool :=
  bool_decide (Py.upper (Py.chars name)
                 ∈ Py.chars <$> ["NONE"; "SNAPPY"; "GZIP"; "BROTLI"; "LZ4"; "ZSTD"]).

(** [chunk.to_parquet(path, compression, index=False)] writes the whole
    file anew at every call.  The table is built first, which fails when
    two columns bear the same label; then pandas opens the path for
    writing and pyarrow, when it refuses the codec, removes the file of
    the failed write. *)
Definition to_parquet (chunk : DataFrame) (path : string)
    (compression : option string) : M unit :=
  if bool_decide (NoDup (columns chunk)) then
    match compression with
    | Some c =>
        if parquet_codec c then ret tt
        else modify (set_fs (delete path)) ;; raise (UnsupportedCompression c)
    | None => ret tt
    end ;;
    modify (set_fs (write_file mode_w path [ParquetPiece compression chunk])) ;;
    emit (ToParquet path compression chunk)
  else raise DuplicateColumns.

(** Cells of one sheet row, from column 0 on. *)
Definition put_row (r : nat) (cells : list string) (sh : sheet) : sheet :=
  foldl (fun acc jc => <[(r, jc.1) := jc.2]> acc) sh
        (zip (seq 0 (length cells)) cells).

Fixpoint put_rows (r : nat) (rws : list (list string)) (sh : sheet) : sheet :=
  match rws with
  | [] => sh
  | cells :: rest => put_rows (S r) rest (put_row r cells sh)
  end.

(** [chunk.to_excel(writer, sheet_name, index=False, startrow)]: the header
    goes to row [startrow], the data rows below it; a sheet that the writer
    already holds is written over. *)
Definition to_excel (chunk : DataFrame) (sheet_name : string) (startrow : nat) : M unit :=
  modify (set_book (fun b =>
    <[sheet_name := put_rows startrow (columns chunk :: rows chunk)
                      (default ∅ (b !! sheet_name))]> b)) ;;
  emit (ToExcel startrow chunk).

(** [with pd.ExcelWriter(filepath, engine='openpyxl') as writer: body].
    Opening creates (or truncates) the file and starts a workbook without
    sheet; leaving the block, also by an exception, saves the workbook,
    which openpyxl refuses when it holds no sheet. *)
Definition ExcelWriter_open (filepath : string) : M unit :=
  modify (set_fs (write_file mode_w filepath [])) ;;
  modify (set_book (fun _ => ∅)) ;;
  emit (WriterOpen filepath).

Definition ExcelWriter_close (filepath : string) : M unit :=
  b <- gets book ;;
  if bool_decide (b = ∅) then raise NoVisibleSheet
  else modify (set_fs (write_file mode_w filepath [XlsxPiece b])) ;;
       emit (WriterClose filepath).

Definition with_ExcelWriter {A} (filepath : string) (body : M A) : M A :=
  ExcelWriter_open filepath ;;
  try_finally body (ExcelWriter_close filepath).

Module CsvSaver.

Fixpoint loop (chunks : list DataFrame) (filepath : string)
    (compression : option string) (metrics_callback : option (nat -> M unit))
    (total_rows : nat) (mode : write_mode) (header : bool) : M nat :=
  match chunks with
  | [] => ret total_rows
  | chunk :: rest =>
      if empty chunk then
        log DEBUG SkipEmptyChunk ;;
        loop rest filepath compression metrics_callback total_rows mode header
      else
        to_csv chunk filepath mode header compression ;;
        call metrics_callback (len chunk) ;;
        log INFO (ChunkWritten (len chunk)) ;;
        loop rest filepath compression metrics_callback
             (total_rows + len chunk) mode_a false
  end.

Definition save (data : Data) (filepath : string) (compression : option string)
    (metrics_callback : option (nat -> M unit)) : M nat :=
  let compression := normalize_compression compression in
  unlink filepath ;;
  let compression :=
    if bool_decide (compression = Some "infer") then None else compression in
  let '(first, chunks, last) := SaverStrategy._iter_chunks data in
  first ;;
  total_rows <- loop chunks filepath compression metrics_callback 0 mode_w true ;;
  last ;;
  (if Nat.eqb total_rows 0 then log WARNING AllChunksEmpty else ret tt) ;;
  ret total_rows.

End CsvSaver.

Module ExcelSaver.

Fixpoint loop (chunks : list DataFrame)
    (metrics_callback : option (nat -> M unit))
    (startrow total_rows : nat) : M nat :=
  match chunks with
  | [] => ret total_rows
  | chunk :: rest =>
      if empty chunk then
        log DEBUG SkipEmptyChunk ;;
        loop rest metrics_callback startrow total_rows
      else
        to_excel chunk "Data" startrow ;;
        call metrics_callback (len chunk) ;;
        log INFO (ChunkWritten (len chunk)) ;;
        loop rest metrics_callback (startrow + len chunk) (total_rows + len chunk)
  end.

Definition save (data : Data) (filepath : string) (compression : option string)
    (metrics_callback : option (nat -> M unit)) : M nat :=
  let compression := normalize_compression compression in
  if Py.truthy compression && negb (bool_decide (compression = Some "infer"))
  then raise ExcelCompression
  else
    with_ExcelWriter filepath (
      let '(first, chunks, last) := SaverStrategy._iter_chunks data in
      first ;;
      total_rows <- loop chunks metrics_callback 0 0 ;;
      last ;;
      ret total_rows).

End ExcelSaver.

Module JsonSaver.

Fixpoint loop (chunks : list DataFrame) (filepath : string)
    (compression : option string) (metrics_callback : option (nat -> M unit))
    (total_rows : nat) (mode : write_mode) : M nat :=
  match chunks with
  | [] => ret total_rows
  | chunk :: rest =>
      if empty chunk then
        loop rest filepath compression metrics_callback total_rows mode
      else
        to_json chunk filepath compression mode ;;
        call metrics_callback (len chunk) ;;
        loop rest filepath compression metrics_callback
             (total_rows + len chunk) mode_a
  end.

Definition save (data : Data) (filepath : string) (compression : option string)
    (metrics_callback : option (nat -> M unit)) : M nat :=
  let compression := normalize_compression compression in
  let '(first, chunks, last) := SaverStrategy._iter_chunks data in
  first ;;
  total_rows <- loop chunks filepath compression metrics_callback 0 mode_w ;;
  last ;;
  (if Nat.eqb total_rows 0 then log WARNING AllChunksEmpty else ret tt) ;;
  ret total_rows.

End JsonSaver.

Module ParquetSaver.

Fixpoint loop (chunks : list DataFrame) (filepath : string)
    (compression : option string) (metrics_callback : option (nat -> M unit))
    (total_rows : nat) : M nat :=
  match chunks with
  | [] => ret total_rows
  | chunk :: rest =>
      if empty chunk then
        loop rest filepath compression metrics_callback total_rows
      else
        to_parquet chunk filepath compression ;;
        call metrics_callback (len chunk) ;;
        loop rest filepath compression metrics_callback (total_rows + len chunk)
  end.

Definition save (data : Data) (filepath : string) (compression : option string)
    (metrics_callback : option (nat -> M unit)) : M nat :=
  let '(first, chunks, last) := SaverStrategy._iter_chunks data in
  first ;;
  total_rows <- loop chunks filepath compression metrics_callback 0 ;;
  last ;;
  ret total_rows.

End ParquetSaver.

(** ** modules/notifications.py *)

Record EmailConfig := {
  smtp_server : option string;
  smtp_port : Z;
  user : option string;
  password : option string;
  sender : option string;
  recipient : option string
}.

Record TelegramConfig := {
  token : option string;
  chat_id : option string
}.

(** The classes of observers; [oid] is the identity of the object, which is
    what [in] and [==] compare. *)
Inductive ObserverClass :=
| BaseObserver
| Email (email_config : EmailConfig)
| Telegram (tg_config : TelegramConfig).

Record observer := {
  oid : nat;
  cls : ObserverClass
}.

Module Observer.

Definition update (message : text) (kwargs : Kwargs) : M bool :=
  raise NotImplementedError.

End Observer.

Module EmailObserver.

(** [EmailObserver()]: the configuration is read from the environment;
    [int(os.getenv('EMAIL_SMTP_PORT', 465))] raises on a value that is
    not an integer literal. *)
Definition init (id : nat) : M observer :=
  e <- gets env ;;
  port <- match e !! "EMAIL_SMTP_PORT" with
          | None => ret 465%Z
          | Some v =>
              match Py.int v with
              | Some z => ret z
              | None => raise (InvalidLiteral v)
              end
          end ;;
  ret {| oid := id;
         cls := Email {| smtp_server := e !! "EMAIL_SMTP_SERVER";
                         smtp_port := port;
                         user := e !! "EMAIL_USER";
                         password := e !! "EMAIL_PASSWORD";
                         sender := e !! "EMAIL_SENDER";
                         recipient := e !! "EMAIL_RECIPIENT" |} |}.

(** [all(self.email_config.values())] *)
Definition complete (c : EmailConfig) : bool :=
  Py.truthy (smtp_server c) && negb (Z.eqb (smtp_port c) 0)
  && Py.truthy (user c) && Py.truthy (password c)
  && Py.truthy (sender c) && Py.truthy (recipient c).

Definition _attach_file (file_path : string) : M unit :=
  try_except
    (f <- gets (fun s => fs s !! file_path) ;;
     match f with
     | Some _ => ret tt
     | None => raise (OSError file_path)
     end)
    (fun e => log WARNING (AttachFailed e) ;; raise e).

Definition update (c : EmailConfig) (message : text) (kwargs : Kwargs) : M bool :=
  let subject := default Notice (kw_subject kwargs) in
  let attachment_path := kw_attachment_path kwargs in
  if negb (complete c) then
    log WARNING EmailIncomplete ;; ret false
  else
    try_except
      ((match attachment_path with
        | Some p => if Py.truthy attachment_path then _attach_file p else ret tt
        | None => ret tt
        end) ;;
       up <- gets smtp_up ;;
       (if up then emit (SmtpSend subject message attachment_path)
        else raise (OSError "smtp")) ;;
       log INFO (EmailSent subject) ;;
       ret true)
      (fun e => log WARNING (EmailFailed e) ;; ret false).

End EmailObserver.

Module TelegramObserver.

Definition init (id : nat) : M observer :=
  e <- gets env ;;
  ret {| oid := id;
         cls := Telegram {| token := e !! "TELEGRAM_BOT_TOKEN";
                            chat_id := e !! "TELEGRAM_CHAT_ID" |} |}.

Definition complete (c : TelegramConfig) : bool :=
  Py.truthy (token c) && Py.truthy (chat_id c).

Definition update (c : TelegramConfig) (message : text) (kwargs : Kwargs) : M bool :=
  if negb (complete c) then
    log WARNING TelegramIncomplete ;; ret false
  else
    try_except
      (up <- gets telegram_up ;;
       (if up then emit (TelegramPost message) else raise (OSError "telegram")) ;;
       log INFO (TelegramSent message) ;;
       ret true)
      (fun e => log WARNING (TelegramFailed e) ;; ret false).

End TelegramObserver.

(** [observer.update(message, **kwargs)], dispatched on the class of the
    object; the call is recorded. *)
Definition update (o : observer) (message : text) (kwargs : Kwargs) : M bool :=
  emit (Update (oid o)) ;;
  match cls o with
  | BaseObserver => Observer.update message kwargs
  | Email c => EmailObserver.update c message kwargs
  | Telegram c => TelegramObserver.update c message kwargs
  end.

Module NotificationSubject.

Definition attach (_observers : list observer) (o : observer) : list observer :=
  if bool_decide (oid o ∈ map oid _observers) then _observers
  else _observers ++ [o].

Definition detach (_observers : list observer) (o : observer) : list observer :=
  match list_find (fun x => oid x = oid o) _observers with
  | Some (i, _) => take i _observers ++ drop (S i) _observers
  | None => _observers
  end.

Fixpoint notify (_observers : list observer) (message : text) (kwargs : Kwargs)
    : M unit :=
  match _observers with
  | [] => ret tt
  | o :: rest => update o message kwargs ;; notify rest message kwargs
  end.

End NotificationSubject.

Definition no_kwargs : Kwargs :=
  {| kw_subject := None; kw_body := None; kw_attachment_path := None |}.

(** ** modules/decorators.py *)

Module RetryDecorator.

(** [for attempt in range(retries + 1)]: an attempt that raises is
    repeated until none is left. *)
Fixpoint handle {A} (retries : nat) (func : M A) : M A :=
  match retries with
  | 0 => func
  | S k => try_except func (fun _ => handle k func)
  end.

End RetryDecorator.

Module LoggingDecorator.

Definition handle {A} (log_message : option string) (name : string)
    (component : M A) : M A :=
  try_except component (fun e =>
    let error_msg :=
      if Py.truthy log_message then default "" log_message
      else "Error in " +:+ name in
    log ERROR (Failure error_msg e) ;;
    raise e).

End LoggingDecorator.

Module NotificationDecorator.

Definition handle {A} (notify : bool) (name : string) (component : M A) : M A :=
  try_except component (fun e =>
    (if notify then
       tg <- TelegramObserver.init 0 ;;
       NotificationSubject.notify (NotificationSubject.attach [] tg)
         (ErrorIn name e) no_kwargs
     else ret tt) ;;
    raise e).

End NotificationDecorator.

(** The chain built by [error_handler]: retries innermost, then the log,
    then the notification; [name] is [func.__name__].  The call of the
    decorated function is recorded. *)
Definition error_handler {A} (log_message : option string) (notify : bool)
    (retries : nat) (name : string) (func : M A) : M A :=
  emit (Enter name) ;;
  NotificationDecorator.handle notify name
    (LoggingDecorator.handle log_message name
       (RetryDecorator.handle retries func)).

(** ** modules/containers.py *)

Inductive Saver := csv_saver | xlsx_saver | json_saver | parquet_saver.

Module Container.

Definition saver_strategy_map : gmap string Saver :=
  list_to_map [("csv", csv_saver); ("xlsx", xlsx_saver);
               ("json", json_saver); ("parquet", parquet_saver)].

End Container.

(** [saver.save(data, filepath, compression, metrics_callback)] *)
Definition save (saver : Saver) : Data -> string -> option string ->
    option (nat -> M unit) -> M nat :=
  match saver with
  | csv_saver => CsvSaver.save
  | xlsx_saver => ExcelSaver.save
  | json_saver => JsonSaver.save
  | parquet_saver => ParquetSaver.save
  end.

(** ** etl/etl_base.py *)

(** The attributes of an ETL object that a run reads, and its two abstract
    methods; [exports_path], a [Path], is held by its string.  What a run
    writes ([filename], [metrics]) is in [State]. *)
Record ETL := {
  export_format : string;
  compression : option string;
  exports_path : string;
  send_email : bool;
  send_telegram : bool;
  extract : M Data;
  transform : Data -> M Data
}.

Module ETLBase.

Definition _build_filename (self : ETL) : M string :=
  ts <- gets timestamp ;;
  let compression := normalize_compression (compression self) in
  let ext :=
    match compression with
    | Some c =>
        if Py.truthy compression && negb (String.eqb c "none")
        then "." +:+ c else ""
    | None => ""
    end in
  ret ("export_" +:+ ts +:+ "." +:+ export_format self +:+ ext).

Definition generate_filename (self : ETL) : M string :=
  name <- _build_filename self ;;
  ret (Py.joinpath (exports_path self) name).

Definition _update_metrics (rows : nat) : M unit :=
  modify (fun s =>
    set_metrics (start_time s)
      (memory_usage s ++ [probe s (length (memory_usage s))])
      (rows_processed s + rows) s).

Definition max_mem (samples : list Z) : Z :=
  match samples with
  | [] => 0%Z
  | x :: rest => foldl Z.max x rest
  end.

(** The elapsed time of the log line is left out. *)
Definition _log_metrics : M unit :=
  mem <- gets memory_usage ;;
  n <- gets rows_processed ;;
  log INFO (Metrics (max_mem mem) n).

Definition load (self : ETL) (data : Data)
    (metrics_callback : option (nat -> M unit)) : M unit :=
  error_handler (Some "data load error") true 0 "load" (
    match Container.saver_strategy_map !! export_format self with
    | None => raise (KeyError (export_format self))
    | Some saver =>
        path <- generate_filename self ;;
        modify (set_filename (Some path)) ;;
        total_rows <- save saver data path (compression self)
                        (Some _update_metrics) ;;
        if Nat.eqb total_rows 0 then raise NoDataToSave
        else log INFO (SavedTo (exports_path self))
    end).

(** The function that the decorator wraps ([_send_report.__wrapped__]). *)
Definition _send_report_wrapped (self : ETL) : M unit :=
  fn <- gets filename ;;
  present <- gets (fun s =>
    match fn with
    | Some p => bool_decide (is_Some (fs s !! p))
    | None => false
    end) ;;
  match fn with
  | Some p =>
      if negb present then ret tt
      else
        let subject : list observer := [] in
        subject <- (if send_email self
                    then o <- EmailObserver.init 0 ;;
                         ret (NotificationSubject.attach subject o)
                    else ret subject) ;;
        subject <- (if send_telegram self
                    then o <- TelegramObserver.init 1 ;;
                         ret (NotificationSubject.attach subject o)
                    else ret subject) ;;
        NotificationSubject.notify subject
          (EtlDone (Py.basename p))
          {| kw_subject := Some (ExportOf (Py.basename p));
             kw_body := Some (ExportFile (Py.basename p));
             kw_attachment_path := Some p |}
  | None => ret tt
  end.

Definition _send_report (self : ETL) : M unit :=
  error_handler (Some "report sending error") true 0 "_send_report"
    (_send_report_wrapped self).

(** The three stages inside the [try] of [run]. *)
Definition stages (self : ETL) : M unit :=
  data <- extract self ;;
  transformed <- transform self data ;;
  load self transformed None.

Definition run (self : ETL) : M unit :=
  error_handler (Some "ETL run error") true 0 "run" (
    log INFO RunParameters ;;
    modify (fun s => set_metrics (Some (clock s)) (memory_usage s) 0 s) ;;
    try_finally (stages self)
                (_send_report self ;; _log_metrics)).

End ETLBase.

(** ** etl/etl_postgres.py *)

(** A session whose methods do what they are asked, on a query that is
    there. *)
Definition healthy : Database :=
  {| query_error := None; commit_error := None;
     rollback_error := None; close_error := None |}.

(** The iterator that [extract] returns for a database [source]:
    [Chunks chunks failure] is a cursor that yields the frames of [chunks]
    and then stops or raises [failure], in a healthy session, and a single
    frame a cursor that yields it; [Extraction db chunks failure] is that
    cursor on a database that fails as [db] tells. *)
Definition extraction (source : Data) : Data :=
  match source with
  | Frame df => Extraction healthy [df] None
  | Chunks chunks failure => Extraction healthy chunks failure
  | Extraction db chunks failure => Extraction db chunks failure
  end.

(** [extract] is a generator function: calling it runs nothing of its body
    and hands back the iterator, so that nothing reaches its decorators;
    the body runs inside the loop of the strategy.  [dir] is the export
    directory that [__init__] makes a [Path] of.  [transform] returns its
    argument. *)
Definition PostgresETL (fmt : string) (comp : option string) (dir : string)
    (email tg : bool) (source : Data) : ETL :=
  {| export_format := fmt;
     compression := comp;
     exports_path := Py.Path dir;
     send_email := email;
     send_telegram := tg;
     extract := error_handler (Some "data extraction error") true 0 "extract"
                  (ret (extraction source));
     transform := fun data => ret data |}.

(** ** etl/etl_facade.py *)

Module ETLFacade.

(** The lines that the facade logs itself. *)
Inductive line :=
| Starting
| Finished (export_file : option string)
| Failed (e : exn).

(** [run_etl] of a facade built on [etl]: the outcome, the state of the
    process and the lines of the facade, in the order of their logging. *)
Definition run_etl (etl : ETL) (s : State)
    : result (option string) * State * list (level * line) :=
  match ETLBase.run etl s with
  | (Ok _, s') =>
      let export_file := filename s' in
      (Ok export_file, s', [(INFO, Starting); (INFO, Finished export_file)])
  | (Raise e, s') =>
      (Raise e, s', [(INFO, Starting); (ERROR, Failed e)])
  end.

End ETLFacade.


(** ** etl/import pandas as pd.py *)

(** The class of a credit by its sum, on whole sums. *)
Definition sum_credit_type (val : Z) : string :=
  if (val <? 15000)%Z then "0 - 14 999"
  else if (val <? 30000)%Z then "15 000 - 29 999"
  else if (val <? 45000)%Z then "30 000 - 44 999"
  else if (val <? 60000)%Z then "45 000 - 59 999"
  else if (val <? 75000)%Z then "60 000 - 74 999"
  else if (val <? 90000)%Z then "75 000 - 89 999"
  else if (val <? 105000)%Z then "90 000 - 104 999"
  else if (val <? 120000)%Z then "105 000 - 119 999"
  else if (val <? 135000)%Z then "120 000 - 134 999"
  else if (val <? 150000)%Z then "135 000 - 149 999"
  else "150 000+".

(** * Properties *)

(** ** Vocabulary of the statements *)

(** The batches that a strategy does not skip, and their rows. *)
Definition nonempty (chunks : list DataFrame) : list DataFrame :=
  List.filter (fun c => negb (empty c)) chunks.

Definition total_rows (chunks : list DataFrame) : nat :=
  sum_list (map len (nonempty chunks)).

(** The arguments of the recorded calls of the metrics callback. *)
Definition callbacks (t : list event) : list nat :=
  omap (fun e => match e with Callback n => Some n | _ => None end) t.

(** The recorded calls of the pandas write primitives. *)
Definition is_write (e : event) : bool :=
  match e with
  | ToCsv _ _ _ _ _ | ToJson _ _ _ _ | ToExcel _ _ | ToParquet _ _ _ => true
  | _ => false
  end.

Definition writes (t : list event) : list event :=
  omap (fun e => if is_write e then Some e else None) t.

(** The recorded calls of [update], by observer. *)
Definition updates (t : list event) : list nat :=
  omap (fun e => match e with Update i => Some i | _ => None end) t.

(** A callback that returns normally and touches nothing but the metrics
    of the run; the orchestrator's [_update_metrics] is one. *)
Definition passive (f : nat -> M unit) : Prop :=
  forall n s, exists t mem r, f n s = (Ok tt, set_metrics t mem r s).

Definition passive_cb (cb : option (nat -> M unit)) : Prop :=
  match cb with
  | None => True
  | Some f => passive f
  end.

(** What [save] calls its callback with: nothing when there is none. *)
Definition reported (cb : option (nat -> M unit)) (chunks : list DataFrame) : list nat :=
  match cb with
  | None => []
  | Some _ => map len (nonempty chunks)
  end.

(** The lines of a text file, piece after piece. *)
Definition piece_lines (p : piece) : list line :=
  match p with
  | CsvPiece _ ls | JsonPiece _ ls => ls
  | _ => []
  end.

Definition file_lines (f : file) : list line := concat (map piece_lines f).

(** Compression values that the spreadsheet strategy lets through. *)
Definition xlsx_allows (compression : option string) : bool :=
  match normalize_compression compression with
  | None => true
  | Some c => String.eqb c "infer"
  end.

(** What a reader of [utf-8-sig] makes of a text: the mark at its start,
    if there is one, is taken off. *)
Definition unsign_cell (c : string) : string :=
  match c with
  | String a (String b (String d r)) =>
      if Ascii.eqb a (ascii_of_nat 239) && Ascii.eqb b (ascii_of_nat 187)
         && Ascii.eqb d (ascii_of_nat 191)
      then r else c
  | _ => c
  end.

Definition unsigned (ls : list line) : list line :=
  match ls with
  | HeaderLine (c :: cols) :: r => HeaderLine (unsign_cell c :: cols) :: r
  | DataLine (c :: cells) :: r => DataLine (unsign_cell c :: cells) :: r
  | _ => ls
  end.

(** The lines that reading a delimited-text file back gives. *)
Definition read_csv (f : file) : list line := unsigned (file_lines f).


(** ** Vocabulary of the traces and files *)

(** The calls of [to_csv] that a run of the loop makes. *)
Definition csv_writes (p : string) (c : option string) (mode : write_mode)
    (header : bool) (chunks : list DataFrame) : list event :=
  match nonempty chunks with
  | [] => []
  | ch :: rest => ToCsv p mode header c ch :: map (ToCsv p mode_a false c) rest
  end.

(** What one call of [to_csv] adds: under a codec, or at the start of
    the file, the text begins with the mark. *)
Definition csv_piece (c : option string) (at_start header : bool) (chunk : DataFrame)
    : piece :=
  CsvPiece c (if at_start then signed (csv_lines header chunk)
              else csv_lines header chunk).

Definition compressed (c : option string) : bool :=
  match c with
  | Some _ => true
  | None => false
  end.

Definition csv_pieces (c : option string) (at_start header : bool)
    (chunks : list DataFrame) : file :=
  match nonempty chunks with
  | [] => []
  | ch :: rest =>
      csv_piece c at_start header ch
      :: map (csv_piece c (compressed c) false) rest
  end.

(** Where the text layer of [to_csv] finds its stream. *)
Definition at_start (mode : write_mode) (c : option string) (p : string) (s : State)
    : bool :=
  match mode, c with
  | mode_a, None => blank (default [] (fs s !! p))
  | _, _ => true
  end.

(** Compression values that [infer_compression] takes, and the codec it
    makes of them. *)
Definition pandas_takes (compression : option string) : bool :=
  match compression with
  | None => true
  | Some c =>
      String.eqb c "infer"
      || bool_decide (c ∈ ["gzip"; "bz2"; "zip"; "xz"; "zstd"; "tar"])
  end.

Definition codec_at (path : string) (compression : option string) : option string :=
  match compression with
  | Some c => if String.eqb c "infer" then by_extension path else Some c
  | None => None
  end.

(** Compression values that pyarrow takes. *)
Definition parquet_takes (compression : option string) : bool :=
  match compression with
  | None => true
  | Some c => parquet_codec c
  end.

(** The non-empty batches have no label twice. *)
Definition distinct (chunks : list DataFrame) : Prop :=
  Forall (fun c => NoDup (columns c)) (nonempty chunks).

(** The outcome of a loop over an iterator that ends with [failure]. *)
Definition outcome {A} (failure : option exn) (a : A) : result A :=
  match failure with
  | None => Ok a
  | Some e => Raise e
  end.

Definition csv_codec (compression : option string) : option string :=
  let c := normalize_compression compression in
  if bool_decide (c = Some "infer") then None else c.

(** What each strategy needs to write its batches: a compression value
    that its writer, if it is called at all, takes (for the spreadsheet:
    that its guard lets through) and, for the writers that build records
    or a table, labels that are distinct. *)
Definition writable (saver : Saver) (compression : option string)
    (chunks : list DataFrame) : Prop :=
  match saver with
  | csv_saver => nonempty chunks <> [] -> pandas_takes (csv_codec compression) = true
  | xlsx_saver => xlsx_allows compression = true
  | json_saver =>
      (nonempty chunks <> [] -> pandas_takes (normalize_compression compression) = true)
      /\ distinct chunks
  | parquet_saver =>
      (nonempty chunks <> [] -> parquet_takes compression = true) /\ distinct chunks
  end.

(** The calls of [to_excel]: each batch starts where the counter stands. *)
Fixpoint xlsx_writes (startrow : nat) (chunks : list DataFrame) : list event :=
  match chunks with
  | [] => []
  | ch :: rest =>
      if empty ch then xlsx_writes startrow rest
      else ToExcel startrow ch :: xlsx_writes (startrow + len ch) rest
  end.

(** The sheet that the loop of the spreadsheet strategy builds. *)
Fixpoint xlsx_sheet (startrow : nat) (chunks : list DataFrame) (sh : option sheet)
    : option sheet :=
  match chunks with
  | [] => sh
  | ch :: rest =>
      if empty ch then xlsx_sheet startrow rest sh
      else xlsx_sheet (startrow + len ch) rest
             (Some (put_rows startrow (columns ch :: rows ch) (default ∅ sh)))
  end.

(** The calls of [to_json] that a run of the loop makes. *)
Definition json_writes (p : string) (c : option string) (mode : write_mode)
    (chunks : list DataFrame) : list event :=
  match nonempty chunks with
  | [] => []
  | ch :: rest => ToJson p mode c ch :: map (ToJson p mode_a c) rest
  end.

Definition json_pieces (c : option string) (chunks : list DataFrame) : file :=
  map (fun x => JsonPiece c (json_lines x)) (nonempty chunks).

Definition metrics_logs (t : list event) : list (Z * nat) :=
  omap (fun e => match e with
                 | Log _ (Metrics m n) => Some (m, n)
                 | _ => None
                 end) t.

Definition is_metrics_log (e : event) : bool :=
  match e with Log _ (Metrics _ _) => true | _ => false end.

Definition is_update (e : event) : bool :=
  match e with Update _ => true | _ => false end.

(** [only P c]: whatever its outcome, all that [c] does to the state is to
    append events to the trace, each of them in [P]. *)
Definition only {A} (P : event -> bool) (c : M A) : Prop :=
  forall s, exists t,
    (c s).2 = set_trace (fun tr => tr ++ t) s /\ forallb P t = true.

(** No metrics line, as everything outside [_log_metrics]. *)
Definition calm {A} (c : M A) : Prop := only (fun e => negb (is_metrics_log e)) c.

(** What the chain of [error_handler] does to an exception: it logs it,
    notifies, and raises it again. *)
Definition handled {A} (log_message : option string) (notify : bool)
    (name : string) (e : exn) : M A :=
  log ERROR (Failure (if Py.truthy log_message then default "" log_message
                      else "Error in " +:+ name) e) ;;
  (if notify then
     tg <- TelegramObserver.init 0 ;;
     NotificationSubject.notify (NotificationSubject.attach [] tg)
       (ErrorIn name e) no_kwargs
   else ret tt) ;;
  raise e.

(** An observer of one of the two channel classes. *)
Definition channel (o : observer) : Prop := cls o <> BaseObserver.

(** The frames handed to the pandas writers, in order. *)
Definition chunk_of (e : event) : option DataFrame :=
  match e with
  | ToCsv _ _ _ _ c | ToJson _ _ _ c | ToExcel _ c | ToParquet _ _ c => Some c
  | _ => None
  end.

Definition written (t : list event) : list DataFrame := omap chunk_of t.

(** The state in which [run] enters its [try]. *)
Definition started (s : State) : State :=
  set_metrics (Some (clock s)) (memory_usage s) 0
    (set_trace (fun t => t ++ [Log INFO RunParameters])
       (set_trace (fun t => t ++ [Enter "run"]) s)).

(** The state after [_log_metrics]. *)
Definition logged (s : State) : State :=
  set_trace (fun t => t ++ [Log INFO (Metrics (ETLBase.max_mem (memory_usage s))
                                            (rows_processed s))]) s.

(** ** Vocabulary of the further properties *)

(** [keeps R c]: the state in which [c] ends, normally or not, is related
    by [R] to the one in which it starts. *)
Definition keeps {A} (R : State -> State -> Prop) (c : M A) : Prop :=
  forall s, R s (c s).2.

Definition keeps_cb (R : State -> State -> Prop) (cb : option (nat -> M unit)) : Prop :=
  match cb with
  | None => True
  | Some f => forall n, keeps R (f n)
  end.

(** The events of the generator of [extract]: the calls on the session
    and the lines of the session manager. *)
Definition is_session_event (e : event) : bool :=
  match e with
  | Session _ | Log DEBUG TransactionBegun | Log DEBUG TransactionCommitted
  | Log ERROR (TransactionFailed _) | Log DEBUG SessionClosed => true
  | _ => false
  end.

(** [iterates data chunks t1 t2 failure]: a loop over [data] gets the
    frames of [chunks]; asking for the first makes the iterator add the
    events [t1], asking for one after the last makes it add [t2] and then
    stop, or raise [failure]. *)
Definition iterates (data : Data) (chunks : list DataFrame) (t1 t2 : list event)
    (failure : option exn) : Prop :=
  let '(first, frames, last) := SaverStrategy._iter_chunks data in
  frames = chunks
  /\ (forall s, first s = (Ok tt, set_trace (fun t => t ++ t1) s))
  /\ (forall s, last s = (outcome failure tt, set_trace (fun t => t ++ t2) s))
  /\ forallb is_session_event (t1 ++ t2) = true.

(** What the session of a healthy database is asked and logs when the
    cursor has ended. *)
Definition session_end (failure : option exn) : list event :=
  match failure with
  | None => [Session Commit; Log DEBUG TransactionCommitted]
  | Some e => [Session Rollback; Log ERROR (TransactionFailed e)]
  end ++ [Session Close; Log DEBUG SessionClosed].

(** The events of the loops of the strategies: their log lines, the
    file operations and the calls of the callback. *)
Definition is_loop_event (e : event) : bool :=
  match e with
  | Log DEBUG SkipEmptyChunk | Log INFO (ChunkWritten _) | Log WARNING AllChunksEmpty
  | Unlink _ | ToCsv _ _ _ _ _ | ToJson _ _ _ _ | WriterOpen _ | ToExcel _ _
  | WriterClose _ | ToParquet _ _ _ | Callback _ => true
  | _ => false
  end.

(** The events of the strategies: those of their loops, and what the
    iterator does when the loop asks it for a frame. *)
Definition is_saver_event (e : event) : bool :=
  is_loop_event e || is_session_event e.

(** Files other than [p] are what they were. *)
Definition elsewhere (p : string) (s s' : State) : Prop :=
  forall q, q <> p -> fs s' !! q = fs s !! q.

(** The attributes of the ETL object other than its metrics, and the
    surroundings of the process, are what they were. *)
Definition same_object (s s' : State) : Prop :=
  filename s' = filename s /\ env s' = env s /\ timestamp s' = timestamp s
  /\ clock s' = clock s /\ smtp_up s' = smtp_up s /\ telegram_up s' = telegram_up s.

(** The counters of the run have only grown. *)
Definition grown (s s' : State) : Prop :=
  rows_processed s <= rows_processed s'
  /\ memory_usage s `prefix_of` memory_usage s'.

(** The error lines of [LoggingDecorator], with their messages. *)
Definition failures (t : list event) : list (string * exn) :=
  omap (fun e => match e with
                 | Log ERROR (Failure m x) => Some (m, x)
                 | _ => None
                 end) t.

Definition same_failures (s s' : State) : Prop :=
  failures (trace s') = failures (trace s).

(** The message of the error line of [LoggingDecorator]. *)
Definition error_msg (log_message : option string) (name : string) : string :=
  if Py.truthy log_message then default "" log_message else "Error in " +:+ name.

(** Events of logging and notification: everything but the metrics line,
    the writers and the metrics callback. *)
Definition is_notice (e : event) : bool :=
  match e with
  | Log _ (Metrics _ _) => false
  | Log _ _ | Update _ | Enter _ | SmtpSend _ _ _ | TelegramPost _ => true
  | _ => false
  end.

(** Events of one dispatch to observers: the calls of [update], what the
    channels send and what they log, none of it at the error level. *)
Definition is_dispatch (e : event) : bool :=
  match e with
  | Log ERROR _ | Log _ (Metrics _ _) => false
  | Log _ _ | Update _ | SmtpSend _ _ _ | TelegramPost _ => true
  | _ => false
  end.

(** Calls of [attach] and [detach] on one subject. *)
Inductive subject_call :=
| Attach (o : observer)
| Detach (o : observer).

Definition subject_step (_observers : list observer) (c : subject_call) : list observer :=
  match c with
  | Attach o => NotificationSubject.attach _observers o
  | Detach o => NotificationSubject.detach _observers o
  end.

(** The mails handed to the SMTP server, the messages posted to Telegram. *)
Definition mails (t : list event) : list event :=
  omap (fun e => match e with SmtpSend _ _ _ => Some e | _ => None end) t.

Definition posts (t : list event) : list text :=
  omap (fun e => match e with TelegramPost m => Some m | _ => None end) t.

(** The messages posted to Telegram are what they were. *)
Definition same_posts (s s' : State) : Prop := posts (trace s') = posts (trace s).

(** Whether a message to Telegram goes out: token and chat are in the
    environment and the service answers. *)
Definition telegram_goes_out (s : State) : bool :=
  Py.truthy (env s !! "TELEGRAM_BOT_TOKEN") && Py.truthy (env s !! "TELEGRAM_CHAT_ID")
  && telegram_up s.

(** What one observer posts to Telegram when it is told [message]. *)
Definition posted (up : bool) (message : text) (o : observer) : list text :=
  match cls o with
  | Telegram c => if TelegramObserver.complete c && up then [message] else []
  | _ => []
  end.

(** Whether an e-mail goes out: the configuration is complete, the
    attachment, if one is asked for, can be read, and the server answers. *)
Definition email_goes_out (c : EmailConfig) (kwargs : Kwargs) (s : State) : bool :=
  EmailObserver.complete c
  && match kw_attachment_path kwargs with
     | Some p => negb (Py.truthy (Some p)) || bool_decide (is_Some (fs s !! p))
     | None => true
     end
  && smtp_up s.

Definition same_mails (s s' : State) : Prop := mails (trace s') = mails (trace s).

(** Whether the report goes out by e-mail: the configuration that
    [EmailObserver()] reads from the environment is complete and the
    server answers. *)
Definition email_configured (s : State) : bool :=
  match (EmailObserver.init 0 s).1 with
  | Ok o =>
      match cls o with
      | Email c => EmailObserver.complete c && smtp_up s
      | _ => false
      end
  | Raise _ => false
  end.

(** What one observer mails when it is told [message]. *)
Definition mailed (s : State) (message : text) (kwargs : Kwargs) (o : observer)
    : list event :=
  match cls o with
  | Email c =>
      if email_goes_out c kwargs s
      then [SmtpSend (default Notice (kw_subject kwargs)) message
              (kw_attachment_path kwargs)]
      else []
  | _ => []
  end.

(** The calls that reach the session, without the lines of the log. *)
Definition session_calls (t : list event) : list session_method :=
  omap (fun e => match e with Session m => Some m | _ => None end) t.

(** The lines at the error level: those of [LoggingDecorator], with
    their messages, and those of the session manager. *)
Inductive error_line :=
| Decorated (log_message : string) (e : exn)
| Transaction (e : exn).

Definition error_lines (t : list event) : list error_line :=
  omap (fun e => match e with
                 | Log ERROR (Failure m x) => Some (Decorated m x)
                 | Log ERROR (TransactionFailed x) => Some (Transaction x)
                 | _ => None
                 end) t.

Definition same_error_lines (s s' : State) : Prop :=
  error_lines (trace s') = error_lines (trace s).

(** A spelling of a word of small letters: its letters in order, each
    of them small or capital. *)
Definition spells (word : string) (cs : list N) : Prop :=
  Forall2 (fun c w => c = w \/ (c + 32)%N = w) cs (Py.chars word).

(** A text without slash. *)
Definition no_slash (s : string) : bool :=
  forallb (fun c => negb (Ascii.eqb c "/")) (list_ascii_of_string s).

(** A number below a million as the labels of the classes write it:
    decimal, with a space before the last three digits. *)
Definition digit_char (d : Z) : string :=
  String (ascii_of_nat (48 + Z.to_nat d)) "".

Definition decimal3 (n : Z) : string :=
  if (n <? 10)%Z then digit_char n
  else if (n <? 100)%Z then digit_char (n / 10) +:+ digit_char (n mod 10)
  else digit_char (n / 100) +:+ digit_char (n / 10 mod 10) +:+ digit_char (n mod 10).

Definition spaced (n : Z) : string :=
  if (n <? 1000)%Z then decimal3 n
  else decimal3 (n / 1000) +:+ " "
       +:+ digit_char (n mod 1000 / 100) +:+ digit_char (n / 10 mod 10)
       +:+ digit_char (n mod 10).

(** ** Inputs of the examples *)

(** A process without configuration, before any run. *)
Definition fresh (e : gmap string string) : State :=
  {| fs := ∅; env := e; trace := []; smtp_up := true; telegram_up := true;
     clock := 0; timestamp := "01.01.2025_00-00-00"; probe := fun _ => 1%Z;
     book := ∅; filename := None; start_time := None; memory_usage := [];
     rows_processed := 0 |}.

(** The two batches of the scenario of the specification. *)
Definition batch1 : DataFrame := {| columns := ["id"; "name"]; rows := [["1"; "a"]] |}.
Definition batch2 : DataFrame := {| columns := ["id"; "name"]; rows := [["2"; "b"]] |}.

Definition bad_port : gmap string string := {["EMAIL_SMTP_PORT" := "abc"]}.

Definition csv_job : ETL :=
  PostgresETL "csv" None "exports" true true (Chunks [batch1] None).

Definition xlsx_empty_job : ETL :=
  PostgresETL "xlsx" None "exports" true true (Chunks [] None).

Definition mail_env : gmap string string :=
  list_to_map [("EMAIL_SMTP_SERVER", "smtp.example.org"); ("EMAIL_USER", "etl");
               ("EMAIL_PASSWORD", "secret"); ("EMAIL_SENDER", "etl@example.org");
               ("EMAIL_RECIPIENT", "ops@example.org")].

(** Two channels, the first without configuration. *)
Definition email_then_telegram : list observer :=
  [ {| oid := 0;
       cls := Email {| smtp_server := None; smtp_port := 465; user := None;
                       password := None; sender := None; recipient := None |} |};
    {| oid := 1; cls := Telegram {| token := Some "t"; chat_id := Some "c" |} |} ].

Definition base_then_telegram : list observer :=
  [ {| oid := 0; cls := BaseObserver |};
    {| oid := 1; cls := Telegram {| token := Some "t"; chat_id := Some "c" |} |} ].

(** A process that finds the file of an earlier export. *)
Definition with_old_file : State :=
  set_fs (fun _ => {["old.json" := [JsonPiece None []]]}) (fresh ∅).

(** What an attempt of the two functions below leaves in the state. *)
Definition fetch_tick : State -> State :=
  set_trace (fun t => t ++ [Enter "fetch"]).

(** A function that fails twice and then returns: it fails as long as
    fewer than two events are on the trace. *)
Definition flaky_fetch : M unit :=
  n <- gets (fun s => length (trace s)) ;;
  if Nat.ltb n 2 then emit (Enter "fetch") ;; raise (SourceError "busy")
  else ret tt.

(** A function that fails at every attempt. *)
Definition failing_fetch : M unit :=
  emit (Enter "fetch") ;; raise (SourceError "down").

Definition upper_job : ETL :=
  PostgresETL "CSV" None "exports" false false (Chunks [batch1] None).

Definition xlsx_gzip_job : ETL :=
  PostgresETL "xlsx" (Some "gzip") "exports" false false (Chunks [batch1] None).

Definition csv_empty_job : ETL :=
  PostgresETL "csv" None "exports" true true (Chunks [] None).

Definition third_observer : observer := {| oid := 2; cls := BaseObserver |}.

(** The first of the two channels of [email_then_telegram]. *)
Definition unconfigured_email : observer :=
  {| oid := 0;
     cls := Email {| smtp_server := None; smtp_port := 465; user := None;
                     password := None; sender := None; recipient := None |} |}.

(** An environment that configures both channels. *)
Definition report_env : gmap string string :=
  list_to_map [("EMAIL_SMTP_SERVER", "smtp.example.org"); ("EMAIL_USER", "etl");
               ("EMAIL_PASSWORD", "secret"); ("EMAIL_SENDER", "etl@example.org");
               ("EMAIL_RECIPIENT", "ops@example.org");
               ("TELEGRAM_BOT_TOKEN", "token"); ("TELEGRAM_CHAT_ID", "chat")].

Arguments write_file : simpl never.

(** ** Basic facts *)

Lemma nonempty_cons c chunks :
  nonempty (c :: chunks) = if empty c then nonempty chunks else c :: nonempty chunks.
Proof. unfold nonempty. simpl. by destruct (empty c). Qed.

Lemma total_rows_cons c chunks :
  total_rows (c :: chunks) =
  if empty c then total_rows chunks else len c + total_rows chunks.
Proof. unfold total_rows. rewrite nonempty_cons. by destruct (empty c). Qed.

Lemma callbacks_app t1 t2 : callbacks (t1 ++ t2) = callbacks t1 ++ callbacks t2.
Proof. apply omap_app. Qed.

Lemma writes_app t1 t2 : writes (t1 ++ t2) = writes t1 ++ writes t2.
Proof. apply omap_app. Qed.

Lemma updates_app t1 t2 : updates (t1 ++ t2) = updates t1 ++ updates t2.
Proof. apply omap_app. Qed.

Lemma passive_update_metrics : passive ETLBase._update_metrics.
Proof. intros n s. by eexists _, _, _. Qed.

Lemma call_passive cb n s :
  passive_cb cb ->
  exists t mem r,
    call cb n s =
    (Ok tt, set_metrics t mem r
              (set_trace (fun tr => tr ++ match cb with
                                          | Some _ => [Callback n]
                                          | None => []
                                          end) s)).
Proof.
  destruct cb as [f|]; simpl; intros Hf.
  - destruct (Hf n (set_trace (fun tr => tr ++ [Callback n]) s)) as (t & mem & r & E).
    exists t, mem, r. unfold bind, emit, modify. by rewrite E.
  - exists (start_time s), (memory_usage s), (rows_processed s).
    unfold ret. f_equal. destruct s; unfold set_metrics, set_trace; simpl.
    by rewrite app_nil_r.
Qed.

(** Unfolding of the monad on a state. *)
Ltac monad :=
  cbn [bind ret raise gets modify emit log try_except try_finally
       SaverStrategy.exhausted SaverStrategy._iter_chunks].

Ltac with_callback H cb n st :=
  let t := fresh "t" in let mem := fresh "mem" in let r := fresh "r" in
  let E := fresh "E" in
  destruct (call_passive cb n st H) as (t & mem & r & E).

Lemma set_trace_nil s : set_trace (fun tr => tr ++ []) s = s.
Proof. destruct s. unfold set_trace. simpl. by rewrite app_nil_r. Qed.

Lemma set_trace_app t1 t2 s :
  set_trace (fun tr => tr ++ t2) (set_trace (fun tr => tr ++ t1) s)
  = set_trace (fun tr => tr ++ (t1 ++ t2)) s.
Proof. destruct s. unfold set_trace. simpl. by rewrite app_assoc. Qed.

Lemma bind_ok {A B} (c : M A) (k : A -> M B) s a s' :
  c s = (Ok a, s') -> bind c k s = k a s'.
Proof. unfold bind. by intros ->. Qed.

Lemma write_file_append mode p ps qs (m : gmap string file) :
  write_file mode_a p ps (write_file mode p qs m) = write_file mode p (qs ++ ps) m.
Proof.
  destruct mode; unfold write_file; rewrite lookup_insert_eq, insert_insert_eq; simpl.
  - done.
  - by rewrite app_assoc.
Qed.

Lemma session_events_silent t :
  forallb is_session_event t = true ->
  callbacks t = [] /\ writes t = [] /\ updates t = [].
Proof.
  induction t as [|e t IH]; [done|]. simpl. intros [He Ht]%andb_prop.
  destruct (IH Ht) as (H1 & H2 & H3). unfold callbacks, writes, updates in *. simpl.
  rewrite H1, H2, H3. by destruct e.
Qed.

Lemma iterates_chunks chunks failure : iterates (Chunks chunks failure) chunks [] [] failure.
Proof.
  unfold iterates. simpl. split; [done|]. split; [|split; [|done]]; intros s.
  - unfold ret. by rewrite set_trace_nil.
  - rewrite set_trace_nil. by destruct failure.
Qed.

Lemma iterates_frame df : iterates (Frame df) [df] [] [] None.
Proof.
  unfold iterates. simpl. split; [done|].
  split; [|split; [|done]]; intros s; unfold ret, outcome; by rewrite set_trace_nil.
Qed.

Lemma iterates_healthy chunks failure :
  iterates (Extraction healthy chunks failure) chunks
    [Session NewSession; Log DEBUG TransactionBegun] (session_end failure) failure.
Proof.
  unfold iterates. simpl. split; [done|]. split; [|split].
  - intros s.
    cbv [Extract.first healthy query_error UnitOfWork.run UnitOfWork.enter
         UnitOfWork.bind UnitOfWork.tell].
    by rewrite set_trace_app.
  - intros s.
    destruct failure;
      cbv [Extract.last healthy commit_error rollback_error close_error outcome
           UnitOfWork.run UnitOfWork.leave UnitOfWork.ended UnitOfWork.method
           UnitOfWork.try_finally UnitOfWork.try_except UnitOfWork.bind
           UnitOfWork.tell UnitOfWork.ret UnitOfWork.raise session_end];
      by rewrite !set_trace_app.
  - by destruct failure.
Qed.

(** *** The writers *)

Lemma infer_compression_takes p c s :
  pandas_takes c = true -> infer_compression p c s = (Ok (codec_at p c), s).
Proof.
  unfold infer_compression, pandas_takes, codec_at. destruct c as [c|]; [|done].
  destruct (String.eqb c "infer"); [done|]. cbn [orb]. by intros ->.
Qed.

Lemma infer_compression_refuses p c s :
  pandas_takes (Some c) = false ->
  infer_compression p (Some c) s = (Raise (UnrecognizedCompression c), s).
Proof.
  unfold infer_compression, pandas_takes.
  destruct (String.eqb c "infer"); [done|]. cbn [orb]. by intros ->.
Qed.

Lemma csv_codec_not_infer comp : csv_codec comp <> Some "infer".
Proof. unfold csv_codec. cbv zeta. by case_bool_decide. Qed.

Lemma csv_codec_at p comp : codec_at p (csv_codec comp) = csv_codec comp.
Proof.
  pose proof (csv_codec_not_infer comp) as H. unfold codec_at.
  destruct (csv_codec comp) as [c|]; [|done].
  destruct (String.eqb_spec c "infer"); [congruence|done].
Qed.

Lemma to_csv_ok chunk p mode header c s :
  pandas_takes c = true ->
  to_csv chunk p mode header c s
  = (Ok tt,
     set_trace (fun t => t ++ [ToCsv p mode header c chunk])
       (set_fs (write_file mode p
                  [csv_piece (codec_at p c) (at_start mode (codec_at p c) p s)
                     header chunk]) s)).
Proof.
  intros H. unfold to_csv. rewrite (bind_ok _ _ _ _ _ (infer_compression_takes p c s H)).
  monad. unfold at_start, csv_piece. by destruct mode, (codec_at p c).
Qed.

Lemma to_csv_refuses chunk p mode header c s :
  pandas_takes (Some c) = false ->
  to_csv chunk p mode header (Some c) s = (Raise (UnrecognizedCompression c), s).
Proof.
  intros H. unfold to_csv, bind. by rewrite (infer_compression_refuses p c s H).
Qed.

Lemma to_json_ok chunk p c mode s :
  NoDup (columns chunk) ->
  pandas_takes c = true ->
  to_json chunk p c mode s
  = (Ok tt,
     set_trace (fun t => t ++ [ToJson p mode c chunk])
       (set_fs (write_file mode p [JsonPiece (codec_at p c) (json_lines chunk)]) s)).
Proof.
  intros Hd H. unfold to_json. rewrite bool_decide_eq_true_2 by done.
  by rewrite (bind_ok _ _ _ _ _ (infer_compression_takes p c s H)).
Qed.

Lemma to_parquet_ok chunk p c s :
  NoDup (columns chunk) ->
  parquet_takes c = true ->
  to_parquet chunk p c s
  = (Ok tt,
     set_trace (fun t => t ++ [ToParquet p c chunk])
       (set_fs (write_file mode_w p [ParquetPiece c chunk]) s)).
Proof.
  intros Hd H. unfold to_parquet. rewrite bool_decide_eq_true_2 by done.
  destruct c as [c|]; [|done]. cbn [parquet_takes] in H. by rewrite H.
Qed.

Lemma csv_piece_filled c a header ch :
  empty ch = false -> exists l ls, csv_piece c a header ch = CsvPiece c (l :: ls).
Proof.
  unfold empty, csv_piece, csv_lines. intros [_ H]%orb_false_elim.
  destruct (rows ch) as [|r rs]; [done|].
  destruct a, header; cbn; eauto.
  all: destruct (columns ch); cbn; eauto.
Qed.

Lemma at_start_appending mode c a header ch p s s' :
  empty ch = false ->
  fs s' = write_file mode p [csv_piece c a header ch] (fs s) ->
  at_start mode_a c p s' = compressed c.
Proof.
  intros He Hf. destruct c as [c|]; [done|]. cbn [at_start compressed]. rewrite Hf.
  destruct (csv_piece_filled None a header ch He) as (l & ls & ->).
  unfold write_file, blank. destruct mode; rewrite lookup_insert_eq; [done|].
  destruct (fs s !! p) as [old|]; simpl; [|done].
  rewrite forallb_app. simpl. apply andb_false_r.
Qed.

(** *** The loops of the strategies *)

Lemma csv_loop_spec cb p c :
  passive_cb cb ->
  forall chunks total mode header s,
  (nonempty chunks <> [] -> pandas_takes c = true) ->
  exists s',
    CsvSaver.loop chunks p c cb total mode header s
    = (Ok (total + total_rows chunks), s')
    /\ callbacks (trace s') = callbacks (trace s) ++ reported cb chunks
    /\ writes (trace s') = writes (trace s) ++ csv_writes p c mode header chunks
    /\ fs s' = (match nonempty chunks with
                | [] => fs s
                | _ => write_file mode p
                         (csv_pieces (codec_at p c) (at_start mode (codec_at p c) p s)
                            header chunks) (fs s)
                end).
Proof.
  intros Hcb. induction chunks as [|ch rest IH]; intros total mode header s Ht.
  - exists s. simpl. unfold total_rows, csv_writes, reported; simpl.
    rewrite Nat.add_0_r, !app_nil_r. destruct cb; simpl; rewrite ?app_nil_r; done.
  - simpl. unfold csv_writes, csv_pieces, reported.
    rewrite total_rows_cons. rewrite nonempty_cons in Ht |- *.
    destruct (empty ch) eqn:Hemp.
    + monad.
      destruct (IH total mode header
                  (set_trace (fun t => t ++ [Log DEBUG SkipEmptyChunk]) s) Ht)
        as (s' & -> & Hc & Hw & Hf).
      exists s'. split; [done|]. rewrite Hc, Hw, Hf. simpl.
      rewrite callbacks_app, writes_app. simpl. rewrite !app_nil_r. done.
    + assert (pandas_takes c = true) as Hc' by (by apply Ht).
      rewrite (bind_ok _ _ _ _ _ (to_csv_ok ch p mode header c s Hc')).
      match goal with |- context [bind (call cb (len ch)) _ ?st] =>
        with_callback Hcb cb (len ch) st end.
      rewrite (bind_ok _ _ _ _ _ E). monad.
      match goal with |- context [CsvSaver.loop _ _ _ _ _ _ _ ?st] =>
        destruct (IH (total + len ch) mode_a false st (fun _ => Hc'))
          as (s' & -> & Hc & Hw & Hf);
        rewrite (at_start_appending mode (codec_at p c)
                   (at_start mode (codec_at p c) p s) header ch p s st Hemp eq_refl) in Hf
      end.
      exists s'. split; [f_equal; f_equal; lia|]. rewrite Hc, Hw, Hf. simpl.
      rewrite !callbacks_app, !writes_app. simpl. rewrite !app_nil_r.
      split; [|split].
      * destruct cb; simpl; rewrite <- ?app_assoc, ?app_nil_r; done.
      * destruct cb; simpl; rewrite ?app_nil_r, <- app_assoc; unfold csv_writes;
          by destruct (nonempty rest).
      * unfold csv_pieces. destruct (nonempty rest); [done|].
        by rewrite write_file_append.
Qed.

Lemma csv_save_spec cb p comp data chunks t1 t2 f s :
  passive_cb cb ->
  iterates data chunks t1 t2 f ->
  (nonempty chunks <> [] -> pandas_takes (csv_codec comp) = true) ->
  exists s',
    CsvSaver.save data p comp cb s = (outcome f (total_rows chunks), s')
    /\ callbacks (trace s') = callbacks (trace s) ++ reported cb chunks
    /\ writes (trace s') = writes (trace s) ++ csv_writes p (csv_codec comp) mode_w true chunks
    /\ fs s' = (match nonempty chunks with
                | [] => delete p (fs s)
                | _ => <[p := csv_pieces (csv_codec comp) true true chunks]> (fs s)
                end).
Proof.
  intros Hcb Hit Ht. unfold CsvSaver.save, unlink. monad. fold (csv_codec comp).
  unfold iterates in Hit.
  destruct (SaverStrategy._iter_chunks data) as [[first frames] last].
  destruct Hit as (-> & Hfirst & Hlast & Hev).
  rewrite forallb_app in Hev. apply andb_prop in Hev as [Hev1 Hev2].
  destruct (session_events_silent t1 Hev1) as (C1 & W1 & _).
  destruct (session_events_silent t2 Hev2) as (C2 & W2 & _).
  rewrite (bind_ok _ _ _ _ _ (Hfirst _)).
  match goal with |- context [bind (CsvSaver.loop _ _ ?c _ _ _ _) _ ?st] =>
    destruct (csv_loop_spec cb p c Hcb chunks 0 mode_w true st Ht)
      as (s' & E & Hc & Hw & Hf) end.
  cbn [Nat.add] in E. rewrite (bind_ok _ _ _ _ _ E).
  rewrite csv_codec_at in Hf. cbn [at_start] in Hf.
  assert (Hfs : fs s' = match nonempty chunks with
                | [] => delete p (fs s)
                | _ => <[p := csv_pieces (csv_codec comp) true true chunks]> (fs s)
                end).
  { rewrite Hf. cbn [fs set_fs set_trace]. destruct (nonempty chunks); [done|].
    unfold write_file. by rewrite insert_delete_eq. }
  cbn [trace set_trace set_fs] in Hc, Hw.
  rewrite !callbacks_app, !writes_app, C1, W1 in *. simpl in Hc, Hw.
  rewrite !app_nil_r in *.
  unfold bind at 1. rewrite Hlast. destruct f as [e|]; cbn [outcome].
  - eexists. split; [reflexivity|]. cbn [trace fs set_trace].
    by rewrite callbacks_app, writes_app, C2, W2, !app_nil_r.
  - destruct (Nat.eqb (total_rows chunks) 0); monad; eexists; (split; [reflexivity|]);
      cbn [trace fs set_trace set_fs]; rewrite ?callbacks_app, ?writes_app, C2, W2; simpl;
      rewrite ?app_nil_r; done.
Qed.

Lemma xlsx_loop_spec cb :
  passive_cb cb ->
  forall chunks startrow total s,
  exists s',
    ExcelSaver.loop chunks cb startrow total s = (Ok (total + total_rows chunks), s')
    /\ callbacks (trace s') = callbacks (trace s) ++ reported cb chunks
    /\ writes (trace s') = writes (trace s) ++ xlsx_writes startrow chunks
    /\ fs s' = fs s
    /\ (match nonempty chunks with
        | [] => book s' = book s
        | _ => is_Some (book s' !! "Data")
        end)
    /\ (is_Some (book s !! "Data") -> is_Some (book s' !! "Data")).
Proof.
  intros Hcb. induction chunks as [|ch rest IH]; intros startrow total s.
  - exists s. simpl. unfold total_rows, reported; simpl.
    rewrite Nat.add_0_r, !app_nil_r. destruct cb; simpl; rewrite ?app_nil_r; done.
  - simpl. unfold reported.
    rewrite total_rows_cons, nonempty_cons. destruct (empty ch) eqn:Hemp.
    + monad.
      destruct (IH startrow total (set_trace (fun t => t ++ [Log DEBUG SkipEmptyChunk]) s))
        as (s' & -> & Hc & Hw & Hf & Hb & Hk).
      exists s'. split; [done|]. rewrite Hc, Hw, Hf. simpl.
      rewrite callbacks_app, writes_app. simpl. rewrite !app_nil_r. done.
    + unfold to_excel. monad.
      match goal with |- context [bind (call cb (len ch)) _ ?st] =>
        with_callback Hcb cb (len ch) st end.
      rewrite (bind_ok _ _ _ _ _ E). monad.
      match goal with |- context [ExcelSaver.loop _ _ _ _ ?st] =>
        destruct (IH (startrow + len ch) (total + len ch) st)
          as (s' & -> & Hc & Hw & Hf & Hb & Hk) end.
      exists s'. split; [f_equal; f_equal; lia|]. rewrite Hc, Hw, Hf.
      cbn [trace fs book set_trace set_fs set_book set_metrics] in *.
      rewrite !callbacks_app, !writes_app. simpl. rewrite !app_nil_r.
      split; [|split; [|split; [done|split]]].
      * destruct cb; simpl; rewrite <- ?app_assoc, ?app_nil_r; done.
      * destruct cb; simpl; rewrite ?app_nil_r, <- app_assoc; done.
      * apply Hk. rewrite lookup_insert_eq. by eexists.
      * intros _. apply Hk. rewrite lookup_insert_eq. by eexists.
Qed.

Lemma normalize_not_blank comp : normalize_compression comp <> Some "".
Proof.
  destruct comp as [v|]; [|done]. unfold normalize_compression.
  case_bool_decide as H; [done|]. intros [= ->]. apply H. vm_compute.
  do 2 apply list_elem_of_further. apply list_elem_of_here.
Qed.

Lemma xlsx_guard comp :
  Py.truthy (normalize_compression comp)
  && negb (bool_decide (normalize_compression comp = Some "infer"))
  = negb (xlsx_allows comp).
Proof.
  unfold xlsx_allows. pose proof (normalize_not_blank comp) as H.
  destruct (normalize_compression comp) as [c|]; [|done]. simpl.
  destruct (String.eqb_spec c ""); [congruence|]. simpl.
  case_bool_decide as Hc; destruct (String.eqb_spec c "infer"); congruence.
Qed.

Lemma xlsx_save_refused data p comp cb s :
  xlsx_allows comp = false ->
  ExcelSaver.save data p comp cb s = (Raise ExcelCompression, s).
Proof. intros H. unfold ExcelSaver.save. rewrite xlsx_guard, H. done. Qed.

Lemma xlsx_save_spec cb p comp data chunks t1 t2 f s :
  passive_cb cb ->
  iterates data chunks t1 t2 f ->
  xlsx_allows comp = true ->
  exists s',
    ExcelSaver.save data p comp cb s
    = (match nonempty chunks with
       | [] => Raise NoVisibleSheet
       | _ => outcome f (total_rows chunks)
       end, s')
    /\ callbacks (trace s') = callbacks (trace s) ++ reported cb chunks
    /\ writes (trace s') = writes (trace s) ++ xlsx_writes 0 chunks
    /\ fs s' = (match nonempty chunks with
                | [] => <[p := []]> (fs s)
                | _ => <[p := [XlsxPiece (book s')]]> (fs s)
                end).
Proof.
  intros Hcb Hit Hok. unfold ExcelSaver.save. rewrite xlsx_guard, Hok. cbn [negb].
  unfold with_ExcelWriter, ExcelWriter_open. monad. unfold try_finally.
  unfold iterates in Hit.
  destruct (SaverStrategy._iter_chunks data) as [[first frames] last].
  destruct Hit as (-> & Hfirst & Hlast & Hev).
  rewrite forallb_app in Hev. apply andb_prop in Hev as [Hev1 Hev2].
  destruct (session_events_silent t1 Hev1) as (C1 & W1 & _).
  destruct (session_events_silent t2 Hev2) as (C2 & W2 & _).
  rewrite (bind_ok _ _ _ _ _ (Hfirst _)).
  match goal with |- context [bind (ExcelSaver.loop _ _ _ _) _ ?st] =>
    destruct (xlsx_loop_spec cb Hcb chunks 0 0 st)
      as (s' & E & Hc & Hw & Hf & Hb & _) end.
  cbn [Nat.add] in E. rewrite (bind_ok _ _ _ _ _ E).
  unfold bind at 1. rewrite Hlast.
  unfold ExcelWriter_close.
  cbn [trace fs book set_trace set_fs set_book] in Hc, Hw, Hf, Hb.
  rewrite !callbacks_app, !writes_app, C1, W1 in *. simpl in Hc, Hw.
  rewrite !app_nil_r in *.
  assert (forall (r : result nat),
    exists s'',
      (let (r0, s0) := (r, set_trace (fun t => t ++ t2) s') in
       match (b <- gets book;;
              (if bool_decide (b = ∅) then raise NoVisibleSheet
               else modify (set_fs (write_file mode_w p [XlsxPiece b]));;
                    emit (WriterClose p))) s0 with
       | (Ok _, s1) => (r0, s1)
       | (Raise e, s1) => (Raise e, s1)
       end)
      = (match nonempty chunks with [] => Raise NoVisibleSheet | _ => r end, s'')
      /\ callbacks (trace s'') = callbacks (trace s) ++ reported cb chunks
      /\ writes (trace s'') = writes (trace s) ++ xlsx_writes 0 chunks
      /\ fs s'' = match nonempty chunks with
                  | [] => <[p := []]> (fs s)
                  | _ => <[p := [XlsxPiece (book s'')]]> (fs s)
                  end) as Hclose.
  { intros r. monad. cbn [book set_trace].
    destruct (nonempty chunks) as [|c0 l].
    - rewrite Hb. rewrite bool_decide_eq_true_2 by done. monad.
      eexists. split; [reflexivity|]. cbn [trace fs set_trace].
      by rewrite callbacks_app, writes_app, C2, W2, !app_nil_r.
    - rewrite bool_decide_eq_false_2.
      2:{ intros Hempty. rewrite Hempty, lookup_empty in Hb. by destruct Hb. }
      monad. eexists. split; [reflexivity|].
      cbn [trace fs book set_trace set_fs set_book].
      rewrite !callbacks_app, !writes_app, C2, W2. simpl. rewrite !app_nil_r.
      repeat split; try done.
      rewrite Hf. unfold write_file. by rewrite insert_insert_eq. }
  destruct f as [e|]; cbn [outcome]; [apply (Hclose (Raise e))|].
  monad. apply (Hclose (Ok (total_rows chunks))).
Qed.

Lemma json_loop_spec cb p c :
  passive_cb cb ->
  forall chunks total mode s,
  (nonempty chunks <> [] -> pandas_takes c = true) ->
  distinct chunks ->
  exists s',
    JsonSaver.loop chunks p c cb total mode s = (Ok (total + total_rows chunks), s')
    /\ callbacks (trace s') = callbacks (trace s) ++ reported cb chunks
    /\ writes (trace s') = writes (trace s) ++ json_writes p c mode chunks
    /\ fs s' = (match nonempty chunks with
                | [] => fs s
                | _ => write_file mode p (json_pieces (codec_at p c) chunks) (fs s)
                end).
Proof.
  intros Hcb. induction chunks as [|ch rest IH]; intros total mode s Ht Hd.
  - exists s. simpl. unfold total_rows, json_writes, reported; simpl.
    rewrite Nat.add_0_r, !app_nil_r. destruct cb; simpl; rewrite ?app_nil_r; done.
  - simpl. unfold json_writes, json_pieces, reported.
    unfold distinct in Hd. rewrite total_rows_cons. rewrite nonempty_cons in Ht, Hd |- *.
    destruct (empty ch) eqn:Hemp.
    + destruct (IH total mode s Ht Hd) as (s' & -> & Hc & Hw & Hf).
      exists s'. split; [done|]. by rewrite Hc, Hw, Hf.
    + assert (pandas_takes c = true) as Hc' by (by apply Ht).
      apply Forall_cons in Hd as [Hd1 Hd].
      rewrite (bind_ok _ _ _ _ _ (to_json_ok ch p c mode s Hd1 Hc')).
      match goal with |- context [bind (call cb (len ch)) _ ?st] =>
        with_callback Hcb cb (len ch) st end.
      rewrite (bind_ok _ _ _ _ _ E).
      match goal with |- context [JsonSaver.loop _ _ _ _ _ _ ?st] =>
        destruct (IH (total + len ch) mode_a st (fun _ => Hc') Hd)
          as (s' & -> & Hc & Hw & Hf) end.
      exists s'. split; [f_equal; f_equal; lia|]. rewrite Hc, Hw, Hf.
      cbn [trace fs set_trace set_fs set_metrics].
      rewrite !callbacks_app, !writes_app. simpl. rewrite !app_nil_r.
      split; [|split].
      * destruct cb; simpl; rewrite <- ?app_assoc, ?app_nil_r; done.
      * destruct cb; simpl; rewrite ?app_nil_r, <- app_assoc; unfold json_writes;
          by destruct (nonempty rest).
      * unfold json_pieces. destruct (nonempty rest); [done|].
        by rewrite write_file_append.
Qed.

Lemma json_save_spec cb p comp data chunks t1 t2 f s :
  passive_cb cb ->
  iterates data chunks t1 t2 f ->
  (nonempty chunks <> [] -> pandas_takes (normalize_compression comp) = true) ->
  distinct chunks ->
  exists s',
    JsonSaver.save data p comp cb s = (outcome f (total_rows chunks), s')
    /\ callbacks (trace s') = callbacks (trace s) ++ reported cb chunks
    /\ writes (trace s')
       = writes (trace s) ++ json_writes p (normalize_compression comp) mode_w chunks
    /\ fs s' = (match nonempty chunks with
                | [] => fs s
                | _ => <[p := json_pieces (codec_at p (normalize_compression comp)) chunks]>
                         (fs s)
                end).
Proof.
  intros Hcb Hit Ht Hd. unfold JsonSaver.save. cbv zeta.
  unfold iterates in Hit.
  destruct (SaverStrategy._iter_chunks data) as [[first frames] last].
  destruct Hit as (-> & Hfirst & Hlast & Hev).
  rewrite forallb_app in Hev. apply andb_prop in Hev as [Hev1 Hev2].
  destruct (session_events_silent t1 Hev1) as (C1 & W1 & _).
  destruct (session_events_silent t2 Hev2) as (C2 & W2 & _).
  rewrite (bind_ok _ _ _ _ _ (Hfirst _)).
  match goal with |- context [bind (JsonSaver.loop _ _ ?c _ _ _) _ ?st] =>
    destruct (json_loop_spec cb p c Hcb chunks 0 mode_w st Ht Hd)
      as (s' & E & Hc & Hw & Hf) end.
  cbn [Nat.add] in E. rewrite (bind_ok _ _ _ _ _ E).
  cbn [trace fs set_trace] in Hc, Hw, Hf.
  rewrite !callbacks_app, !writes_app, C1, W1, !app_nil_r in *.
  unfold bind at 1. rewrite Hlast. destruct f as [e|]; cbn [outcome].
  - eexists. split; [reflexivity|]. cbn [trace fs set_trace].
    by rewrite callbacks_app, writes_app, C2, W2, !app_nil_r.
  - destruct (Nat.eqb (total_rows chunks) 0); monad; eexists; (split; [reflexivity|]);
      cbn [trace fs set_trace set_fs]; rewrite ?callbacks_app, ?writes_app, C2, W2; simpl;
      rewrite ?app_nil_r; done.
Qed.

Lemma parquet_loop_spec cb p c :
  passive_cb cb ->
  forall chunks total s,
  (nonempty chunks <> [] -> parquet_takes c = true) ->
  distinct chunks ->
  exists s',
    ParquetSaver.loop chunks p c cb total s = (Ok (total + total_rows chunks), s')
    /\ callbacks (trace s') = callbacks (trace s) ++ reported cb chunks
    /\ writes (trace s') = writes (trace s) ++ map (ToParquet p c) (nonempty chunks)
    /\ fs s' = (match last (nonempty chunks) with
                | None => fs s
                | Some ch => <[p := [ParquetPiece c ch]]> (fs s)
                end).
Proof.
  intros Hcb. induction chunks as [|ch rest IH]; intros total s Ht Hd.
  - exists s. simpl. unfold total_rows, reported; simpl.
    rewrite Nat.add_0_r, !app_nil_r. destruct cb; simpl; rewrite ?app_nil_r; done.
  - simpl. unfold reported.
    unfold distinct in Hd. rewrite total_rows_cons. rewrite nonempty_cons in Ht, Hd |- *.
    destruct (empty ch) eqn:Hemp.
    + destruct (IH total s Ht Hd) as (s' & -> & Hc & Hw & Hf).
      exists s'. split; [done|]. by rewrite Hc, Hw, Hf.
    + assert (parquet_takes c = true) as Hc' by (by apply Ht).
      apply Forall_cons in Hd as [Hd1 Hd].
      rewrite (bind_ok _ _ _ _ _ (to_parquet_ok ch p c s Hd1 Hc')).
      match goal with |- context [bind (call cb (len ch)) _ ?st] =>
        with_callback Hcb cb (len ch) st end.
      rewrite (bind_ok _ _ _ _ _ E).
      match goal with |- context [ParquetSaver.loop _ _ _ _ _ ?st] =>
        destruct (IH (total + len ch) st (fun _ => Hc') Hd) as (s' & -> & Hc & Hw & Hf) end.
      exists s'. split; [f_equal; f_equal; lia|]. rewrite Hc, Hw, Hf.
      cbn [trace fs set_trace set_fs set_metrics].
      rewrite !callbacks_app, !writes_app. simpl. rewrite !app_nil_r.
      split; [|split].
      * destruct cb; simpl; rewrite <- ?app_assoc, ?app_nil_r; done.
      * destruct cb; simpl; rewrite ?app_nil_r, <- app_assoc; done.
      * rewrite last_cons. destruct (last (nonempty rest)); [|done].
        unfold write_file. by rewrite insert_insert_eq.
Qed.

Lemma parquet_save_spec cb p comp data chunks t1 t2 f s :
  passive_cb cb ->
  iterates data chunks t1 t2 f ->
  (nonempty chunks <> [] -> parquet_takes comp = true) ->
  distinct chunks ->
  exists s',
    ParquetSaver.save data p comp cb s = (outcome f (total_rows chunks), s')
    /\ callbacks (trace s') = callbacks (trace s) ++ reported cb chunks
    /\ writes (trace s') = writes (trace s) ++ map (ToParquet p comp) (nonempty chunks)
    /\ fs s' = (match last (nonempty chunks) with
                | None => fs s
                | Some ch => <[p := [ParquetPiece comp ch]]> (fs s)
                end).
Proof.
  intros Hcb Hit Ht Hd. unfold ParquetSaver.save.
  unfold iterates in Hit.
  destruct (SaverStrategy._iter_chunks data) as [[first frames] last].
  destruct Hit as (-> & Hfirst & Hlast & Hev).
  rewrite forallb_app in Hev. apply andb_prop in Hev as [Hev1 Hev2].
  destruct (session_events_silent t1 Hev1) as (C1 & W1 & _).
  destruct (session_events_silent t2 Hev2) as (C2 & W2 & _).
  rewrite (bind_ok _ _ _ _ _ (Hfirst _)).
  match goal with |- context [bind (ParquetSaver.loop _ _ _ _ _) _ ?st] =>
    destruct (parquet_loop_spec cb p comp Hcb chunks 0 st Ht Hd)
      as (s' & E & Hc & Hw & Hf) end.
  cbn [Nat.add] in E. rewrite (bind_ok _ _ _ _ _ E).
  cbn [trace fs set_trace] in Hc, Hw, Hf.
  rewrite !callbacks_app, !writes_app, C1, W1, !app_nil_r in *.
  unfold bind at 1. rewrite Hlast. destruct f as [e|]; cbn [outcome]; monad;
    eexists; (split; [reflexivity|]); cbn [trace fs set_trace];
    by rewrite callbacks_app, writes_app, C2, W2, !app_nil_r.
Qed.

(** *** The counters under the orchestrator's callback *)

Ltac metrics_step IH H :=
  cbn [bind ret raise gets modify emit log call ETLBase._update_metrics to_excel];
  match goal with
  | |- context [CsvSaver.loop _ _ _ _ ?a ?b ?c ?st] => destruct (IH a b c st H) as [-> ->]
  | |- context [ExcelSaver.loop _ _ ?a ?b ?st] => destruct (IH a b st) as [-> ->]
  | |- context [JsonSaver.loop _ _ _ _ ?a ?b ?st] => destruct (IH a b st H) as [-> ->]
  | |- context [ParquetSaver.loop _ _ _ _ ?a ?st] => destruct (IH a st H) as [-> ->]
  end;
  cbn [rows_processed memory_usage set_metrics set_trace set_fs set_book];
  rewrite ?length_app; simpl; lia.

Lemma csv_loop_metrics p c chunks :
  forall total mode header s,
    (nonempty chunks <> [] -> pandas_takes c = true) ->
    rows_processed (CsvSaver.loop chunks p c (Some ETLBase._update_metrics)
                      total mode header s).2
    = rows_processed s + total_rows chunks
    /\ length (memory_usage (CsvSaver.loop chunks p c (Some ETLBase._update_metrics)
                               total mode header s).2)
       = length (memory_usage s) + length (nonempty chunks).
Proof.
  induction chunks as [|ch rest IH]; intros total mode header s Ht; cbn [CsvSaver.loop].
  - unfold total_rows. simpl. lia.
  - rewrite total_rows_cons. rewrite nonempty_cons in Ht |- *.
    destruct (empty ch).
    + metrics_step IH Ht.
    + assert (pandas_takes c = true) as Hc by (by apply Ht).
      rewrite (bind_ok _ _ _ _ _ (to_csv_ok ch p mode header c s Hc)).
      metrics_step IH (fun _ : nonempty rest <> [] => Hc).
Qed.

Lemma xlsx_loop_metrics chunks :
  forall startrow total s,
    rows_processed (ExcelSaver.loop chunks (Some ETLBase._update_metrics)
                      startrow total s).2
    = rows_processed s + total_rows chunks
    /\ length (memory_usage (ExcelSaver.loop chunks (Some ETLBase._update_metrics)
                               startrow total s).2)
       = length (memory_usage s) + length (nonempty chunks).
Proof.
  induction chunks as [|ch rest IH]; intros startrow total s; cbn [ExcelSaver.loop].
  - unfold total_rows. simpl. lia.
  - rewrite total_rows_cons, nonempty_cons. destruct (empty ch); metrics_step IH I.
Qed.

Lemma json_loop_metrics p c chunks :
  forall total mode s,
    ((nonempty chunks <> [] -> pandas_takes c = true) /\ distinct chunks) ->
    rows_processed (JsonSaver.loop chunks p c (Some ETLBase._update_metrics)
                      total mode s).2
    = rows_processed s + total_rows chunks
    /\ length (memory_usage (JsonSaver.loop chunks p c (Some ETLBase._update_metrics)
                               total mode s).2)
       = length (memory_usage s) + length (nonempty chunks).
Proof.
  induction chunks as [|ch rest IH]; intros total mode s [Ht Hd]; cbn [JsonSaver.loop].
  - unfold total_rows. simpl. lia.
  - unfold distinct in Hd. rewrite total_rows_cons. rewrite nonempty_cons in Ht, Hd |- *.
    destruct (empty ch).
    + metrics_step IH (conj Ht Hd).
    + assert (pandas_takes c = true) as Hc by (by apply Ht).
      apply Forall_cons in Hd as [Hd1 Hd].
      rewrite (bind_ok _ _ _ _ _ (to_json_ok ch p c mode s Hd1 Hc)).
      metrics_step IH (conj (fun _ : nonempty rest <> [] => Hc) Hd).
Qed.

Lemma parquet_loop_metrics p c chunks :
  forall total s,
    ((nonempty chunks <> [] -> parquet_takes c = true) /\ distinct chunks) ->
    rows_processed (ParquetSaver.loop chunks p c (Some ETLBase._update_metrics)
                      total s).2
    = rows_processed s + total_rows chunks
    /\ length (memory_usage (ParquetSaver.loop chunks p c (Some ETLBase._update_metrics)
                               total s).2)
       = length (memory_usage s) + length (nonempty chunks).
Proof.
  induction chunks as [|ch rest IH]; intros total s [Ht Hd]; cbn [ParquetSaver.loop].
  - unfold total_rows. simpl. lia.
  - unfold distinct in Hd. rewrite total_rows_cons. rewrite nonempty_cons in Ht, Hd |- *.
    destruct (empty ch).
    + metrics_step IH (conj Ht Hd).
    + assert (parquet_takes c = true) as Hc by (by apply Ht).
      apply Forall_cons in Hd as [Hd1 Hd].
      rewrite (bind_ok _ _ _ _ _ (to_parquet_ok ch p c s Hd1 Hc)).
      metrics_step IH (conj (fun _ : nonempty rest <> [] => Hc) Hd).
Qed.
(** *** Computations that only write to the trace *)

Lemma metrics_logs_app t1 t2 :
  metrics_logs (t1 ++ t2) = metrics_logs t1 ++ metrics_logs t2.
Proof. apply omap_app. Qed.

Lemma no_metrics_logs t :
  forallb (fun e => negb (is_metrics_log e)) t = true -> metrics_logs t = [].
Proof.
  induction t as [|e t IH]; [done|]. simpl. intros [He Ht]%andb_prop.
  unfold metrics_logs in *. simpl. rewrite (IH Ht).
  by destruct e as [? []| | | | | | | | | | | | |].
Qed.

Lemma no_updates t :
  forallb (fun e => negb (is_update e)) t = true -> updates t = [].
Proof.
  induction t as [|e t IH]; [done|]. simpl. intros [He Ht]%andb_prop.
  unfold updates in *. simpl. rewrite (IH Ht). by destruct e.
Qed.

Section Only.
Context (P : event -> bool).

Lemma only_ret {A} (a : A) : only P (ret a).
Proof. intros s. exists []. by rewrite set_trace_nil. Qed.

Lemma only_raise {A} e : only P (@raise A e).
Proof. intros s. exists []. by rewrite set_trace_nil. Qed.

Lemma only_gets {A} (f : State -> A) : only P (gets f).
Proof. intros s. exists []. by rewrite set_trace_nil. Qed.

Lemma only_emit e : P e = true -> only P (emit e).
Proof. intros H s. exists [e]. split; [done|]. simpl. by rewrite H. Qed.

Lemma only_bind {A B} (c : M A) (k : A -> M B) :
  only P c -> (forall a, only P (k a)) -> only P (bind c k).
Proof.
  intros Hc Hk s. unfold bind. destruct (Hc s) as (t1 & E1 & Q1).
  destruct (c s) as [[a|e] s1]; simpl in E1; subst s1.
  - destruct (Hk a (set_trace (fun tr => tr ++ t1) s)) as (t2 & E2 & Q2).
    exists (t1 ++ t2). rewrite E2, set_trace_app, forallb_app, Q1, Q2. done.
  - by exists t1.
Qed.

Lemma only_try_except {A} (c : M A) (h : exn -> M A) :
  only P c -> (forall e, only P (h e)) -> only P (try_except c h).
Proof.
  intros Hc Hh s. unfold try_except. destruct (Hc s) as (t1 & E1 & Q1).
  destruct (c s) as [[a|e] s1]; simpl in E1; subst s1.
  - by exists t1.
  - destruct (Hh e (set_trace (fun tr => tr ++ t1) s)) as (t2 & E2 & Q2).
    exists (t1 ++ t2). rewrite E2, set_trace_app, forallb_app, Q1, Q2. done.
Qed.
End Only.

Ltac only_step :=
  match goal with
  | |- calm _ => unfold calm
  | |- only _ (ret _) => apply only_ret
  | |- only _ (raise _) => apply only_raise
  | |- only _ (gets _) => apply only_gets
  | |- only _ (emit _) => apply only_emit; reflexivity
  | |- only _ (log _ _) => unfold log
  | |- only _ (bind _ _) => apply only_bind; [|intros ?]
  | |- only _ (try_except _ _) => apply only_try_except; [|intros ?]
  | |- only _ (if ?b then _ else _) => destruct b
  | |- only _ (match ?x with _ => _ end) => destruct x
  end.

Lemma only_class_update P o message kwargs :
  (forall l m, P (Log l m) = negb (is_metrics_log (Log l m))) ->
  (forall a b c, P (SmtpSend a b c) = true) ->
  (forall a, P (TelegramPost a) = true) ->
  only P (match cls o with
          | BaseObserver => Observer.update message kwargs
          | Email c => EmailObserver.update c message kwargs
          | Telegram c => TelegramObserver.update c message kwargs
          end).
Proof.
  intros Hlog Hsmtp Htg.
  assert (forall l m, is_metrics_log (Log l m) = false -> only P (log l m)) as Hl.
  { intros l m Hm. apply only_emit. by rewrite Hlog, Hm. }
  unfold Observer.update, EmailObserver.update, EmailObserver._attach_file,
    TelegramObserver.update.
  repeat first [ apply Hl; reflexivity
               | apply only_emit; first [apply Hsmtp | apply Htg]
               | only_step ].
Qed.

Lemma calm_update o message kwargs : calm (update o message kwargs).
Proof.
  unfold update. do 2 only_step; [only_step|].
  by apply only_class_update.
Qed.

Lemma calm_notify hs message kwargs : calm (NotificationSubject.notify hs message kwargs).
Proof.
  induction hs as [|o rest IH]; simpl; [apply only_ret|].
  apply only_bind; [apply calm_update | intros _; apply IH].
Qed.

Lemma calm_handled {A} lm nt name e : calm (@handled A lm nt name e).
Proof.
  unfold handled, TelegramObserver.init.
  repeat first [apply calm_notify | only_step].
Qed.

Lemma email_update_ok c message kwargs s :
  exists b, (EmailObserver.update c message kwargs s).1 = Ok b
            /\ (EmailObserver.complete c = false -> b = false).
Proof.
  unfold EmailObserver.update, EmailObserver._attach_file.
  destruct (EmailObserver.complete c); cbn [negb]; monad; [|by exists false].
  unfold try_except, bind, gets, log, emit, modify, raise, ret.
  destruct (kw_attachment_path kwargs) as [p|];
    [destruct (Py.truthy (Some p)); [destruct (fs s !! p)|]|];
    cbn [smtp_up set_trace]; destruct (smtp_up s); cbn [fst]; eauto.
Qed.

Lemma telegram_update_ok c message kwargs s :
  exists b, (TelegramObserver.update c message kwargs s).1 = Ok b
            /\ (TelegramObserver.complete c = false -> b = false).
Proof.
  unfold TelegramObserver.update.
  destruct (TelegramObserver.complete c); cbn [negb]; monad; [|by exists false].
  exists (telegram_up s). split; [|done].
  unfold try_except. monad. destruct (telegram_up s); monad; done.
Qed.

Lemma update_ok o message kwargs s :
  channel o -> exists b, (update o message kwargs s).1 = Ok b.
Proof.
  unfold channel, update. intros Ho. monad.
  destruct (cls o) as [|c|c]; [done| |].
  - destruct (email_update_ok c message kwargs
                (set_trace (fun t => t ++ [Update (oid o)]) s)) as (b & E & _).
    by exists b.
  - destruct (telegram_update_ok c message kwargs
                (set_trace (fun t => t ++ [Update (oid o)]) s)) as (b & E & _).
    by exists b.
Qed.

Lemma update_trace o message kwargs s :
  updates (trace (update o message kwargs s).2) = updates (trace s) ++ [oid o].
Proof.
  unfold update. monad.
  assert (forall st, updates (trace (match cls o with
     | BaseObserver => Observer.update message kwargs
     | Email c => EmailObserver.update c message kwargs
     | Telegram c => TelegramObserver.update c message kwargs
     end st).2) = updates (trace st)) as H.
  { intros st.
    destruct (only_class_update (fun e => negb (is_update e) && negb (is_metrics_log e))
                o message kwargs) with (s := st) as (t & -> & Ht); [done..|].
    cbn [trace set_trace]. rewrite updates_app, (no_updates t); [by rewrite app_nil_r|].
    apply forallb_forall. intros e He. rewrite forallb_forall in Ht.
    by destruct (andb_prop _ _ (Ht e He)). }
  rewrite H. cbn [trace set_trace]. by rewrite updates_app.
Qed.

Lemma notify_ok hs message kwargs s :
  Forall channel hs ->
  (NotificationSubject.notify hs message kwargs s).1 = Ok tt
  /\ updates (trace (NotificationSubject.notify hs message kwargs s).2)
     = updates (trace s) ++ map oid hs.
Proof.
  intros H. revert s. induction H as [|o rest Ho _ IH]; intros s; simpl.
  - by rewrite app_nil_r.
  - destruct (update_ok o message kwargs s Ho) as (b & Eb).
    pose proof (update_trace o message kwargs s) as Ht.
    unfold bind. destruct (update o message kwargs s) as [r s1]. simpl in Eb, Ht.
    subst r. destruct (IH s1) as [-> ->]. split; [done|].
    by rewrite Ht, <- app_assoc.
Qed.

Lemma attach_nil o : NotificationSubject.attach [] o = [o].
Proof. reflexivity. Qed.

Lemma handled_raises {A} lm nt name e s : (@handled A lm nt name e s).1 = Raise e.
Proof.
  unfold handled, log, TelegramObserver.init. monad.
  destruct nt; monad; [|done].
  unfold bind, gets, ret, raise. cbn beta iota. rewrite attach_nil.
  match goal with |- context [NotificationSubject.notify ?hs ?m ?k ?st] =>
    destruct (notify_ok hs m k st) as [E _]; [by apply Forall_cons|];
    destruct (NotificationSubject.notify hs m k st) as [r s1]; simpl in E; by subst r
  end.
Qed.

Lemma error_handler_eq {A} lm nt name (c : M A) s :
  error_handler lm nt 0 name c s
  = match c (set_trace (fun tr => tr ++ [Enter name]) s) with
    | (Ok a, s') => (Ok a, s')
    | (Raise e, s') => @handled A lm nt name e s'
    end.
Proof.
  unfold error_handler, NotificationDecorator.handle, LoggingDecorator.handle,
    RetryDecorator.handle, handled, TelegramObserver.init.
  unfold try_except, bind, emit, modify, log, raise, ret, gets. cbn beta iota.
  destruct (c _) as [[a|e] s']; [done|]. cbn beta iota.
  destruct nt; unfold emit, modify; cbn beta iota; [|done].
  match goal with |- context [NotificationSubject.notify ?a ?b ?c ?d] =>
    destruct (NotificationSubject.notify a b c d) as [[[]|e'] s'']; done end.
Qed.

Lemma written_writes t : written t = omap chunk_of (writes t).
Proof.
  unfold written, writes. induction t as [|e t IH]; [done|].
  destruct e; simpl; first [exact IH | f_equal; exact IH].
Qed.

Lemma written_csv p c mode header chunks :
  omap chunk_of (csv_writes p c mode header chunks) = nonempty chunks.
Proof.
  unfold csv_writes. destruct (nonempty chunks) as [|ch rest]; [done|].
  simpl. f_equal. induction rest as [|x rest IH]; [done|]. simpl. f_equal. exact IH.
Qed.

Lemma written_json p c mode chunks :
  omap chunk_of (json_writes p c mode chunks) = nonempty chunks.
Proof.
  unfold json_writes. destruct (nonempty chunks) as [|ch rest]; [done|].
  simpl. f_equal. induction rest as [|x rest IH]; [done|]. simpl. f_equal. exact IH.
Qed.

Lemma written_xlsx chunks : forall startrow,
  omap chunk_of (xlsx_writes startrow chunks) = nonempty chunks.
Proof.
  induction chunks as [|ch rest IH]; intros startrow; [done|].
  cbn [xlsx_writes]. rewrite nonempty_cons.
  destruct (empty ch); [apply IH|]. simpl. f_equal. apply IH.
Qed.

Lemma written_parquet p c chunks :
  omap chunk_of (map (ToParquet p c) chunks) = chunks.
Proof. induction chunks as [|ch rest IH]; [done|]. simpl. f_equal. exact IH. Qed.

Lemma save_spec saver cb p comp data chunks t1 t2 f s :
  passive_cb cb ->
  iterates data chunks t1 t2 f ->
  writable saver comp chunks ->
  exists s',
    save saver data p comp cb s
    = (match saver, nonempty chunks with
       | xlsx_saver, [] => Raise NoVisibleSheet
       | _, _ => outcome f (total_rows chunks)
       end, s')
    /\ callbacks (trace s') = callbacks (trace s) ++ reported cb chunks
    /\ written (trace s') = written (trace s) ++ nonempty chunks.
Proof.
  intros Hcb Hit Hx. destruct saver; cbn [save writable] in *.
  - destruct (csv_save_spec cb p comp data chunks t1 t2 f s Hcb Hit Hx)
      as (s' & E & Hc & Hw & _).
    exists s'. rewrite (written_writes (trace s')), (written_writes (trace s)), Hw, omap_app, written_csv.
    split; [|split]; [|assumption|reflexivity]. rewrite E. by destruct (nonempty chunks).
  - destruct (xlsx_save_spec cb p comp data chunks t1 t2 f s Hcb Hit Hx)
      as (s' & E & Hc & Hw & _).
    exists s'. rewrite (written_writes (trace s')), (written_writes (trace s)), Hw, omap_app, written_xlsx.
    split; [|split]; [assumption|assumption|reflexivity].
  - destruct Hx as [Ht Hd].
    destruct (json_save_spec cb p comp data chunks t1 t2 f s Hcb Hit Ht Hd)
      as (s' & E & Hc & Hw & _).
    exists s'. rewrite (written_writes (trace s')), (written_writes (trace s)), Hw, omap_app, written_json.
    split; [|split]; [|assumption|reflexivity]. rewrite E. by destruct (nonempty chunks).
  - destruct Hx as [Ht Hd].
    destruct (parquet_save_spec cb p comp data chunks t1 t2 f s Hcb Hit Ht Hd)
      as (s' & E & Hc & Hw & _).
    exists s'. rewrite (written_writes (trace s')), (written_writes (trace s)), Hw, omap_app, written_parquet.
    split; [|split]; [|assumption|reflexivity]. rewrite E. by destruct (nonempty chunks).
Qed.

Lemma save_metrics saver p comp data chunks t1 t2 f s :
  iterates data chunks t1 t2 f ->
  writable saver comp chunks ->
  let s' := (save saver data p comp (Some ETLBase._update_metrics) s).2 in
  rows_processed s' = rows_processed s + total_rows chunks
  /\ length (memory_usage s') = length (memory_usage s) + length (nonempty chunks).
Proof.
  intros Hit Hx. pose proof passive_update_metrics as Hcb. cbv zeta.
  enough (exists s',
            (save saver data p comp (Some ETLBase._update_metrics) s).2 = s'
            /\ rows_processed s' = rows_processed s + total_rows chunks
            /\ length (memory_usage s')
               = length (memory_usage s) + length (nonempty chunks))
    as (s' & -> & H) by exact H.
  unfold iterates in Hit. destruct saver; cbn [save writable] in *.
  - unfold CsvSaver.save, unlink. monad. fold (csv_codec comp).
    destruct (SaverStrategy._iter_chunks data) as [[first frames] last].
    destruct Hit as (-> & Hfirst & Hlast & _).
    rewrite (bind_ok _ _ _ _ _ (Hfirst _)).
    match goal with |- context [bind (CsvSaver.loop _ _ ?c _ _ _ _) _ ?st] =>
      destruct (csv_loop_spec (Some ETLBase._update_metrics) p c Hcb chunks 0 mode_w true st Hx)
        as (s' & E & _);
      pose proof (csv_loop_metrics p c chunks 0 mode_w true st Hx) as Hm end.
    rewrite E in Hm. cbn [Nat.add] in E. rewrite (bind_ok _ _ _ _ _ E).
    unfold bind at 1. rewrite Hlast. destruct f; cbn [outcome]; [by eexists|].
    destruct (Nat.eqb (total_rows chunks) 0); monad; by eexists.
  - unfold ExcelSaver.save. rewrite xlsx_guard, Hx. cbn [negb].
    unfold with_ExcelWriter, ExcelWriter_open. monad. unfold try_finally.
    destruct (SaverStrategy._iter_chunks data) as [[first frames] last].
    destruct Hit as (-> & Hfirst & Hlast & _).
    rewrite (bind_ok _ _ _ _ _ (Hfirst _)).
    match goal with |- context [bind (ExcelSaver.loop _ _ _ _) _ ?st] =>
      destruct (xlsx_loop_spec (Some ETLBase._update_metrics) Hcb chunks 0 0 st)
        as (s' & E & _);
      pose proof (xlsx_loop_metrics chunks 0 0 st) as Hm end.
    rewrite E in Hm. cbn [Nat.add] in E. rewrite (bind_ok _ _ _ _ _ E).
    unfold bind at 1. rewrite Hlast. unfold ExcelWriter_close.
    destruct f; cbn [outcome]; monad; cbn [book set_trace];
      destruct (bool_decide (book s' = ∅)); monad; by eexists.
  - destruct Hx as [Ht Hd]. unfold JsonSaver.save. cbv zeta.
    destruct (SaverStrategy._iter_chunks data) as [[first frames] last].
    destruct Hit as (-> & Hfirst & Hlast & _).
    rewrite (bind_ok _ _ _ _ _ (Hfirst _)).
    match goal with |- context [bind (JsonSaver.loop _ _ ?c _ _ _) _ ?st] =>
      destruct (json_loop_spec (Some ETLBase._update_metrics) p c Hcb chunks 0 mode_w st Ht Hd)
        as (s' & E & _);
      pose proof (json_loop_metrics p c chunks 0 mode_w st (conj Ht Hd)) as Hm end.
    rewrite E in Hm. cbn [Nat.add] in E. rewrite (bind_ok _ _ _ _ _ E).
    unfold bind at 1. rewrite Hlast. destruct f; cbn [outcome]; [by eexists|].
    destruct (Nat.eqb (total_rows chunks) 0); monad; by eexists.
  - destruct Hx as [Ht Hd]. unfold ParquetSaver.save.
    destruct (SaverStrategy._iter_chunks data) as [[first frames] last].
    destruct Hit as (-> & Hfirst & Hlast & _).
    rewrite (bind_ok _ _ _ _ _ (Hfirst _)).
    match goal with |- context [bind (ParquetSaver.loop _ _ _ _ _) _ ?st] =>
      destruct (parquet_loop_spec (Some ETLBase._update_metrics) p comp Hcb chunks 0 st Ht Hd)
        as (s' & E & _);
      pose proof (parquet_loop_metrics p comp chunks 0 st (conj Ht Hd)) as Hm end.
    rewrite E in Hm. cbn [Nat.add] in E. rewrite (bind_ok _ _ _ _ _ E).
    unfold bind at 1. rewrite Hlast. destruct f; cbn [outcome]; monad; by eexists.
Qed.

Lemma calm_state {A} (c : M A) s :
  calm c ->
  exists t, (c s).2 = set_trace (fun tr => tr ++ t) s /\ metrics_logs t = [].
Proof.
  intros H. destruct (H s) as (t & E & Q). exists t. split; [done|].
  by apply no_metrics_logs.
Qed.

Lemma calm_error_handler {A} lm nt name (c : M A) :
  calm c -> calm (error_handler lm nt 0 name c).
Proof.
  intros Hc. unfold error_handler, NotificationDecorator.handle,
    LoggingDecorator.handle, RetryDecorator.handle, TelegramObserver.init.
  repeat first [apply calm_notify | exact Hc | only_step].
Qed.

Lemma calm_send_report_wrapped self : calm (ETLBase._send_report_wrapped self).
Proof.
  unfold ETLBase._send_report_wrapped, EmailObserver.init, TelegramObserver.init.
  repeat first [apply calm_notify | only_step].
Qed.

Lemma calm_send_report self : calm (ETLBase._send_report self).
Proof. apply calm_error_handler, calm_send_report_wrapped. Qed.

Lemma attach_fresh l o :
  oid o ∉ map oid l -> NotificationSubject.attach l o = l ++ [o].
Proof. intros H. unfold NotificationSubject.attach. by rewrite bool_decide_eq_false_2. Qed.

Ltac channels :=
  rewrite ?attach_nil;
  repeat (rewrite attach_fresh by
    (simpl; apply not_elem_of_cons; split; [done | apply not_elem_of_nil]));
  simpl;
  repeat (apply Forall_cons_2; [done|]); apply Forall_nil_2.

Lemma send_report_wrapped_outcome self s :
  (ETLBase._send_report_wrapped self s).1 = Ok tt
  \/ (send_email self = true
      /\ exists v, env s !! "EMAIL_SMTP_PORT" = Some v /\ Py.int v = None
                   /\ (ETLBase._send_report_wrapped self s).1 = Raise (InvalidLiteral v)).
Proof.
  unfold ETLBase._send_report_wrapped, EmailObserver.init, TelegramObserver.init.
  unfold bind, gets, ret, raise. cbn beta iota.
  destruct (filename s) as [p|]; [|by left].
  destruct (bool_decide (is_Some (fs s !! p))); cbn [negb]; [|by left].
  destruct (send_email self) eqn:Hmail.
  - destruct (env s !! "EMAIL_SMTP_PORT") as [v|] eqn:Hv.
    + destruct (Py.int v) as [z|] eqn:Hz; [|right; eauto].
      left. destruct (send_telegram self); cbn beta iota;
        match goal with |- (NotificationSubject.notify ?hs ?m ?k ?st).1 = _ =>
          apply (notify_ok hs m k st) end; channels.
    + left. destruct (send_telegram self); cbn beta iota;
        match goal with |- (NotificationSubject.notify ?hs ?m ?k ?st).1 = _ =>
          apply (notify_ok hs m k st) end; channels.
  - left. destruct (send_telegram self); cbn beta iota;
      match goal with |- (NotificationSubject.notify ?hs ?m ?k ?st).1 = _ =>
        apply (notify_ok hs m k st) end; channels.
Qed.

Lemma run_eq self s :
  ETLBase.run self s =
  let '(r, s2) := ETLBase.stages self (started s) in
  match ETLBase._send_report self s2 with
  | (Ok _, s3) =>
      match r with
      | Ok a => (Ok a, logged s3)
      | Raise e => handled (Some "ETL run error") true "run" e (logged s3)
      end
  | (Raise e', s3) => handled (Some "ETL run error") true "run" e' s3
  end.
Proof.
  unfold ETLBase.run. rewrite error_handler_eq. monad.
  unfold try_finally.
  match goal with |- context [ETLBase.stages self ?st] => change st with (started s) end.
  destruct (ETLBase.stages self (started s)) as [r s2].
  unfold bind at 1. destruct (ETLBase._send_report self s2) as [[[]|e'] s3].
  - unfold ETLBase._log_metrics. monad. by destruct r.
  - done.
Qed.

Lemma send_report_spec self s :
  exists t,
    (ETLBase._send_report self s).2
    = set_trace (fun tr => tr ++ (Enter "_send_report" :: t)) s
    /\ metrics_logs t = []
    /\ ((ETLBase._send_report self s).1 = Ok tt
        \/ (send_email self = true
            /\ exists v, env s !! "EMAIL_SMTP_PORT" = Some v /\ Py.int v = None
                 /\ (ETLBase._send_report self s).1 = Raise (InvalidLiteral v))).
Proof.
  unfold ETLBase._send_report. rewrite error_handler_eq.
  set (s1 := set_trace (fun tr => tr ++ [Enter "_send_report"]) s).
  destruct (calm_state (ETLBase._send_report_wrapped self) s1 (calm_send_report_wrapped self)) as (t & E & Q).
  pose proof (send_report_wrapped_outcome self s1) as Hr.
  destruct (ETLBase._send_report_wrapped self s1) as [[[]|e] s2]; simpl in E, Hr; subst s2.
  - exists t. split; [|split; [done|by left]].
    unfold s1. by rewrite set_trace_app.
  - destruct (calm_state (@handled unit (Some "report sending error") true
                            "_send_report" e)
                (set_trace (fun tr => tr ++ t) s1) (calm_handled _ _ _ _))
      as (t' & E' & Q').
    exists (t ++ t'). rewrite E'. unfold s1. rewrite !set_trace_app.
    split; [done|]. rewrite metrics_logs_app, Q, Q'. split; [done|].
    rewrite handled_raises. destruct Hr as [Hr|(Hm & v & Hv & Hz & Hr)]; [done|].
    right. split; [done|]. exists v. by inversion Hr.
Qed.

Lemma calm_rows {A} (c : M A) s :
  calm c -> rows_processed (c s).2 = rows_processed s.
Proof. intros H. by destruct (calm_state c s H) as (t & -> & _). Qed.

Lemma load_rows self saver data chunks t1 t2 f cb s :
  Container.saver_strategy_map !! export_format self = Some saver ->
  iterates data chunks t1 t2 f ->
  writable saver (compression self) chunks ->
  rows_processed (ETLBase.load self data cb s).2
  = rows_processed s + total_rows chunks.
Proof.
  intros Hs Hit Hx. unfold ETLBase.load. rewrite error_handler_eq, Hs.
  unfold ETLBase.generate_filename, ETLBase._build_filename.
  unfold bind, gets, ret, modify. cbn beta iota.
  match goal with |- context [save saver ?d ?p ?c ?f0 ?st] =>
    pose proof (proj1 (save_metrics saver p c d chunks t1 t2 f st Hit Hx)) as Hm;
    cbv zeta in Hm; cbn [rows_processed set_filename set_trace] in Hm;
    destruct (save saver d p c f0 st) as [[n|e] s']
  end; cbn [snd] in Hm.
  - destruct (Nat.eqb n 0).
    + unfold raise. by rewrite calm_rows by apply calm_handled.
    + done.
  - by rewrite calm_rows by apply calm_handled.
Qed.

Lemma postgres_stages fmt comp dir email tg source st :
  ETLBase.stages (PostgresETL fmt comp dir email tg source) st
  = ETLBase.load (PostgresETL fmt comp dir email tg source) (extraction source) None
      (set_trace (fun tr => tr ++ [Enter "extract"]) st).
Proof.
  unfold ETLBase.stages. cbn [extract transform PostgresETL].
  unfold bind at 1 2. rewrite error_handler_eq. reflexivity.
Qed.

Lemma run_rows fmt saver comp dir email tg chunks s :
  Container.saver_strategy_map !! fmt = Some saver ->
  writable saver comp chunks ->
  rows_processed (ETLBase.run (PostgresETL fmt comp dir email tg (Chunks chunks None)) s).2
  = total_rows chunks.
Proof.
  intros Hs Hx. rewrite run_eq.
  set (self := PostgresETL fmt comp dir email tg (Chunks chunks None)).
  assert (rows_processed (ETLBase.stages self (started s)).2 = total_rows chunks) as H.
  { unfold self. rewrite postgres_stages.
    by rewrite (load_rows (PostgresETL fmt comp dir email tg (Chunks chunks None))
                  saver _ chunks _ _ None _ _ Hs (iterates_healthy chunks None) Hx). }
  destruct (ETLBase.stages self (started s)) as [r s2]. cbn [snd] in H.
  pose proof (calm_rows (ETLBase._send_report self) s2 (calm_send_report self)) as H'.
  destruct (ETLBase._send_report self s2) as [[[]|e'] s3]; cbn [snd] in H'.
  - destruct r as [[]|e]; [by rewrite <- H, <- H'|].
    rewrite calm_rows by apply calm_handled. by rewrite <- H, <- H'.
  - rewrite calm_rows by apply calm_handled. by rewrite H', H.
Qed.

Lemma xlsx_refused_spec comp :
  xlsx_allows comp = false
  <-> normalize_compression comp <> None /\ normalize_compression comp <> Some "infer".
Proof.
  unfold xlsx_allows. destruct (normalize_compression comp) as [c|].
  - destruct (String.eqb_spec c "infer") as [->|Hc]; split; try done.
    + by intros [_ H].
    + intros _. split; [done|]. by intros [= ->].
  - split; [done|]. by intros [H _].
Qed.

Lemma normalize_none v :
  normalize_compression (Some v) = None
  <-> Py.lower (Py.strip (Py.chars v)) ∈ Py.chars <$> ["none"; "null"; ""].
Proof. unfold normalize_compression. case_bool_decide; split; done. Qed.

Lemma total_rows_none chunks : nonempty chunks = [] -> total_rows chunks = 0.
Proof. unfold total_rows. by intros ->. Qed.

Lemma writable_no_rows saver comp chunks :
  saver <> xlsx_saver -> nonempty chunks = [] -> writable saver comp chunks.
Proof.
  intros Hs Hn. destruct saver; cbn [writable]; unfold distinct; rewrite ?Hn; try done.
  all: split; [done|apply Forall_nil_2].
Qed.

(** Without rows, the strategies other than the spreadsheet one make
    [load] end in the no-data error. *)
Lemma load_no_data self saver data chunks t1 t2 cb s :
  Container.saver_strategy_map !! export_format self = Some saver ->
  saver <> xlsx_saver ->
  iterates data chunks t1 t2 None ->
  nonempty chunks = [] ->
  (ETLBase.load self data cb s).1 = Raise NoDataToSave.
Proof.
  intros Hs Hx Hit Hn. unfold ETLBase.load. rewrite error_handler_eq, Hs.
  unfold ETLBase.generate_filename, ETLBase._build_filename.
  unfold bind, gets, ret, modify. cbn beta iota.
  match goal with |- context [save saver ?d ?p ?c ?f ?st] =>
    destruct (save_spec saver f p c d chunks t1 t2 None st passive_update_metrics Hit)
      as (s' & E & _); [by apply writable_no_rows|]; rewrite E
  end.
  rewrite (total_rows_none chunks Hn), Hn.
  destruct saver; try done; apply handled_raises.
Qed.

(** The delimited-text strategy leaves no file behind when it wrote no row. *)
Lemma csv_no_rows_no_file cb p comp chunks s :
  passive_cb cb ->
  nonempty chunks = [] ->
  fs (CsvSaver.save (Chunks chunks None) p comp cb s).2 !! p = None.
Proof.
  intros Hcb Hn.
  destruct (csv_save_spec cb p comp _ chunks _ _ _ s Hcb (iterates_chunks chunks None))
    as (s' & -> & _ & _ & Hf); [by rewrite Hn|].
  cbn [snd]. rewrite Hf, Hn. apply lookup_delete_eq.
Qed.

(** Where the spreadsheet strategy puts two batches that follow each
    other: the second starts [len] rows below the first, which had used
    one row more, for its header. *)
Lemma xlsx_next_startrow startrow b1 b2 rest :
  empty b1 = false -> empty b2 = false ->
  xlsx_writes startrow (b1 :: b2 :: rest)
  = ToExcel startrow b1 :: ToExcel (startrow + len b1) b2
    :: xlsx_writes (startrow + len b1 + len b2) rest.
Proof. intros H1 H2. cbn [xlsx_writes]. by rewrite H1, H2. Qed.

(** Without a non-empty batch the spreadsheet strategy does not return:
    the writer is closed on a workbook without sheet. *)
Lemma xlsx_no_batch_raises cb p comp chunks s :
  passive_cb cb ->
  xlsx_allows comp = true ->
  nonempty chunks = [] ->
  (ExcelSaver.save (Chunks chunks None) p comp cb s).1 = Raise NoVisibleSheet
  /\ fs (ExcelSaver.save (Chunks chunks None) p comp cb s).2 !! p = Some [].
Proof.
  intros Hcb Hx Hn.
  destruct (xlsx_save_spec cb p comp _ chunks _ _ _ s Hcb (iterates_chunks chunks None) Hx)
    as (s' & -> & _ & _ & Hf).
  rewrite Hn in *. cbn [fst snd]. split; [done|]. rewrite Hf. apply lookup_insert_eq.
Qed.

(** *** Cells of the sheet *)

Lemma put_cells_lookup (r : nat) (cells : list string) : forall k (sh : sheet) (i j : nat),
  foldl (fun acc jc => <[(r, jc.1) := jc.2]> acc) sh (zip (seq k (length cells)) cells)
    !! (i, j)
  = if decide (i = r /\ k <= j < k + length cells) then cells !! (j - k)
    else sh !! (i, j).
Proof.
  induction cells as [|c cells IH]; intros k sh i j; simpl.
  - case_decide; [lia|done].
  - rewrite IH. cbn [fst snd]. repeat case_decide; try lia.
    + replace (j - k) with (S (j - S k)) by lia. reflexivity.
    + assert (i = r /\ j = k) as [-> ->] by lia.
      by rewrite lookup_insert_eq, Nat.sub_diag.
    + rewrite lookup_insert_ne; [done|]. intros [= -> ->]. lia.
Qed.

Lemma put_row_lookup (r : nat) (cells : list string) (sh : sheet) (i j : nat) :
  put_row r cells sh !! (i, j)
  = if decide (i = r /\ j < length cells) then cells !! j else sh !! (i, j).
Proof.
  unfold put_row. rewrite put_cells_lookup.
  destruct (decide (i = r /\ j < length cells)).
  - rewrite decide_True by lia. by rewrite Nat.sub_0_r.
  - rewrite decide_False by lia. done.
Qed.

(** A row that [put_rows] starts below is left as it was. *)
Lemma put_rows_above (rws : list (list string)) : forall (r : nat) (sh : sheet) (i j : nat),
  i < r -> put_rows r rws sh !! (i, j) = sh !! (i, j).
Proof.
  induction rws as [|cells rws IH]; intros r sh i j Hi; simpl; [done|].
  rewrite IH by lia. rewrite put_row_lookup, decide_False by lia. done.
Qed.

(** The row that [put_rows] starts at takes the first of the rows. *)
Lemma put_rows_first (cells : list string) (rws : list (list string)) (r : nat)
    (sh : sheet) (j : nat) (v : string) :
  cells !! j = Some v -> put_rows r (cells :: rws) sh !! (r, j) = Some v.
Proof.
  intros Hj. simpl. rewrite put_rows_above by lia.
  rewrite put_row_lookup, decide_True; [done|].
  split; [done|]. by apply lookup_lt_Some in Hj.
Qed.

(** The last of the rows goes to the row at distance [length rws - 1]. *)
Lemma put_rows_last (rws : list (list string)) : forall (cells : list string) (r : nat) (sh : sheet) (j : nat) (v : string),
  last rws = Some cells -> cells !! j = Some v ->
  put_rows r rws sh !! (r + length rws - 1, j) = Some v.
Proof.
  induction rws as [|x rws IH]; intros cells r sh j v Hl Hj; [done|].
  destruct rws as [|y rws].
  - injection Hl as ->. replace (r + length [cells] - 1) with r by (simpl; lia).
    by apply put_rows_first.
  - change (put_rows r (x :: y :: rws) sh) with (put_rows (S r) (y :: rws) (put_row r x sh)).
    replace (r + length (x :: y :: rws) - 1) with (S r + length (y :: rws) - 1)
      by (simpl; lia).
    by apply (IH cells).
Qed.

Lemma xlsx_loop_book cb :
  passive_cb cb ->
  forall chunks startrow total s,
    book (ExcelSaver.loop chunks cb startrow total s).2 !! "Data"
    = xlsx_sheet startrow chunks (book s !! "Data").
Proof.
  intros Hcb. induction chunks as [|ch rest IH]; intros startrow total s; [done|].
  cbn [ExcelSaver.loop xlsx_sheet]. destruct (empty ch).
  - monad. by rewrite IH.
  - unfold to_excel. monad.
    match goal with |- context [bind (call cb (len ch)) _ ?st] =>
      with_callback Hcb cb (len ch) st end.
    rewrite (bind_ok _ _ _ _ _ E). monad. rewrite IH.
    cbn [book set_book set_trace set_metrics]. by rewrite lookup_insert_eq.
Qed.

(** Of two batches that follow each other, the second has its header
    written into the row that holds the last data row of the first. *)
Lemma xlsx_header_over_last_row cb p comp b1 b2 s c2 x xs :
  passive_cb cb ->
  xlsx_allows comp = true ->
  empty b1 = false -> empty b2 = false ->
  head (columns b2) = Some c2 ->
  last (rows b1) = Some (x :: xs) ->
  let alone := ExcelSaver.save (Chunks [b1] None) p comp cb s in
  let both := ExcelSaver.save (Chunks [b1; b2] None) p comp cb s in
  (book alone.2 !! "Data") ≫= (fun sh : sheet => sh !! (len b1, 0)) = Some x
  /\ (book both.2 !! "Data") ≫= (fun sh : sheet => sh !! (len b1, 0)) = Some c2.
Proof.
  intros Hcb Hx H1 H2 Hc Hl.
  assert (forall chunks,
    book (ExcelSaver.save (Chunks chunks None) p comp cb s).2 !! "Data"
    = xlsx_sheet 0 chunks None) as Hbook.
  { intros chunks. unfold ExcelSaver.save.
    rewrite xlsx_guard, Hx. cbn [negb].
    unfold with_ExcelWriter, ExcelWriter_open. monad. unfold try_finally.
    rewrite (bind_ok (ret tt) _ _ tt _ eq_refl).
    match goal with |- context [bind (ExcelSaver.loop _ _ _ _) _ ?st] =>
      destruct (xlsx_loop_spec cb Hcb chunks 0 0 st) as (s' & E & _);
      pose proof (xlsx_loop_book cb Hcb chunks 0 0 st) as Hb end.
    rewrite E in Hb. cbn [snd book set_book set_trace set_fs] in Hb.
    rewrite lookup_empty in Hb.
    rewrite (bind_ok _ _ _ _ _ E). monad. unfold ExcelWriter_close. monad.
    destruct (bool_decide (book s' = ∅)); monad; cbn [snd book set_trace set_fs];
      exact Hb. }
  cbv zeta. rewrite !Hbook. cbn [xlsx_sheet]. rewrite H1, H2.
  cbn [mbind option_bind default]. split.
  - replace (len b1) with (0 + length (columns b1 :: rows b1) - 1) by (simpl; unfold len; lia).
    apply (put_rows_last _ (x :: xs)); [|done].
    rewrite last_cons, Hl. done.
  - cbn [Nat.add]. apply put_rows_first.
    destruct (columns b2); [done|]. by injection Hc as ->.
Qed.

(** The strategies that do not unlink leave a file of the destination as
    it is when they write no row. *)
Lemma json_no_rows_keeps_file cb p comp chunks s :
  passive_cb cb ->
  nonempty chunks = [] ->
  fs (JsonSaver.save (Chunks chunks None) p comp cb s).2 = fs s.
Proof.
  intros Hcb Hn.
  destruct (json_save_spec cb p comp _ chunks _ _ _ s Hcb (iterates_chunks chunks None))
    as (s' & -> & _ & _ & Hf); [by rewrite Hn|unfold distinct; rewrite Hn; apply Forall_nil_2|].
  cbn [snd]. by rewrite Hf, Hn.
Qed.

Lemma parquet_no_rows_keeps_file cb p comp chunks s :
  passive_cb cb ->
  nonempty chunks = [] ->
  fs (ParquetSaver.save (Chunks chunks None) p comp cb s).2 = fs s.
Proof.
  intros Hcb Hn.
  destruct (parquet_save_spec cb p comp _ chunks _ _ _ s Hcb (iterates_chunks chunks None))
    as (s' & -> & _ & _ & Hf); [by rewrite Hn|unfold distinct; rewrite Hn; apply Forall_nil_2|].
  cbn [snd]. by rewrite Hf, Hn.
Qed.

(** *** What the delimited-text file reads as *)




(** ** The claims *)

(** C1.  Zero rows must end in the no-data error and leave no file that
    passes for the export, for every format.  Evaluated on the spreadsheet
    format with an extraction that yields no batch: [load] fails, but not
    with the no-data error; the file that the writer opened stays at the
    derived path, which [filename] keeps; the reporting step finds it there
    and mails it as the export. *)
Theorem xlsx_empty_run_leaves_file :
  let path := "exports/export_01.01.2025_00-00-00.xlsx" in
  let name := "export_01.01.2025_00-00-00.xlsx" in
  let loaded := ETLBase.load xlsx_empty_job (Chunks [] None) None (fresh mail_env) in
  let ran := ETLBase.run xlsx_empty_job (fresh mail_env) in
  total_rows [] = 0
  /\ loaded.1 = Raise NoVisibleSheet
  /\ loaded.1 <> Raise NoDataToSave
  /\ ran.1 = Raise NoVisibleSheet
  /\ filename ran.2 = Some path
  /\ fs ran.2 !! path = Some []
  /\ In (SmtpSend (ExportOf name) (EtlDone name) (Some path)) (trace ran.2).
Proof.
  vm_compute. repeat split; try reflexivity; [discriminate|].
  repeat first [left; reflexivity | right].
Qed.




(** The guard of the spreadsheet strategy.  A compression value makes
    [save] raise the configuration error exactly when its normal form is
    neither [None] nor "infer"; the error comes before anything is created
    or written, the state being left as it was.  With any other value no
    configuration error is raised: [save] opens its writer on the
    destination, and returns the number of rows if some batch is non-empty;
    if none is, it raises the error of the writer. *)
Lemma xlsx_compression_gate cb p comp chunks s :
  passive_cb cb ->
  let refused :=
    normalize_compression comp <> None /\ normalize_compression comp <> Some "infer" in
  let out := ExcelSaver.save (Chunks chunks None) p comp cb s in
  (out.1 = Raise ExcelCompression <-> refused)
  /\ (refused -> out = (Raise ExcelCompression, s))
  /\ (~ refused ->
      is_Some (fs out.2 !! p)
      /\ out.1 = match nonempty chunks with
                 | [] => Raise NoVisibleSheet
                 | _ => Ok (total_rows chunks)
                 end).
Proof.
  intros Hcb refused out. subst refused out.
  rewrite <- xlsx_refused_spec.
  destruct (xlsx_allows comp) eqn:Hx.
  - destruct (xlsx_save_spec cb p comp _ chunks _ _ _ s Hcb (iterates_chunks chunks None) Hx)
      as (s' & E & _ & _ & Hf).
    rewrite E. cbn [fst snd outcome]. split; [|split; [done|]].
    + split; [|done]. by destruct (nonempty chunks).
    + intros _. split; [|done].
      rewrite Hf. destruct (nonempty chunks); rewrite lookup_insert_eq; by eexists.
  - rewrite xlsx_save_refused by done. cbn [fst snd]. split; [done|split; done].
Qed.

(** C3.  With a compression value whose normal form is [None] or that is
    "infer", [save] of the spreadsheet strategy has to go on without
    raising.  Evaluated on such values (among them "none" in capitals
    between spaces, and after a no-break space, U+00A0) and an extraction
    without rows (no batch, or a batch of the columns alone): the guard
    lets the value through and the writer is opened, but [save] raises the
    error of the writer, which is closed on a workbook without sheet, and
    leaves the file it had opened.  With a batch of one row the same
    values return 1, and a codec is refused before anything is touched. *)
Theorem xlsx_allowed_value_raises_without_rows :
  let header_only := {| columns := ["id"; "name"]; rows := [] |} in
  let nbsp_none := String (ascii_of_nat 194) (String (ascii_of_nat 160) "none") in
  let out comp chunks :=
    ExcelSaver.save (Chunks chunks None) "out.xlsx" comp None (fresh ∅) in
  (normalize_compression None, normalize_compression (Some " NONE "),
   normalize_compression (Some nbsp_none), normalize_compression (Some "infer"))
  = (None, None, None, Some "infer")
  /\ (out None []).1 = Raise NoVisibleSheet
  /\ (out (Some " NONE ") [header_only]).1 = Raise NoVisibleSheet
  /\ (out (Some nbsp_none) []).1 = Raise NoVisibleSheet
  /\ (out (Some "infer") []).1 = Raise NoVisibleSheet
  /\ fs (out None []).2 !! "out.xlsx" = Some []
  /\ writes (trace (out None []).2) = []
  /\ ((out None [batch1]).1, (out (Some " NONE ") [batch1]).1,
      (out (Some nbsp_none) [batch1]).1, (out (Some "infer") [batch1]).1)
     = (Ok 1, Ok 1, Ok 1, Ok 1)
  /\ out (Some "gzip") [batch1] = (Raise ExcelCompression, fresh ∅).
Proof. vm_compute. repeat split; reflexivity. Qed.

(** C4.  A failure raised inside the reporting step must not replace the
    outcome of the stages.  Evaluated with the e-mail flag set and a port
    variable that is not a number, so that [EmailObserver()] raises in the
    reporting step, outside the handlers of the channels.  The
    delimited-text job: the three stages succeed and [run] raises all the
    same, without the metrics line; with no port variable the same job
    returns normally and logs it.  The spreadsheet job without batch: the
    failure of [load] is replaced by that of the reporting step. *)
Theorem run_masked_by_report :
  (ETLBase.stages csv_job (started (fresh bad_port))).1 = Ok tt
  /\ (ETLBase.run csv_job (fresh bad_port)).1 = Raise (InvalidLiteral "abc")
  /\ metrics_logs (trace (ETLBase.run csv_job (fresh bad_port)).2) = []
  /\ (ETLBase.run csv_job (fresh ∅)).1 = Ok tt
  /\ metrics_logs (trace (ETLBase.run csv_job (fresh ∅)).2) = [(1%Z, 1)]
  /\ (ETLBase.stages xlsx_empty_job (started (fresh bad_port))).1 = Raise NoVisibleSheet
  /\ (ETLBase.run xlsx_empty_job (fresh bad_port)).1 = Raise (InvalidLiteral "abc").
Proof. vm_compute. repeat split; reflexivity. Qed.

(** What [run] does after the stages, for every job and state.  The
    reporting step is entered whatever the outcome of the stages.
    Whenever it returns normally, the metrics line is logged after it and
    the caller of [run] sees the outcome of the stages; an exception that
    leaves the reporting step skips the metrics line and is what the caller
    sees.  The reporting step returns normally in every case but one: the
    e-mail flag is set and the port variable of the environment is not an
    integer literal. *)
Lemma run_outcome_after_report self s :
  let r := (ETLBase.stages self (started s)).1 in
  let s2 := (ETLBase.stages self (started s)).2 in
  let rr := (ETLBase._send_report self s2).1 in
  let s3 := (ETLBase._send_report self s2).2 in
  (ETLBase.run self s).1 = match rr with Ok _ => r | Raise e => Raise e end
  /\ (exists t, trace s3 = trace s2 ++ Enter "_send_report" :: t
                /\ metrics_logs t = [])
  /\ (exists t, trace (ETLBase.run self s).2 = trace s3 ++ t
                /\ metrics_logs t =
                   match rr with
                   | Ok _ => [(ETLBase.max_mem (memory_usage s3), rows_processed s3)]
                   | Raise _ => []
                   end)
  /\ (rr = Ok tt
      \/ (send_email self = true
          /\ exists v, env s2 !! "EMAIL_SMTP_PORT" = Some v /\ Py.int v = None
                       /\ rr = Raise (InvalidLiteral v))).
Proof.
  cbv zeta. rewrite run_eq.
  destruct (ETLBase.stages self (started s)) as [r s2]. cbn [fst snd].
  destruct (send_report_spec self s2) as (t & E & Q & Hr).
  destruct (ETLBase._send_report self s2) as [rr s3]. cbn [fst snd] in *. subst s3.
  split; [|split; [by exists t|split; [|exact Hr]]].
  - destruct rr as [[]|e']; [destruct r as [[]|e]|]; [done|..]; apply handled_raises.
  - destruct rr as [[]|e']; [destruct r as [[]|e]|].
    + eexists. split; [reflexivity|done].
    + match goal with |- context [handled ?a ?b ?c ?d ?st] =>
        destruct (calm_state (@handled unit a b c d) st (calm_handled _ _ _ _))
          as (t' & -> & Q') end.
      eexists. split; [cbn [trace set_trace logged]; by rewrite <- app_assoc|].
      rewrite metrics_logs_app, Q'. done.
    + match goal with |- context [handled ?a ?b ?c ?d ?st] =>
        destruct (calm_state (@handled unit a b c d) st (calm_handled _ _ _ _))
          as (t' & -> & Q') end.
      by exists t'.
Qed.

(** What keeps a failure inside is the [update] of each channel class, not
    [notify], which has no handler of its own.  No caller in the program
    attaches anything but the two channels; an object of the base class,
    were one attached, would end the dispatch with its exception. *)
Lemma notify_stops_at_raising_handler :
  let out := NotificationSubject.notify base_then_telegram
               (EtlDone "export.csv") no_kwargs (fresh ∅) in
  out.1 = Raise NotImplementedError
  /\ updates (trace out.2) = [0]
  /\ map oid base_then_telegram = [0; 1].
Proof. vm_compute. repeat split; reflexivity. Qed.

(** C5.  For every list of attached channel handlers, with whatever
    configuration, and every call of [notify], in whatever state of the
    network and of the files: the [update] of each handler is called once,
    in the order of attachment; no exception leaves an [update], hence none
    leaves [notify], and no handler keeps the later ones from being called;
    a channel whose configuration is incomplete returns [False]. *)
Theorem notify_reaches_every_channel hs message kwargs s :
  Forall channel hs ->
  (NotificationSubject.notify hs message kwargs s).1 = Ok tt
  /\ updates (trace (NotificationSubject.notify hs message kwargs s).2)
     = updates (trace s) ++ map oid hs
  /\ (forall o st, channel o -> exists b, (update o message kwargs st).1 = Ok b)
  /\ (forall c st, EmailObserver.complete c = false ->
        (EmailObserver.update c message kwargs st).1 = Ok false)
  /\ (forall c st, TelegramObserver.complete c = false ->
        (TelegramObserver.update c message kwargs st).1 = Ok false).
Proof.
  intros H. destruct (notify_ok hs message kwargs s H) as [E1 E2].
  split; [done|split; [done|split; [|split]]].
  - intros o st Ho. by apply update_ok.
  - intros c st Hc.
    destruct (email_update_ok c message kwargs st) as (b & -> & Hb). by rewrite Hb.
  - intros c st Hc.
    destruct (telegram_update_ok c message kwargs st) as (b & -> & Hb). by rewrite Hb.
Qed.

Lemma notify_reaches_every_channel_witness :
  Forall channel email_then_telegram
  /\ (NotificationSubject.notify email_then_telegram (EtlDone "export.csv")
        no_kwargs (fresh ∅)).1 = Ok tt
  /\ updates (trace (NotificationSubject.notify email_then_telegram
                       (EtlDone "export.csv") no_kwargs (fresh ∅)).2) = [0; 1].
Proof.
  assert (H : Forall channel email_then_telegram).
  { repeat (apply Forall_cons_2; [discriminate|]). apply Forall_nil_2. }
  split; [exact H|].
  destruct (notify_reaches_every_channel email_then_telegram (EtlDone "export.csv")
              no_kwargs (fresh ∅) H) as (E1 & E2 & _).
  split; [exact E1 | exact E2].
Defined.

(** C6.  A file found at the destination must be gone before writing
    starts, so that a second run leaves its own data only, whatever the
    batches of either run.  Evaluated on the line-delimited strategy: after
    a first run of one record, a second run without batch returns 0 and
    the file still holds the record of the first run; so it is with the
    columnar strategy; the delimited-text strategy, which unlinks the
    destination first, leaves no file there. *)
Theorem json_second_run_keeps_first_file :
  let p := "out.json" in
  let first := JsonSaver.save (Chunks [batch1] None) p None None (fresh ∅) in
  let second := JsonSaver.save (Chunks [] None) p None None first.2 in
  let pq1 := ParquetSaver.save (Chunks [batch1] None) p None None (fresh ∅) in
  let pq2 := ParquetSaver.save (Chunks [] None) p None None pq1.2 in
  let csv1 := CsvSaver.save (Chunks [batch1] None) p None None (fresh ∅) in
  let csv2 := CsvSaver.save (Chunks [] None) p None None csv1.2 in
  second.1 = Ok 0
  /\ fs second.2 !! p = Some [JsonPiece None [RecordLine [("id", "1"); ("name", "a")]]]
  /\ fs second.2 !! p = fs first.2 !! p
  /\ fs pq2.2 !! p = Some [ParquetPiece None batch1]
  /\ fs csv2.2 !! p = None.
Proof. vm_compute. repeat split; reflexivity. Qed.



(** The same two batches under gzip, the compression that [main.py] asks
    for: the header is written once and 2 is returned; read back, the
    identifier of the second row is the mark followed by "2". *)
Lemma csv_gzip_appends_carry_mark :
  let gz := CsvSaver.save (Chunks [batch1; batch2] None) "out.csv.gz" (Some "gzip")
              None (fresh ∅) in
  gz.1 = Ok 2
  /\ writes (trace gz.2)
     = [ToCsv "out.csv.gz" mode_w true (Some "gzip") batch1;
        ToCsv "out.csv.gz" mode_a false (Some "gzip") batch2]
  /\ read_csv <$> (fs gz.2 !! "out.csv.gz")
     = Some [HeaderLine ["id"; "name"]; DataLine ["1"; "a"];
             DataLine [bom +:+ "2"; "b"]]
  /\ bom +:+ "2" <> "2".
Proof. vm_compute. repeat split; try reflexivity. discriminate. Qed.

(** C8.  Every batch of the spreadsheet strategy must start at the next
    free row, so that no cell written for a batch is written over.
    Evaluated on two batches of one row each: the second batch starts at
    row 1, where the data row of the first was, so the sheet ends with the
    header in rows 0 and 1, the second data row in row 2, and the first
    data row nowhere, while 2 rows are returned. *)
Theorem xlsx_second_header_overwrites_row :
  let out := ExcelSaver.save (Chunks [batch1; batch2] None) "out.xlsx" None None
               (fresh ∅) in
  let cell (r c : nat) := (book out.2 !! "Data") ≫= (fun sh : sheet => sh !! (r, c)) in
  out.1 = Ok 2
  /\ writes (trace out.2) = [ToExcel 0 batch1; ToExcel 1 batch2]
  /\ fs out.2 !! "out.xlsx" = Some [XlsxPiece (book out.2)]
  /\ (cell 0 0, cell 0 1) = (Some "id", Some "name")
  /\ (cell 1 0, cell 1 1) = (Some "id", Some "name")
  /\ (cell 2 0, cell 2 1) = (Some "2", Some "b")
  /\ cell 3 0 = None.
Proof. vm_compute. repeat split; reflexivity. Qed.



(** C10.  Whatever is given to [load] as [metrics_callback], the strategy
    that [load] resolves is called with the orchestrator's own
    [_update_metrics]: [load] is the same computation for every value of
    the argument, also for a callback that would raise. *)
Theorem load_passes_update_metrics self data cb s :
  ETLBase.load self data cb s
  = error_handler (Some "data load error") true 0 "load"
      (match Container.saver_strategy_map !! export_format self with
       | None => raise (KeyError (export_format self))
       | Some saver =>
           path <- ETLBase.generate_filename self ;;
           modify (set_filename (Some path)) ;;
           total_rows <- save saver data path (compression self)
                           (Some ETLBase._update_metrics) ;;
           if Nat.eqb total_rows 0 then raise NoDataToSave
           else log INFO (SavedTo (exports_path self))
       end) s
  /\ ETLBase.load self data cb s = ETLBase.load self data None s
  /\ ETLBase.load self data (Some (fun _ => raise NotImplementedError)) s
     = ETLBase.load self data None s.
Proof. repeat split. Qed.

(** ** Further properties *)

(** *** What a computation keeps *)

Section Keeps.
Context (R : State -> State -> Prop) (HR : PreOrder R).

Lemma keeps_ret {A} (a : A) : keeps R (ret a).
Proof. intros s. reflexivity. Qed.

Lemma keeps_raise {A} e : keeps R (@raise A e).
Proof. intros s. reflexivity. Qed.

Lemma keeps_gets {A} (f : State -> A) : keeps R (gets f).
Proof. intros s. reflexivity. Qed.

Lemma keeps_modify f : (forall s, R s (f s)) -> keeps R (modify f).
Proof. intros H s. apply H. Qed.

Lemma keeps_bind {A B} (c : M A) (k : A -> M B) :
  keeps R c -> (forall a, keeps R (k a)) -> keeps R (bind c k).
Proof.
  intros Hc Hk s. unfold bind. specialize (Hc s).
  destruct (c s) as [[a|e] s1]; [|exact Hc].
  etrans; [exact Hc | apply Hk].
Qed.

Lemma keeps_try_finally {A} (c : M A) (fin : M unit) :
  keeps R c -> keeps R fin -> keeps R (try_finally c fin).
Proof.
  intros Hc Hf s. unfold try_finally. specialize (Hc s).
  destruct (c s) as [r s1]. specialize (Hf s1).
  destruct (fin s1) as [[[]|e] s2]; (etrans; [exact Hc | exact Hf]).
Qed.

Lemma keeps_call cb n : keeps_cb R cb -> keeps R (emit (Callback n)) -> keeps R (call cb n).
Proof.
  destruct cb as [f|]; simpl; intros Hf He; [|apply keeps_ret].
  apply keeps_bind; [exact He | intros _; apply Hf].
Qed.
End Keeps.

Ltac keeps_step HR :=
  match goal with
  | |- keeps _ (ret _) => apply (keeps_ret _ HR)
  | |- keeps _ (raise _) => apply (keeps_raise _ HR)
  | |- keeps _ (gets _) => apply (keeps_gets _ HR)
  | |- keeps _ (bind _ _) => apply (keeps_bind _ HR); [|intros ?]
  | |- keeps _ (try_finally _ _) => apply (keeps_try_finally _ HR)
  | |- keeps _ (log _ _) => unfold log
  | |- keeps _ (modify _) => apply keeps_modify; intros ?
  | |- keeps _ (if ?b then _ else _) => destruct b
  | |- keeps _ (match ?x with _ => _ end) => destruct x
  end.

(** *** What the iterator of the data does *)

Lemma session_saver_event e : is_session_event e = true -> is_saver_event e = true.
Proof. unfold is_saver_event. intros ->. apply orb_true_r. Qed.

Lemma loop_saver_event e : is_loop_event e = true -> is_saver_event e = true.
Proof. unfold is_saver_event. by intros ->. Qed.

Lemma extract_first_only db : only is_session_event (Extract.first db).
Proof.
  intros s. unfold Extract.first. destruct (query_error db).
  - exists []. by rewrite set_trace_nil.
  - eexists.
    cbv [UnitOfWork.run UnitOfWork.enter UnitOfWork.bind UnitOfWork.tell].
    cbn [snd]. rewrite set_trace_app. split; reflexivity.
Qed.

Lemma extract_last_only db failure : only is_session_event (Extract.last db failure).
Proof.
  intros s. unfold Extract.last.
  destruct db as [q [c|] [r|] [x|]], failure as [e|]; eexists;
    cbv [commit_error rollback_error close_error
         UnitOfWork.run UnitOfWork.leave UnitOfWork.ended UnitOfWork.method
         UnitOfWork.try_finally UnitOfWork.try_except UnitOfWork.bind
         UnitOfWork.tell UnitOfWork.ret UnitOfWork.raise];
    cbn [snd]; rewrite !set_trace_app; (split; reflexivity).
Qed.

Lemma iter_chunks_only data :
  only is_session_event (SaverStrategy._iter_chunks data).1.1
  /\ only is_session_event (SaverStrategy._iter_chunks data).2.
Proof.
  destruct data as [df|chunks failure|db chunks failure]; cbn [SaverStrategy._iter_chunks fst snd].
  - split; apply only_ret.
  - split; [apply only_ret|]. unfold SaverStrategy.exhausted.
    destruct failure; [apply only_raise | apply only_ret].
  - split; [apply extract_first_only | apply extract_last_only].
Qed.

(** The loops of the strategies keep every relation that their own steps
    keep: the events they record, the changes of the workbook, what they
    write to their destination [p] and its removal, and the callback. *)
Section LoopsKeep.
Context (R : State -> State -> Prop) (HR : PreOrder R) (p : string).
Hypothesis R_emit : forall s e,
  is_loop_event e = true -> R s (set_trace (fun t => t ++ [e]) s).
Hypothesis R_book : forall s g, R s (set_book g s).
Hypothesis R_write : forall s m ps, R s (set_fs (write_file m p ps) s).
Hypothesis R_delete : forall s, R s (set_fs (delete p) s).
Context (cb : option (nat -> M unit)) (Hcb : keeps_cb R cb).

Lemma keeps_emit e : is_loop_event e = true -> keeps R (emit e).
Proof. intros He. apply keeps_modify. intros s. by apply R_emit. Qed.

Lemma keeps_callback n : keeps R (call cb n).
Proof. apply (keeps_call _ HR); [exact Hcb | by apply keeps_emit]. Qed.

Lemma keeps_infer_compression path c : keeps R (infer_compression path c).
Proof. unfold infer_compression. repeat keeps_step HR. Qed.

Lemma keeps_csv_loop chunks : forall c total mode header,
  keeps R (CsvSaver.loop chunks p c cb total mode header).
Proof.
  induction chunks as [|ch rest IH]; intros c total mode header; cbn [CsvSaver.loop].
  - by apply keeps_ret.
  - unfold to_csv.
    repeat first [apply IH | (apply keeps_emit; reflexivity) | apply keeps_callback
                 | apply keeps_infer_compression | apply R_write | keeps_step HR].
Qed.

Lemma keeps_xlsx_loop chunks : forall startrow total,
  keeps R (ExcelSaver.loop chunks cb startrow total).
Proof.
  induction chunks as [|ch rest IH]; intros startrow total; cbn [ExcelSaver.loop].
  - by apply keeps_ret.
  - unfold to_excel.
    repeat first [apply IH | (apply keeps_emit; reflexivity) | apply keeps_callback
                 | apply R_book | keeps_step HR].
Qed.

Lemma keeps_json_loop chunks : forall c total mode,
  keeps R (JsonSaver.loop chunks p c cb total mode).
Proof.
  induction chunks as [|ch rest IH]; intros c total mode; cbn [JsonSaver.loop].
  - by apply keeps_ret.
  - unfold to_json.
    repeat first [apply IH | (apply keeps_emit; reflexivity) | apply keeps_callback
                 | apply keeps_infer_compression | apply R_write | keeps_step HR].
Qed.

Lemma keeps_parquet_loop chunks : forall c total,
  keeps R (ParquetSaver.loop chunks p c cb total).
Proof.
  induction chunks as [|ch rest IH]; intros c total; cbn [ParquetSaver.loop].
  - by apply keeps_ret.
  - unfold to_parquet.
    repeat first [apply IH | (apply keeps_emit; reflexivity) | apply keeps_callback
                 | apply R_write | apply R_delete | keeps_step HR].
Qed.
End LoopsKeep.

(** So do the strategies, for a relation that the steps of the iterator
    keep as well. *)
Section SaversKeep.
Context (R : State -> State -> Prop) (HR : PreOrder R) (p : string).
Hypothesis R_emit : forall s e,
  is_saver_event e = true -> R s (set_trace (fun t => t ++ [e]) s).
Hypothesis R_book : forall s g, R s (set_book g s).
Hypothesis R_write : forall s m ps, R s (set_fs (write_file m p ps) s).
Hypothesis R_delete : forall s, R s (set_fs (delete p) s).
Context (cb : option (nat -> M unit)) (Hcb : keeps_cb R cb).

Lemma R_loop s e : is_loop_event e = true -> R s (set_trace (fun t => t ++ [e]) s).
Proof. intros He. by apply R_emit, loop_saver_event. Qed.

Lemma keeps_saver_emit e : is_saver_event e = true -> keeps R (emit e).
Proof. intros He. apply keeps_modify. intros s. by apply R_emit. Qed.

Lemma keeps_events t : forall s,
  forallb is_saver_event t = true -> R s (set_trace (fun tr => tr ++ t) s).
Proof.
  induction t as [|e t IH]; intros s.
  - intros _. rewrite set_trace_nil. reflexivity.
  - simpl. intros [He Ht]%andb_prop.
    change (e :: t) with ([e] ++ t). rewrite <- set_trace_app.
    etrans; [by apply R_emit | by apply IH].
Qed.

Lemma keeps_session {A} (c : M A) : only is_session_event c -> keeps R c.
Proof.
  intros Hc s. destruct (Hc s) as (t & -> & Q). apply keeps_events.
  rewrite forallb_forall in *. intros e He. by apply session_saver_event, Q.
Qed.

Lemma keeps_save saver data comp : keeps R (save saver data p comp cb).
Proof.
  destruct (iter_chunks_only data) as [Hfirst%keeps_session Hlast%keeps_session].
  destruct saver; cbn [save].
  - unfold CsvSaver.save, unlink.
    destruct (SaverStrategy._iter_chunks data) as [[first chunks] last].
    repeat first [(apply keeps_csv_loop; first [assumption | exact R_loop])
                 | (apply keeps_saver_emit; reflexivity)
                 | apply R_delete | assumption | keeps_step HR].
  - unfold ExcelSaver.save, with_ExcelWriter, ExcelWriter_open, ExcelWriter_close.
    destruct (SaverStrategy._iter_chunks data) as [[first chunks] last].
    repeat first [(apply keeps_xlsx_loop; first [assumption | exact R_loop])
                 | (apply keeps_saver_emit; reflexivity)
                 | apply R_write | apply R_book | assumption | keeps_step HR].
  - unfold JsonSaver.save.
    destruct (SaverStrategy._iter_chunks data) as [[first chunks] last].
    repeat first [(apply keeps_json_loop; first [assumption | exact R_loop])
                 | (apply keeps_saver_emit; reflexivity)
                 | assumption | keeps_step HR].
  - unfold ParquetSaver.save.
    destruct (SaverStrategy._iter_chunks data) as [[first chunks] last].
    repeat first [(apply keeps_parquet_loop; first [assumption | exact R_loop])
                 | assumption | keeps_step HR].
Qed.
End SaversKeep.

Lemma elsewhere_preorder p : PreOrder (elsewhere p).
Proof.
  split.
  - by intros s q _.
  - intros s1 s2 s3 H1 H2 q Hq. by rewrite H2, H1.
Qed.

Lemma same_object_preorder : PreOrder same_object.
Proof.
  split.
  - by intros s.
  - intros s1 s2 s3 (?&?&?&?&?&?) (?&?&?&?&?&?). unfold same_object.
    repeat split; congruence.
Qed.

Lemma grown_preorder : PreOrder grown.
Proof.
  split.
  - intros s. by split.
  - intros s1 s2 s3 [H1 H1'] [H2 H2']. split; [lia|by etrans].
Qed.

Lemma same_failures_preorder : PreOrder same_failures.
Proof.
  split.
  - by intros s.
  - intros s1 s2 s3 H1 H2. unfold same_failures in *. congruence.
Qed.

Lemma passive_cb_keeps R cb :
  (forall s t m r, R s (set_metrics t m r s)) -> passive_cb cb -> keeps_cb R cb.
Proof.
  destruct cb as [f|]; [|done]. intros HR Hf n s.
  destruct (Hf n s) as (t & m & r & ->). apply HR.
Qed.

Lemma elsewhere_write p s m ps : elsewhere p s (set_fs (write_file m p ps) s).
Proof.
  intros q Hq. cbn [fs set_fs]. unfold write_file.
  destruct m; by rewrite lookup_insert_ne.
Qed.

Lemma elsewhere_delete p s : elsewhere p s (set_fs (delete p) s).
Proof. intros q Hq. cbn [fs set_fs]. by rewrite lookup_delete_ne. Qed.

Lemma save_elsewhere saver data p comp cb :
  passive_cb cb -> keeps (elsewhere p) (save saver data p comp cb).
Proof.
  intros Hcb. apply (keeps_save _ (elsewhere_preorder p)); try done.
  - apply elsewhere_write.
  - apply elsewhere_delete.
  - by apply passive_cb_keeps.
Qed.

Lemma save_same_object saver data p comp cb :
  passive_cb cb -> keeps same_object (save saver data p comp cb).
Proof.
  intros Hcb. apply (keeps_save _ same_object_preorder); try done.
  by apply passive_cb_keeps.
Qed.

Lemma update_metrics_grown n : keeps grown (ETLBase._update_metrics n).
Proof. intros s. split; cbn; [lia|]. by apply prefix_app_r. Qed.

Lemma save_grown saver data p comp :
  keeps grown (save saver data p comp (Some ETLBase._update_metrics)).
Proof.
  apply (keeps_save _ grown_preorder); try done.
  intros n. apply update_metrics_grown.
Qed.

Lemma failures_app t1 t2 : failures (t1 ++ t2) = failures t1 ++ failures t2.
Proof. apply omap_app. Qed.

Lemma saver_event_failures e : is_saver_event e = true -> failures [e] = [].
Proof. by destruct e as [[] []| | | | | | | | | | | | |]. Qed.

Lemma save_same_failures saver data p comp cb :
  passive_cb cb -> keeps same_failures (save saver data p comp cb).
Proof.
  intros Hcb. apply (keeps_save _ same_failures_preorder); try done.
  - intros s e He. unfold same_failures. cbn [trace set_trace].
    by rewrite failures_app, (saver_event_failures e He), app_nil_r.
  - by apply passive_cb_keeps.
Qed.

(** *** Dispatches and handlers *)

Lemma dispatch_update o message kwargs : only is_dispatch (update o message kwargs).
Proof.
  unfold update, Observer.update, EmailObserver.update, EmailObserver._attach_file,
    TelegramObserver.update.
  repeat only_step.
Qed.

Lemma dispatch_notify hs message kwargs :
  only is_dispatch (NotificationSubject.notify hs message kwargs).
Proof.
  induction hs as [|o rest IH]; simpl; [apply only_ret|].
  apply only_bind; [apply dispatch_update | intros _; apply IH].
Qed.

Lemma dispatch_notice t : forallb is_dispatch t = true -> forallb is_notice t = true.
Proof.
  rewrite !forallb_forall. intros H e He. specialize (H e He).
  by destruct e as [[] []| | | | | | | | | | | | |].
Qed.

Lemma dispatch_failures t : forallb is_dispatch t = true -> failures t = [].
Proof.
  induction t as [|e t IH]; [done|]. simpl. intros [He Ht]%andb_prop.
  unfold failures in *. simpl. rewrite (IH Ht).
  by destruct e as [[] []| | | | | | | | | | | | |].
Qed.

Lemma notice_writes t : forallb is_notice t = true -> writes t = [] /\ callbacks t = [].
Proof.
  induction t as [|e t IH]; [done|]. simpl. intros [He Ht]%andb_prop.
  destruct (IH Ht) as [IH1 IH2]. unfold writes, callbacks in *. simpl.
  rewrite IH1, IH2. by destruct e as [? []| | | | | | | | | | | | |].
Qed.

Lemma dispatch_send_report_wrapped self :
  only is_dispatch (ETLBase._send_report_wrapped self).
Proof.
  unfold ETLBase._send_report_wrapped, EmailObserver.init, TelegramObserver.init.
  repeat first [apply dispatch_notify | only_step].
Qed.

Lemma handled_state {A} lm nt name e s :
  exists t,
    (@handled A lm nt name e s).2
    = set_trace (fun tr => tr ++ Log ERROR (Failure (error_msg lm name) e) :: t) s
    /\ forallb is_dispatch t = true
    /\ updates t = (if nt then [0] else []).
Proof.
  unfold handled. fold (error_msg lm name). unfold log, emit at 1. unfold bind at 1.
  unfold modify at 1. cbn beta iota.
  set (s1 := set_trace _ s).
  destruct nt.
  - unfold TelegramObserver.init. unfold bind, gets, ret, raise. cbn beta iota.
    rewrite attach_nil.
    match goal with |- context [NotificationSubject.notify ?hs ?m ?k ?st] =>
      destruct (dispatch_notify hs m k st) as (t & E & Q);
      destruct (notify_ok hs m k st) as [_ Hu]; [by apply Forall_cons|];
      destruct (NotificationSubject.notify hs m k st) as [[[]|x] s2]
    end; cbn [snd] in E, Hu |- *; subst s2; cbn [trace set_trace] in Hu;
      rewrite updates_app in Hu; apply app_inv_head in Hu;
      exists t; unfold s1; rewrite set_trace_app; done.
  - exists []. unfold bind, ret, raise. cbn [snd]. done.
Qed.

Lemma handled_failures {A} lm nt name e s :
  failures (trace (@handled A lm nt name e s).2)
  = failures (trace s) ++ [(error_msg lm name, e)].
Proof.
  destruct (@handled_state A lm nt name e s) as (t & -> & Q & _).
  cbn [trace set_trace]. rewrite failures_app. f_equal.
  change (Log ERROR (Failure (error_msg lm name) e) :: t)
    with ([Log ERROR (Failure (error_msg lm name) e)] ++ t).
  by rewrite failures_app, (dispatch_failures t Q).
Qed.

Lemma error_handler_any {A} lm nt r name (c : M A) s :
  error_handler lm nt r name c s
  = match RetryDecorator.handle r c (set_trace (fun tr => tr ++ [Enter name]) s) with
    | (Ok a, s') => (Ok a, s')
    | (Raise e, s') => @handled A lm nt name e s'
    end.
Proof.
  unfold error_handler, NotificationDecorator.handle, LoggingDecorator.handle,
    handled, TelegramObserver.init.
  unfold try_except, bind, emit, modify, log, raise, ret, gets. cbn beta iota.
  destruct (RetryDecorator.handle r c _) as [[a|e] s']; [done|]. cbn beta iota.
  destruct nt; unfold emit, modify; cbn beta iota; [|done].
  match goal with |- context [NotificationSubject.notify ?a ?b ?c ?d] =>
    destruct (NotificationSubject.notify a b c d) as [[[]|e'] s'']; done end.
Qed.

Lemma retry_always_fails {A} (func : M A) (tick : State -> State) (e : exn) :
  (forall st, func st = (Raise e, tick st)) ->
  forall retries s,
    RetryDecorator.handle retries func s = (Raise e, Nat.iter (S retries) tick s).
Proof.
  intros H. induction retries as [|r IH]; intros s.
  - apply H.
  - cbn [RetryDecorator.handle]. unfold try_except. rewrite H, IH.
    f_equal. change (tick (Nat.iter r tick (tick s))) with (Nat.iter (S r) tick (tick s)).
    by rewrite !Nat.iter_succ_r.
Qed.

(** *** The orchestrator *)

Lemma strategy_lookup_none fmt :
  Container.saver_strategy_map !! fmt = None
  <-> fmt ∉ ["csv"; "xlsx"; "json"; "parquet"].
Proof.
  unfold Container.saver_strategy_map. cbn [list_to_map foldr uncurry fst snd].
  rewrite !lookup_insert_None, lookup_empty, !not_elem_of_cons.
  pose proof (not_elem_of_nil fmt). intuition congruence.
Qed.

Lemma generate_filename_ok self s :
  exists path, forall st, timestamp st = timestamp s ->
    ETLBase.generate_filename self st = (Ok path, st).
Proof.
  unfold ETLBase.generate_filename, ETLBase._build_filename, bind, gets, ret.
  cbn beta iota. eexists. intros st ->. reflexivity.
Qed.

Lemma load_eq self saver path data cb s :
  Container.saver_strategy_map !! export_format self = Some saver ->
  (ETLBase.generate_filename self s).1 = Ok path ->
  ETLBase.load self data cb s
  = match save saver data path (compression self) (Some ETLBase._update_metrics)
            (set_filename (Some path) (set_trace (fun tr => tr ++ [Enter "load"]) s)) with
    | (Ok n, s1) =>
        if Nat.eqb n 0
        then @handled unit (Some "data load error") true "load" NoDataToSave s1
        else (Ok tt, set_trace (fun tr => tr ++ [Log INFO (SavedTo (exports_path self))]) s1)
    | (Raise e, s1) => @handled unit (Some "data load error") true "load" e s1
    end.
Proof.
  intros Hs Hp. unfold ETLBase.load. rewrite error_handler_eq, Hs.
  revert Hp. unfold ETLBase.generate_filename, ETLBase._build_filename.
  unfold bind, gets, ret, modify. cbn beta iota. cbn [timestamp set_trace fst].
  intros [= ->].
  match goal with |- context [save saver data ?p ?c ?f ?st] =>
    destruct (save saver data p c f st) as [[n|e] s1] end; [|done].
  by destruct (Nat.eqb n 0).
Qed.

Lemma load_frame self data cb s :
  let s' := (ETLBase.load self data cb s).2 in
  match Container.saver_strategy_map !! export_format self with
  | None => fs s' = fs s /\ filename s' = filename s
            /\ rows_processed s' = rows_processed s
            /\ memory_usage s' = memory_usage s
  | Some saver =>
      forall path, (ETLBase.generate_filename self s).1 = Ok path ->
        filename s' = Some path /\ elsewhere path s s' /\ grown s s'
  end.
Proof.
  cbv zeta.
  destruct (Container.saver_strategy_map !! export_format self) as [saver|] eqn:Hs.
  - intros path Hp. rewrite (load_eq self saver path data cb s Hs Hp).
    match goal with |- context [save saver data path ?c ?f ?st] =>
      pose proof (save_elsewhere saver data path c f passive_update_metrics st) as H1;
      pose proof (save_same_object saver data path c f passive_update_metrics st) as H2;
      pose proof (save_grown saver data path c st) as H3;
      destruct (save saver data path c f st) as [[n|e] s1]
    end; cbn [snd] in H1, H2, H3; destruct H2 as (Hfn & _); destruct H3 as [Hr Hm];
      cbn [filename rows_processed memory_usage set_filename set_trace] in Hfn, Hr, Hm.
    + destruct (Nat.eqb n 0).
      * destruct (@handled_state unit (Some "data load error") true "load" NoDataToSave s1)
          as (t & -> & _).
        by cbn [filename set_trace].
      * done.
    + destruct (@handled_state unit (Some "data load error") true "load" e s1)
        as (t & -> & _).
      by cbn [filename set_trace].
  - unfold ETLBase.load. rewrite error_handler_eq, Hs. unfold raise.
    destruct (@handled_state unit (Some "data load error") true "load"
                (KeyError (export_format self))
                (set_trace (fun tr => tr ++ [Enter "load"]) s)) as (t & -> & _).
    done.
Qed.

Lemma run_tail self s :
  exists t, (ETLBase.run self s).2
            = set_trace (fun tr => tr ++ t) (ETLBase.stages self (started s)).2.
Proof.
  rewrite run_eq. destruct (ETLBase.stages self (started s)) as [r s2]. cbn [snd].
  destruct (send_report_spec self s2) as (t & E & _).
  destruct (ETLBase._send_report self s2) as [[[]|e'] s3]; cbn [snd] in E; subst s3.
  - destruct r as [[]|e].
    + eexists. cbn [snd]. unfold logged. rewrite set_trace_app.
      cbn [memory_usage rows_processed set_trace]. reflexivity.
    + match goal with |- context [handled ?a ?b ?c ?d ?st] =>
        destruct (calm_state (@handled unit a b c d) st (calm_handled _ _ _ _))
          as (t' & -> & _) end.
      eexists. unfold logged. rewrite !set_trace_app.
      cbn [memory_usage rows_processed set_trace]. reflexivity.
  - match goal with |- context [handled ?a ?b ?c ?d ?st] =>
      destruct (calm_state (@handled unit a b c d) st (calm_handled _ _ _ _))
        as (t' & -> & _) end.
    eexists. rewrite !set_trace_app. reflexivity.
Qed.

Lemma load_failures self data cb s :
  failures (trace (ETLBase.load self data cb s).2)
  = failures (trace s)
    ++ match (ETLBase.load self data cb s).1 with
       | Ok _ => []
       | Raise e => [("data load error", e)]
       end.
Proof.
  destruct (Container.saver_strategy_map !! export_format self) as [saver|] eqn:Hs.
  - destruct (generate_filename_ok self s) as (path & Hp).
    rewrite (load_eq self saver path) by (by rewrite ?Hp).
    match goal with |- context [save saver data path ?c ?f ?st] =>
      pose proof (save_same_failures saver data path c f passive_update_metrics st) as Hf;
      destruct (save saver data path c f st) as [[n|e] s1]
    end; unfold same_failures in Hf; cbn [snd trace set_filename set_trace] in Hf;
      rewrite failures_app in Hf; cbn in Hf; rewrite app_nil_r in Hf.
    + destruct (Nat.eqb n 0).
      * by rewrite handled_failures, handled_raises, Hf.
      * cbn [fst snd trace set_trace]. by rewrite failures_app, Hf.
    + by rewrite handled_failures, handled_raises, Hf.
  - unfold ETLBase.load. rewrite error_handler_eq, Hs. unfold raise at 1 2.
    rewrite handled_failures, handled_raises. cbn [trace set_trace].
    rewrite failures_app. cbn. by rewrite app_nil_r.
Qed.

Lemma send_report_failures self s :
  failures (trace (ETLBase._send_report self s).2)
  = failures (trace s)
    ++ match (ETLBase._send_report self s).1 with
       | Ok _ => []
       | Raise e => [("report sending error", e)]
       end.
Proof.
  unfold ETLBase._send_report. rewrite error_handler_eq.
  set (s1 := set_trace (fun tr => tr ++ [Enter "_send_report"]) s).
  destruct (dispatch_send_report_wrapped self s1) as (t & E & Q).
  destruct (ETLBase._send_report_wrapped self s1) as [[[]|e] s2]; cbn [snd] in E; subst s2.
  - cbn [fst snd trace set_trace s1]. rewrite !failures_app, (dispatch_failures t Q).
    cbn. by rewrite !app_nil_r.
  - rewrite handled_failures, handled_raises. cbn [trace set_trace s1].
    rewrite !failures_app, (dispatch_failures t Q). cbn. by rewrite !app_nil_r.
Qed.

(** *** What the strategies leave in the files *)



Lemma xlsx_sheet_skip chunks : forall startrow sh,
  nonempty chunks = [] -> xlsx_sheet startrow chunks sh = sh.
Proof.
  induction chunks as [|ch rest IH]; intros startrow sh; [done|].
  rewrite nonempty_cons. cbn [xlsx_sheet]. destruct (empty ch); [apply IH|done].
Qed.

Lemma xlsx_loop_whole_book cb :
  passive_cb cb ->
  forall chunks startrow total s,
    book (ExcelSaver.loop chunks cb startrow total s).2
    = match nonempty chunks with
      | [] => book s
      | _ => <["Data" := default ∅ (xlsx_sheet startrow chunks (book s !! "Data"))]> (book s)
      end.
Proof.
  intros Hcb. induction chunks as [|ch rest IH]; intros startrow total s; [done|].
  cbn [ExcelSaver.loop xlsx_sheet]. rewrite nonempty_cons. destruct (empty ch).
  - monad. by rewrite IH.
  - unfold to_excel. monad.
    match goal with |- context [bind (call cb (len ch)) _ ?st] =>
      with_callback Hcb cb (len ch) st end.
    rewrite (bind_ok _ _ _ _ _ E). monad. rewrite IH.
    cbn [book set_book set_trace set_metrics]. rewrite lookup_insert_eq.
    destruct (nonempty rest) eqn:Hn.
    + by rewrite xlsx_sheet_skip.
    + by rewrite insert_insert_eq.
Qed.

Lemma xlsx_save_book cb p comp data chunks t1 t2 f s :
  passive_cb cb ->
  iterates data chunks t1 t2 f ->
  xlsx_allows comp = true ->
  book (ExcelSaver.save data p comp cb s).2
  = match nonempty chunks with
    | [] => ∅
    | _ => {["Data" := default ∅ (xlsx_sheet 0 chunks None)]}
    end.
Proof.
  intros Hcb Hit Hx. unfold ExcelSaver.save.
  rewrite xlsx_guard, Hx. cbn [negb].
  unfold with_ExcelWriter, ExcelWriter_open. monad. unfold try_finally.
  unfold iterates in Hit.
  destruct (SaverStrategy._iter_chunks data) as [[first frames] last].
  destruct Hit as (-> & Hfirst & Hlast & _).
  rewrite (bind_ok _ _ _ _ _ (Hfirst _)).
  match goal with |- context [bind (ExcelSaver.loop _ _ _ _) _ ?st] =>
    destruct (xlsx_loop_spec cb Hcb chunks 0 0 st) as (s' & E & _);
    pose proof (xlsx_loop_whole_book cb Hcb chunks 0 0 st) as Hb end.
  rewrite E in Hb. cbn [snd book set_book set_trace set_fs] in Hb.
  rewrite lookup_empty in Hb.
  rewrite (bind_ok _ _ _ _ _ E). unfold bind at 1. rewrite Hlast.
  unfold ExcelWriter_close.
  destruct f as [e|]; cbn [outcome]; monad; cbn [book set_trace];
    destruct (bool_decide (book s' = ∅)); monad; cbn [snd book set_trace set_fs];
    exact Hb.
Qed.

(** *** The list of observers *)

Lemma detach_cons x l o :
  NotificationSubject.detach (x :: l) o
  = if decide (oid x = oid o) then l else x :: NotificationSubject.detach l o.
Proof.
  unfold NotificationSubject.detach. cbn [list_find].
  destruct (decide (oid x = oid o)); [done|].
  destruct (list_find _ l) as [[i y]|]; done.
Qed.

Lemma filter_all {A} (P : A -> Prop) `{!forall x, Decision (P x)} (l : list A) :
  Forall P l -> filter P l = l.
Proof.
  induction 1 as [|x l Hx _ IH]; [done|]. by rewrite filter_cons, decide_True, IH.
Qed.

Lemma detach_oids l o :
  NoDup (map oid l) ->
  map oid (NotificationSubject.detach l o) = filter (fun i => i <> oid o) (map oid l).
Proof.
  induction l as [|x l IH]; [done|]. rewrite detach_cons. cbn [map].
  intros [Hx Hl]%NoDup_cons. rewrite filter_cons.
  destruct (decide (oid x = oid o)) as [E|E].
  - rewrite decide_False by (by intros H; apply H).
    symmetry. apply filter_all. apply Forall_forall. intros i Hi ->.
    apply Hx. by rewrite E.
  - rewrite decide_True by done. cbn [map]. by rewrite IH.
Qed.

Lemma detach_absent l o :
  oid o ∉ map oid l -> NotificationSubject.detach l o = l.
Proof.
  induction l as [|x l IH]; [done|]. rewrite detach_cons. cbn [map].
  intros [Hx Hl]%not_elem_of_cons.
  rewrite decide_False by congruence. by rewrite IH.
Qed.

Lemma detach_Forall (P : observer -> Prop) l o :
  Forall P l -> Forall P (NotificationSubject.detach l o).
Proof.
  induction 1 as [|x l Hx Hl IH]; [done|]. rewrite detach_cons.
  destruct (decide (oid x = oid o)); [done|]. by apply Forall_cons.
Qed.

Lemma attach_nodup l o :
  NoDup (map oid l) -> NoDup (map oid (NotificationSubject.attach l o)).
Proof.
  intros Hl. unfold NotificationSubject.attach. case_bool_decide as H; [done|].
  rewrite map_app. apply NoDup_app. split; [done|]. split.
  - intros i Hi [->|[]%elem_of_nil]%elem_of_cons. by apply H.
  - apply NoDup_singleton.
Qed.

Lemma detach_nodup l o :
  NoDup (map oid l) -> NoDup (map oid (NotificationSubject.detach l o)).
Proof. intros Hl. rewrite detach_oids by done. by apply NoDup_filter. Qed.

Lemma detach_attach l o :
  oid o ∉ map oid l -> NotificationSubject.detach (l ++ [o]) o = l.
Proof.
  induction l as [|x l IH]; cbn [app map].
  - intros _. rewrite detach_cons. by rewrite decide_True.
  - intros [Hx Hl]%not_elem_of_cons. rewrite detach_cons.
    rewrite decide_False by congruence. by rewrite IH.
Qed.

Lemma normalized_not_none c :
  Py.lower (Py.strip (Py.chars c)) ∉ Py.chars <$> ["none"; "null"; ""] ->
  c <> "none" /\ c <> "".
Proof.
  intros H. split; intros ->; apply H; vm_compute.
  - apply list_elem_of_here.
  - do 2 apply list_elem_of_further. apply list_elem_of_here.
Qed.

Lemma session_calls_app t1 t2 :
  session_calls (t1 ++ t2) = session_calls t1 ++ session_calls t2.
Proof. apply omap_app. Qed.

Ltac not_in_list :=
  cbn; repeat (apply not_elem_of_cons; split; [discriminate|]); apply not_elem_of_nil.

(** *** Outcomes of the strategies, of the stages and of the report *)

Lemma failing_spec saver cb p comp chunks e s :
  passive_cb cb ->
  saver <> xlsx_saver ->
  writable saver comp chunks ->
  let failed := save saver (Chunks chunks (Some e)) p comp cb s in
  let whole := save saver (Chunks chunks None) p comp cb s in
  failed.1 = Raise e
  /\ whole.1 = Ok (total_rows chunks)
  /\ fs failed.2 = fs whole.2
  /\ writes (trace failed.2) = writes (trace whole.2)
  /\ callbacks (trace failed.2) = callbacks (trace whole.2)
  /\ rows_processed failed.2 = rows_processed whole.2.
Proof.
  intros Hcb Hx Hw. cbv zeta. destruct saver; [| done | |]; cbn [save writable] in *.
  - unfold CsvSaver.save, unlink. monad. fold (csv_codec comp).
    match goal with |- context [bind (CsvSaver.loop _ _ ?c _ _ _ _) _ ?st] =>
      destruct (csv_loop_spec cb p c Hcb chunks 0 mode_w true st Hw) as (s' & E & _) end.
    cbn [Nat.add] in E. rewrite !(bind_ok _ _ _ _ _ E). monad.
    destruct (Nat.eqb (total_rows chunks) 0); monad; unfold ret;
      cbn [fst snd fs trace set_trace rows_processed];
      rewrite ?writes_app, ?callbacks_app; simpl; rewrite ?app_nil_r; done.
  - destruct Hw as [Ht Hd]. unfold JsonSaver.save. monad.
    destruct (json_loop_spec cb p (normalize_compression comp) Hcb chunks 0 mode_w s Ht Hd)
      as (s' & E & _).
    cbn [Nat.add] in E. rewrite !(bind_ok _ _ _ _ _ E). monad.
    destruct (Nat.eqb (total_rows chunks) 0); monad; unfold ret;
      cbn [fst snd fs trace set_trace rows_processed];
      rewrite ?writes_app, ?callbacks_app; simpl; rewrite ?app_nil_r; done.
  - destruct Hw as [Ht Hd]. unfold ParquetSaver.save. monad.
    destruct (parquet_loop_spec cb p comp Hcb chunks 0 s Ht Hd) as (s' & E & _).
    cbn [Nat.add] in E. rewrite !(bind_ok _ _ _ _ _ E). monad. done.
Qed.

Lemma xlsx_failing_spec cb p comp chunks e s :
  passive_cb cb ->
  xlsx_allows comp = true ->
  let failed := ExcelSaver.save (Chunks chunks (Some e)) p comp cb s in
  let whole := ExcelSaver.save (Chunks chunks None) p comp cb s in
  failed.2 = whole.2
  /\ failed.1 = match nonempty chunks with
                | [] => Raise NoVisibleSheet
                | _ => Raise e
                end
  /\ fs failed.2 !! p = match nonempty chunks with
                        | [] => Some []
                        | _ => Some [XlsxPiece (book failed.2)]
                        end.
Proof.
  intros Hcb Hx. cbv zeta.
  destruct (xlsx_save_spec cb p comp _ chunks _ _ _ s Hcb (iterates_chunks chunks None) Hx)
    as (sw & Ew & _ & _ & Hfw).
  assert (ExcelSaver.save (Chunks chunks (Some e)) p comp cb s
          = (match nonempty chunks with [] => Raise NoVisibleSheet | _ => Raise e end, sw)) as Ef.
  { revert Ew. unfold ExcelSaver.save. rewrite xlsx_guard, Hx. cbn [negb].
    unfold with_ExcelWriter, ExcelWriter_open. monad. unfold try_finally.
    rewrite !(bind_ok (ret tt) _ _ tt _ eq_refl).
    match goal with |- context [bind (ExcelSaver.loop _ _ _ _) _ ?st] =>
      destruct (xlsx_loop_spec cb Hcb chunks 0 0 st) as (s' & E & _ & _ & _ & Hb & _) end.
    cbn [Nat.add] in E. rewrite !(bind_ok _ _ _ _ _ E). monad. cbn [outcome].
    unfold ExcelWriter_close. monad.
    cbn [book set_trace set_fs set_book] in Hb.
    destruct (nonempty chunks) as [|c0 l].
    - rewrite Hb. rewrite bool_decide_eq_true_2 by done. monad. by intros [= <-].
    - rewrite bool_decide_eq_false_2.
      2:{ intros Hempty. rewrite Hempty, lookup_empty in Hb. by destruct Hb. }
      monad. by intros [= <-]. }
  rewrite Ef, Ew. cbn [fst snd]. split; [done|]. split; [done|].
  rewrite Hfw. destruct (nonempty chunks); by rewrite lookup_insert_eq.
Qed.

(** *** A strategy that returns has written every batch *)

Lemma csv_loop_refused cb p c :
  pandas_takes c = false ->
  forall chunks total mode header s,
    nonempty chunks <> [] ->
    exists e s', CsvSaver.loop chunks p c cb total mode header s = (Raise e, s').
Proof.
  intros Hc. destruct c as [c|]; [|done].
  induction chunks as [|ch rest IH]; intros total mode header s Hn; [done|].
  rewrite nonempty_cons in Hn. cbn [CsvSaver.loop]. destruct (empty ch) eqn:He.
  - monad. by apply IH.
  - unfold bind at 1. rewrite to_csv_refuses by done. eauto.
Qed.

Lemma to_json_refuses chunk p c mode s :
  ~ (NoDup (columns chunk) /\ pandas_takes c = true) ->
  exists e, to_json chunk p c mode s = (Raise e, s).
Proof.
  intros H. unfold to_json. case_bool_decide as Hd; [|by eexists].
  destruct (pandas_takes c) eqn:Hc; [by destruct H|].
  destruct c as [c|]; [|done].
  unfold bind. rewrite infer_compression_refuses by done. by eexists.
Qed.

Lemma to_parquet_refuses chunk p c s :
  ~ (NoDup (columns chunk) /\ parquet_takes c = true) ->
  exists e s', to_parquet chunk p c s = (Raise e, s').
Proof.
  intros H. unfold to_parquet. case_bool_decide as Hd; [|by eexists _, _].
  destruct c as [c|]; [|by destruct H].
  cbn [parquet_takes] in H. destruct (parquet_codec c); [by destruct H|].
  monad. by eexists _, _.
Qed.

Lemma json_loop_refused cb p c :
  passive_cb cb ->
  forall chunks total mode s,
    ~ ((nonempty chunks <> [] -> pandas_takes c = true) /\ distinct chunks) ->
    exists e s', JsonSaver.loop chunks p c cb total mode s = (Raise e, s').
Proof.
  intros Hcb. induction chunks as [|ch rest IH]; intros total mode s H.
  - destruct H. split; [done|apply Forall_nil_2].
  - unfold distinct in *. rewrite nonempty_cons in H. cbn [JsonSaver.loop].
    destruct (empty ch) eqn:He; [by apply IH|].
    destruct (decide (NoDup (columns ch) /\ pandas_takes c = true)) as [[Hd Hc]|Hno].
    + rewrite (bind_ok _ _ _ _ _ (to_json_ok ch p c mode s Hd Hc)).
      match goal with |- context [bind (call cb (len ch)) _ ?st] =>
        with_callback Hcb cb (len ch) st end.
      rewrite (bind_ok _ _ _ _ _ E). apply IH.
      intros [H1 H2]. apply H. split; [done|]. by apply Forall_cons.
    + destruct (to_json_refuses ch p c mode s Hno) as (e & Er).
      unfold bind at 1. rewrite Er. eauto.
Qed.

Lemma parquet_loop_refused cb p c :
  passive_cb cb ->
  forall chunks total s,
    ~ ((nonempty chunks <> [] -> parquet_takes c = true) /\ distinct chunks) ->
    exists e s', ParquetSaver.loop chunks p c cb total s = (Raise e, s').
Proof.
  intros Hcb. induction chunks as [|ch rest IH]; intros total s H.
  - destruct H. split; [done|apply Forall_nil_2].
  - unfold distinct in *. rewrite nonempty_cons in H. cbn [ParquetSaver.loop].
    destruct (empty ch) eqn:He; [by apply IH|].
    destruct (decide (NoDup (columns ch) /\ parquet_takes c = true)) as [[Hd Hc]|Hno].
    + rewrite (bind_ok _ _ _ _ _ (to_parquet_ok ch p c s Hd Hc)).
      match goal with |- context [bind (call cb (len ch)) _ ?st] =>
        with_callback Hcb cb (len ch) st end.
      rewrite (bind_ok _ _ _ _ _ E). apply IH.
      intros [H1 H2]. apply H. split; [done|]. by apply Forall_cons.
    + destruct (to_parquet_refuses ch p c s Hno) as (e & s' & Er).
      unfold bind at 1. rewrite Er. eauto.
Qed.

Lemma save_ok_writable saver cb p comp data chunks t1 t2 f s n s' :
  passive_cb cb ->
  iterates data chunks t1 t2 f ->
  save saver data p comp cb s = (Ok n, s') ->
  writable saver comp chunks.
Proof.
  intros Hcb Hit E. unfold iterates in Hit.
  destruct saver; cbn [save writable] in *.
  - intros Hn. destruct (pandas_takes (csv_codec comp)) eqn:Hc; [done|]. exfalso.
    revert E. unfold CsvSaver.save, unlink. monad. fold (csv_codec comp).
    destruct (SaverStrategy._iter_chunks data) as [[first frames] last].
    destruct Hit as (-> & Hfirst & _).
    rewrite (bind_ok _ _ _ _ _ (Hfirst _)).
    match goal with |- context [bind (CsvSaver.loop _ _ ?c _ _ _ _) _ ?st] =>
      destruct (csv_loop_refused cb p c Hc chunks 0 mode_w true st Hn) as (e & s1 & Er) end.
    unfold bind at 1. by rewrite Er.
  - destruct (xlsx_allows comp) eqn:Hx; [done|].
    by rewrite xlsx_save_refused in E.
  - destruct (decide (distinct chunks)) as [Hd|Hd].
    + destruct (nonempty chunks) as [|c0 l] eqn:Hn; [split; [intros H; by destruct H|exact Hd]|].
      destruct (pandas_takes (normalize_compression comp)) eqn:Hc; [split; [done|exact Hd]|]. exfalso.
      revert E. unfold JsonSaver.save.
      destruct (SaverStrategy._iter_chunks data) as [[first frames] last].
      destruct Hit as (-> & Hfirst & _).
      rewrite (bind_ok _ _ _ _ _ (Hfirst _)).
      match goal with |- context [bind (JsonSaver.loop _ _ ?c _ _ _) _ ?st] =>
        destruct (json_loop_refused cb p c Hcb chunks 0 mode_w st) as (e & s1 & Er) end.
      { rewrite Hn. intros [H _]. specialize (H ltac:(done)). congruence. }
      unfold bind at 1. by rewrite Er.
    + exfalso. revert E. unfold JsonSaver.save.
      destruct (SaverStrategy._iter_chunks data) as [[first frames] last].
      destruct Hit as (-> & Hfirst & _).
      rewrite (bind_ok _ _ _ _ _ (Hfirst _)).
      match goal with |- context [bind (JsonSaver.loop _ _ ?c _ _ _) _ ?st] =>
        destruct (json_loop_refused cb p c Hcb chunks 0 mode_w st) as (e & s1 & Er) end.
      { by intros [_ H]. }
      unfold bind at 1. by rewrite Er.
  - destruct (decide (distinct chunks)) as [Hd|Hd].
    + destruct (nonempty chunks) as [|c0 l] eqn:Hn; [split; [intros H; by destruct H|exact Hd]|].
      destruct (parquet_takes comp) eqn:Hc; [split; [done|exact Hd]|]. exfalso.
      revert E. unfold ParquetSaver.save.
      destruct (SaverStrategy._iter_chunks data) as [[first frames] last].
      destruct Hit as (-> & Hfirst & _).
      rewrite (bind_ok _ _ _ _ _ (Hfirst _)).
      match goal with |- context [bind (ParquetSaver.loop _ _ ?c _ _) _ ?st] =>
        destruct (parquet_loop_refused cb p c Hcb chunks 0 st) as (e & s1 & Er) end.
      { rewrite Hn. intros [H _]. specialize (H ltac:(done)). congruence. }
      unfold bind at 1. by rewrite Er.
    + exfalso. revert E. unfold ParquetSaver.save.
      destruct (SaverStrategy._iter_chunks data) as [[first frames] last].
      destruct Hit as (-> & Hfirst & _).
      rewrite (bind_ok _ _ _ _ _ (Hfirst _)).
      match goal with |- context [bind (ParquetSaver.loop _ _ ?c _ _) _ ?st] =>
        destruct (parquet_loop_refused cb p c Hcb chunks 0 st) as (e & s1 & Er) end.
      { by intros [_ H]. }
      unfold bind at 1. by rewrite Er.
Qed.

Lemma save_ok_file saver cb p comp data chunks t1 t2 f s n s' :
  passive_cb cb ->
  iterates data chunks t1 t2 f ->
  save saver data p comp cb s = (Ok n, s') ->
  f = None /\ n = total_rows chunks
  /\ writable saver comp chunks
  /\ (n <> 0 -> is_Some (fs s' !! p)).
Proof.
  intros Hcb Hit E.
  pose proof (save_ok_writable saver cb p comp data chunks t1 t2 f s n s' Hcb Hit E) as Hw.
  destruct saver; cbn [save writable] in *.
  - destruct (csv_save_spec cb p comp data chunks t1 t2 f s Hcb Hit Hw)
      as (s1 & E1 & _ & _ & Hf).
    rewrite E1 in E. destruct f; [discriminate|]. injection E as <- <-.
    repeat split; try done.
    intros Hn. rewrite Hf. destruct (nonempty chunks) eqn:Hne.
    + by rewrite (total_rows_none chunks Hne) in Hn.
    + rewrite lookup_insert_eq. by eexists.
  - destruct (xlsx_save_spec cb p comp data chunks t1 t2 f s Hcb Hit Hw)
      as (s1 & E1 & _ & _ & Hf).
    rewrite E1 in E. destruct (nonempty chunks) eqn:Hne; [discriminate|].
    destruct f; [discriminate|]. injection E as <- <-. repeat split; try done.
    intros _. rewrite Hf, lookup_insert_eq. by eexists.
  - destruct Hw as [Ht Hd].
    destruct (json_save_spec cb p comp data chunks t1 t2 f s Hcb Hit Ht Hd)
      as (s1 & E1 & _ & _ & Hf).
    rewrite E1 in E. destruct f; [discriminate|]. injection E as <- <-.
    repeat split; try done.
    intros Hn. rewrite Hf. destruct (nonempty chunks) eqn:Hne.
    + by rewrite (total_rows_none chunks Hne) in Hn.
    + rewrite lookup_insert_eq. by eexists.
  - destruct Hw as [Ht Hd].
    destruct (parquet_save_spec cb p comp data chunks t1 t2 f s Hcb Hit Ht Hd)
      as (s1 & E1 & _ & _ & Hf).
    rewrite E1 in E. destruct f; [discriminate|]. injection E as <- <-.
    repeat split; try done.
    intros Hn. rewrite Hf. destruct (nonempty chunks) as [|c l] eqn:Hne.
    + by rewrite (total_rows_none chunks Hne) in Hn.
    + rewrite last_cons. destruct (last l); rewrite lookup_insert_eq; by eexists.
Qed.

Lemma load_ok self data chunks t1 t2 f cb s :
  iterates data chunks t1 t2 f ->
  (ETLBase.load self data cb s).1 = Ok tt ->
  let s' := (ETLBase.load self data cb s).2 in
  f = None /\ total_rows chunks <> 0
  /\ (exists saver, Container.saver_strategy_map !! export_format self = Some saver
                    /\ writable saver (compression self) chunks)
  /\ exists path, (ETLBase.generate_filename self s).1 = Ok path
                  /\ filename s' = Some path /\ is_Some (fs s' !! path).
Proof.
  intros Hit. cbv zeta.
  destruct (Container.saver_strategy_map !! export_format self) as [saver|] eqn:Hs.
  2:{ unfold ETLBase.load. rewrite error_handler_eq, Hs. unfold raise at 1.
      by rewrite handled_raises. }
  destruct (generate_filename_ok self s) as (path & Hp).
  rewrite (load_eq self saver path) by (by rewrite ?Hp).
  match goal with |- context [save saver ?d ?p ?c ?f ?st] =>
    pose proof (save_same_object saver d p c f passive_update_metrics st) as Hso;
    destruct (save saver d p c f st) as [[n|e] s1] eqn:E
  end; cbn [snd] in Hso; [|by rewrite handled_raises].
  destruct (Nat.eqb_spec n 0) as [->|Hn]; [by rewrite handled_raises|].
  intros _.
  apply (save_ok_file _ _ _ _ _ chunks t1 t2 f) in E as (-> & -> & Hx & Hf);
    [|apply passive_update_metrics|exact Hit].
  destruct Hso as (Hfn & _). cbn [filename set_filename set_trace] in Hfn.
  cbn [fst snd fs filename set_trace].
  split; [done|]. split; [done|]. split; [by exists saver|].
  exists path. rewrite (Hp s eq_refl). split; [done|]. split; [exact Hfn|]. by apply Hf.
Qed.

Lemma iterates_extraction chunks failure :
  iterates (extraction (Chunks chunks failure)) chunks
    [Session NewSession; Log DEBUG TransactionBegun] (session_end failure) failure.
Proof. apply iterates_healthy. Qed.

Lemma run_ok fmt comp dir email tg chunks failure s :
  let job := PostgresETL fmt comp dir email tg (Chunks chunks failure) in
  let out := ETLBase.run job s in
  out.1 = Ok tt ->
  failure = None
  /\ total_rows chunks <> 0
  /\ rows_processed out.2 = total_rows chunks
  /\ exists path, (ETLBase.generate_filename job s).1 = Ok path
                  /\ filename out.2 = Some path
                  /\ is_Some (fs out.2 !! path).
Proof.
  cbv zeta. intros Hok.
  set (job := PostgresETL fmt comp dir email tg (Chunks chunks failure)) in *.
  destruct (run_tail job s) as (t & Et).
  assert ((ETLBase.stages job (started s)).1 = Ok tt) as Hst.
  { revert Hok. rewrite run_eq. destruct (ETLBase.stages job (started s)) as [r s2].
    destruct (ETLBase._send_report job s2) as [[[]|e'] s3].
    - destruct r as [[]|e]; [done|]. by rewrite handled_raises.
    - by rewrite handled_raises. }
  unfold job in Hst, Et. rewrite postgres_stages in Hst, Et. fold job in Hst, Et.
  apply (load_ok _ _ chunks _ _ failure _ _ (iterates_extraction chunks failure)) in Hst
    as (-> & Hn & (saver & Hs & Hx) & path & Hp & Hfn & Hf).
  split; [done|]. split; [done|]. split.
  - by apply (run_rows fmt saver).
  - exists path. rewrite Et. cbn [filename fs set_trace]. split; [|done].
    revert Hp. unfold ETLBase.generate_filename, ETLBase._build_filename, bind, gets, ret.
    cbn beta iota. cbn [fst timestamp started set_trace set_metrics]. done.
Qed.

Lemma send_report_notices self s :
  exists t,
    (ETLBase._send_report self s).2
    = set_trace (fun tr => tr ++ Enter "_send_report" :: t) s
    /\ forallb is_notice t = true
    /\ ((filename s = None
         \/ (exists p, filename s = Some p /\ fs s !! p = None)) ->
        t = [] /\ (ETLBase._send_report self s).1 = Ok tt).
Proof.
  unfold ETLBase._send_report. rewrite error_handler_eq.
  set (s1 := set_trace (fun tr => tr ++ [Enter "_send_report"]) s).
  destruct (dispatch_send_report_wrapped self s1) as (t & E & Q%dispatch_notice).
  assert ((filename s = None \/ (exists p, filename s = Some p /\ fs s !! p = None)) ->
          ETLBase._send_report_wrapped self s1 = (Ok tt, s1)) as Hskip.
  { intros H. unfold ETLBase._send_report_wrapped, bind, gets, ret. cbn beta iota.
    cbn [filename fs s1 set_trace].
    destruct H as [->|(p & -> & Hp)]; [done|].
    rewrite Hp. rewrite bool_decide_eq_false_2; [done|]. by intros [? ?]. }
  destruct (ETLBase._send_report_wrapped self s1) as [[[]|e] s2] eqn:Ew;
    cbn [snd] in E; subst s2.
  - exists t. unfold s1. rewrite set_trace_app. split; [done|]. split; [done|].
    intros H. specialize (Hskip H). injection Hskip as Hs. split; [|done].
    apply (f_equal length) in Hs. rewrite !length_app in Hs.
    destruct t; [done|simpl in Hs; lia].
  - destruct (@handled_state unit (Some "report sending error") true "_send_report" e
                (set_trace (fun tr => tr ++ t) s1)) as (t' & E' & Q'%dispatch_notice & _).
    eexists. rewrite E'. unfold s1. rewrite !set_trace_app. split; [reflexivity|].
    split.
    + rewrite forallb_app, Q. simpl. by rewrite Q'.
    + intros H. specialize (Hskip H). discriminate.
Qed.

Lemma normalize_some value c :
  normalize_compression value = Some c ->
  value = Some c
  /\ Py.lower (Py.strip (Py.chars c)) ∉ Py.chars <$> ["none"; "null"; ""].
Proof.
  destruct value as [v|]; [|done]. unfold normalize_compression.
  case_bool_decide as H; [done|]. by intros [= <-].
Qed.

Lemma posts_app t1 t2 : posts (t1 ++ t2) = posts t1 ++ posts t2.
Proof. apply omap_app. Qed.

Lemma same_posts_preorder : PreOrder same_posts.
Proof.
  split.
  - by intros s.
  - intros s1 s2 s3 H1 H2. unfold same_posts in *. congruence.
Qed.

Lemma saver_event_posts e : is_saver_event e = true -> posts [e] = [].
Proof. by destruct e as [[] []| | | | | | | | | | | | |]. Qed.

Lemma save_same_posts saver data p comp cb :
  passive_cb cb -> keeps same_posts (save saver data p comp cb).
Proof.
  intros Hcb. apply (keeps_save _ same_posts_preorder); try done.
  - intros s e He. unfold same_posts. cbn [trace set_trace].
    by rewrite posts_app, (saver_event_posts e He), app_nil_r.
  - by apply passive_cb_keeps.
Qed.

Lemma telegram_update_spec c message kwargs s :
  let out := TelegramObserver.update c message kwargs s in
  let sent := TelegramObserver.complete c && telegram_up s in
  out.1 = Ok sent
  /\ posts (trace out.2) = posts (trace s) ++ (if sent then [message] else [])
  /\ fs out.2 = fs s.
Proof.
  cbv zeta. unfold TelegramObserver.update.
  unfold try_except, bind, gets, log, emit, modify, raise, ret.
  destruct (TelegramObserver.complete c); cbn [negb andb].
  2:{ cbn [fst snd trace fs set_trace]. unfold posts. rewrite omap_app.
      simpl. by rewrite app_nil_r. }
  destruct (telegram_up s); cbn [fst snd trace fs set_trace];
    unfold posts; rewrite ?omap_app; simpl; rewrite ?app_nil_r; done.
Qed.

Lemma update_posts o message kwargs s :
  channel o ->
  posts (trace (update o message kwargs s).2)
  = posts (trace s) ++ posted (telegram_up s) message o.
Proof.
  unfold channel, update, posted. intros Ho. monad.
  destruct (cls o) as [|c|c]; [done| |].
  - unfold EmailObserver.update, EmailObserver._attach_file.
    unfold try_except, bind, gets, log, emit, modify, raise, ret.
    destruct (EmailObserver.complete c); cbn [negb];
      [destruct (kw_attachment_path kwargs) as [p|];
        [destruct (Py.truthy (Some p)); [destruct (fs _ !! p)|]|]|];
      cbn [smtp_up set_trace]; try destruct (smtp_up s);
      cbn [snd trace set_trace]; rewrite ?posts_app; simpl; rewrite ?app_nil_r; done.
  - destruct (telegram_update_spec c message kwargs
                (set_trace (fun t => t ++ [Update (oid o)]) s)) as (_ & Hp & _).
    rewrite Hp. cbn [trace set_trace telegram_up]. rewrite posts_app. simpl.
    by rewrite app_nil_r.
Qed.

Lemma notify_posts hs message kwargs :
  Forall channel hs ->
  forall s,
    posts (trace (NotificationSubject.notify hs message kwargs s).2)
    = posts (trace s) ++ concat (map (posted (telegram_up s) message) hs).
Proof.
  induction 1 as [|o rest Ho _ IH]; intros s; simpl.
  - by rewrite app_nil_r.
  - destruct (update_ok o message kwargs s Ho) as (b & Eb).
    pose proof (update_posts o message kwargs s Ho) as Hp.
    destruct (calm_state (update o message kwargs) s (calm_update _ _ _)) as (t & Et & _).
    unfold bind. destruct (update o message kwargs s) as [r s1]. simpl in Eb, Hp, Et.
    subst r. rewrite IH, Hp. subst s1. cbn [telegram_up set_trace].
    by rewrite <- app_assoc.
Qed.

Lemma send_report_wrapped_posts self s p :
  filename s = Some p ->
  is_Some (fs s !! p) ->
  (ETLBase._send_report_wrapped self s).1 = Ok tt ->
  posts (trace (ETLBase._send_report_wrapped self s).2)
  = posts (trace s)
    ++ (if send_telegram self && telegram_goes_out s then [EtlDone (Py.basename p)] else []).
Proof.
  intros Hfn Hp. unfold ETLBase._send_report_wrapped, EmailObserver.init,
    TelegramObserver.init, telegram_goes_out.
  unfold bind, gets, ret, raise. cbn beta iota. rewrite Hfn.
  rewrite bool_decide_eq_true_2 by done. cbn [negb].
  assert (forall (hs : list observer) (extra : list text),
    Forall channel hs ->
    concat (map (posted (telegram_up s) (EtlDone (Py.basename p))) hs) = extra ->
    posts (trace (NotificationSubject.notify hs (EtlDone (Py.basename p))
                    {| kw_subject := Some (ExportOf (Py.basename p));
                       kw_body := Some (ExportFile (Py.basename p));
                       kw_attachment_path := Some p |} s).2)
    = posts (trace s) ++ extra) as Hn.
  { intros hs extra Hc <-. by apply notify_posts. }
  destruct (send_email self).
  - destruct (env s !! "EMAIL_SMTP_PORT") as [v|].
    + destruct (Py.int v) as [z|]; [|done]. intros _.
      destruct (send_telegram self); cbn beta iota; cbn [andb]; apply Hn;
        try channels; rewrite ?attach_nil;
        repeat (rewrite attach_fresh by
          (simpl; apply not_elem_of_cons; split; [done | apply not_elem_of_nil]));
        cbn [map concat posted cls TelegramObserver.complete token chat_id app];
        rewrite ?app_nil_r; done.
    + intros _.
      destruct (send_telegram self); cbn beta iota; cbn [andb]; apply Hn;
        try channels; rewrite ?attach_nil;
        repeat (rewrite attach_fresh by
          (simpl; apply not_elem_of_cons; split; [done | apply not_elem_of_nil]));
        cbn [map concat posted cls TelegramObserver.complete token chat_id app];
        rewrite ?app_nil_r; done.
  - intros _.
    destruct (send_telegram self); cbn beta iota; cbn [andb]; apply Hn;
      try channels; rewrite ?attach_nil;
      cbn [map concat posted cls TelegramObserver.complete token chat_id app];
      rewrite ?app_nil_r; done.
Qed.

Lemma mails_app t1 t2 : mails (t1 ++ t2) = mails t1 ++ mails t2.
Proof. apply omap_app. Qed.

Lemma same_mails_preorder : PreOrder same_mails.
Proof.
  split.
  - by intros s.
  - intros s1 s2 s3 H1 H2. unfold same_mails in *. congruence.
Qed.

Lemma saver_event_mails e : is_saver_event e = true -> mails [e] = [].
Proof. by destruct e as [[] []| | | | | | | | | | | | |]. Qed.

Lemma save_same_mails saver data p comp cb :
  passive_cb cb -> keeps same_mails (save saver data p comp cb).
Proof.
  intros Hcb. apply (keeps_save _ same_mails_preorder); try done.
  - intros s e He. unfold same_mails. cbn [trace set_trace].
    by rewrite mails_app, (saver_event_mails e He), app_nil_r.
  - by apply passive_cb_keeps.
Qed.

Lemma email_update_spec c message kwargs s :
  let out := EmailObserver.update c message kwargs s in
  out.1 = Ok (email_goes_out c kwargs s)
  /\ mails (trace out.2)
     = mails (trace s)
       ++ (if email_goes_out c kwargs s
           then [SmtpSend (default Notice (kw_subject kwargs)) message
                   (kw_attachment_path kwargs)]
           else [])
  /\ fs out.2 = fs s.
Proof.
  cbv zeta. unfold email_goes_out, EmailObserver.update, EmailObserver._attach_file.
  unfold try_except, bind, gets, log, emit, modify, raise, ret.
  destruct (EmailObserver.complete c); cbn [negb andb].
  2:{ cbn [fst snd trace fs set_trace]. unfold mails. rewrite omap_app.
      simpl. by rewrite app_nil_r. }
  destruct (kw_attachment_path kwargs) as [p|].
  - destruct (Py.truthy (Some p)); cbn [negb orb].
    + destruct (fs s !! p) as [f|] eqn:Hp.
      * rewrite bool_decide_eq_true_2 by (by eexists).
        cbn [smtp_up set_trace]. destruct (smtp_up s); cbn [fst snd trace fs set_trace andb];
          unfold mails; rewrite ?omap_app; simpl; rewrite ?app_nil_r; done.
      * rewrite bool_decide_eq_false_2 by (by intros [? ?]).
        cbn [fst snd trace fs set_trace andb]. unfold mails. rewrite ?omap_app.
        simpl. by rewrite ?app_nil_r.
    + cbn [smtp_up set_trace]. destruct (smtp_up s); cbn [fst snd trace fs set_trace andb];
        unfold mails; rewrite ?omap_app; simpl; rewrite ?app_nil_r; done.
  - cbn [smtp_up set_trace]. destruct (smtp_up s); cbn [fst snd trace fs set_trace andb];
      unfold mails; rewrite ?omap_app; simpl; rewrite ?app_nil_r; done.
Qed.

Lemma update_mails o message kwargs s :
  channel o ->
  mails (trace (update o message kwargs s).2)
  = mails (trace s) ++ mailed s message kwargs o.
Proof.
  unfold channel, update, mailed. intros Ho. monad.
  destruct (cls o) as [|c|c]; [done| |].
  - destruct (email_update_spec c message kwargs
                (set_trace (fun t => t ++ [Update (oid o)]) s)) as (_ & Hm & _).
    rewrite Hm. cbn [trace set_trace]. rewrite mails_app. simpl.
    by rewrite app_nil_r.
  - unfold TelegramObserver.update.
    unfold try_except, bind, gets, log, emit, modify, raise, ret.
    destruct (TelegramObserver.complete c); cbn [negb];
      cbn [telegram_up set_trace]; try destruct (telegram_up s);
      cbn [snd trace set_trace]; rewrite ?mails_app; simpl; rewrite ?app_nil_r; done.
Qed.

Lemma notify_mails hs message kwargs :
  Forall channel hs ->
  forall s,
    mails (trace (NotificationSubject.notify hs message kwargs s).2)
    = mails (trace s) ++ concat (map (mailed s message kwargs) hs).
Proof.
  induction 1 as [|o rest Ho _ IH]; intros s; simpl.
  - by rewrite app_nil_r.
  - destruct (update_ok o message kwargs s Ho) as (b & Eb).
    pose proof (update_mails o message kwargs s Ho) as Hp.
    destruct (calm_state (update o message kwargs) s (calm_update _ _ _)) as (t & Et & _).
    unfold bind. destruct (update o message kwargs s) as [r s1]. simpl in Eb, Hp, Et.
    subst r. rewrite IH, Hp. subst s1. by rewrite <- app_assoc.
Qed.

Lemma send_report_wrapped_mails self s p :
  filename s = Some p ->
  is_Some (fs s !! p) ->
  (ETLBase._send_report_wrapped self s).1 = Ok tt ->
  mails (trace (ETLBase._send_report_wrapped self s).2)
  = mails (trace s)
    ++ (if send_email self && email_configured s
        then [SmtpSend (ExportOf (Py.basename p)) (EtlDone (Py.basename p)) (Some p)]
        else []).
Proof.
  intros Hfn Hp. unfold ETLBase._send_report_wrapped, email_configured,
    EmailObserver.init, TelegramObserver.init.
  unfold bind, gets, ret, raise. cbn beta iota. rewrite Hfn.
  rewrite bool_decide_eq_true_2 by done. cbn [negb].
  set (kw := {| kw_subject := Some (ExportOf (Py.basename p));
                kw_body := Some (ExportFile (Py.basename p));
                kw_attachment_path := Some p |}).
  assert (forall (hs : list observer) (extra : list event),
    Forall channel hs ->
    concat (map (mailed s (EtlDone (Py.basename p)) kw) hs) = extra ->
    mails (trace (NotificationSubject.notify hs (EtlDone (Py.basename p)) kw s).2)
    = mails (trace s) ++ extra) as Hn.
  { intros hs extra Hc <-. by apply notify_mails. }
  assert (forall c, email_goes_out c kw s = EmailObserver.complete c && smtp_up s) as Hgo.
  { intros c. unfold email_goes_out. cbn [kw_attachment_path kw].
    rewrite bool_decide_eq_true_2 by done. by rewrite orb_true_r, andb_true_r. }
  destruct (send_email self).
  - destruct (env s !! "EMAIL_SMTP_PORT") as [v|].
    + destruct (Py.int v) as [z|]; [|done]. intros _. cbn [fst cls andb].
      destruct (send_telegram self); cbn beta iota; apply Hn;
        try channels; rewrite ?attach_nil;
        repeat (rewrite attach_fresh by
          (simpl; apply not_elem_of_cons; split; [done | apply not_elem_of_nil]));
        cbn [map concat mailed cls app]; rewrite Hgo, ?app_nil_r; done.
    + intros _. cbn [fst cls andb].
      destruct (send_telegram self); cbn beta iota; apply Hn;
        try channels; rewrite ?attach_nil;
        repeat (rewrite attach_fresh by
          (simpl; apply not_elem_of_cons; split; [done | apply not_elem_of_nil]));
        cbn [map concat mailed cls app]; rewrite Hgo, ?app_nil_r; done.
  - intros _. cbn [andb].
    destruct (send_telegram self); cbn beta iota; apply Hn;
      try channels; rewrite ?attach_nil;
      cbn [map concat mailed cls app]; rewrite ?app_nil_r; done.
Qed.

Lemma load_ok_quiet self data cb s :
  (ETLBase.load self data cb s).1 = Ok tt ->
  let s' := (ETLBase.load self data cb s).2 in
  posts (trace s') = posts (trace s)
  /\ mails (trace s') = mails (trace s)
  /\ env s' = env s /\ telegram_up s' = telegram_up s /\ smtp_up s' = smtp_up s.
Proof.
  cbv zeta.
  destruct (Container.saver_strategy_map !! export_format self) as [saver|] eqn:Hs.
  2:{ unfold ETLBase.load. rewrite error_handler_eq, Hs. unfold raise at 1.
      by rewrite handled_raises. }
  destruct (generate_filename_ok self s) as (path & Hp).
  rewrite (load_eq self saver path) by (by rewrite ?Hp).
  match goal with |- context [save saver ?d ?p ?c ?f ?st] =>
    pose proof (save_same_object saver d p c f passive_update_metrics st) as Hso;
    pose proof (save_same_posts saver d p c f passive_update_metrics st) as Hsp;
    pose proof (save_same_mails saver d p c f passive_update_metrics st) as Hsm;
    destruct (save saver d p c f st) as [[n|e] s1] eqn:E
  end; cbn [snd] in Hso, Hsp, Hsm; [|by rewrite handled_raises].
  destruct (Nat.eqb n 0); [by rewrite handled_raises|]. intros _.
  destruct Hso as (_ & He & _ & _ & Hu & Ht). unfold same_posts in Hsp.
  unfold same_mails in Hsm.
  cbn [env telegram_up smtp_up trace set_filename set_trace] in He, Ht, Hu, Hsp, Hsm.
  cbn [fst snd trace env telegram_up smtp_up set_trace].
  rewrite posts_app, Hsp, posts_app, mails_app, Hsm, mails_app. simpl.
  by rewrite !app_nil_r.
Qed.

(** *** The lines at the error level *)

Lemma error_lines_app t1 t2 : error_lines (t1 ++ t2) = error_lines t1 ++ error_lines t2.
Proof. apply omap_app. Qed.

Lemma same_error_lines_preorder : PreOrder same_error_lines.
Proof.
  split.
  - by intros s.
  - intros s1 s2 s3 H1 H2. unfold same_error_lines in *. congruence.
Qed.

Lemma loop_event_error_lines s e :
  is_loop_event e = true ->
  same_error_lines s (set_trace (fun t => t ++ [e]) s).
Proof.
  intros He. unfold same_error_lines. cbn [trace set_trace].
  rewrite error_lines_app.
  assert (error_lines [e] = []) as -> by (by destruct e as [[] []| | | | | | | | | | | | |]).
  by rewrite app_nil_r.
Qed.

Lemma failures_error_lines t :
  failures t
  = omap (fun l => match l with Decorated m e => Some (m, e) | Transaction _ => None end)
      (error_lines t).
Proof.
  induction t as [|e t IH]; [done|].
  change (e :: t) with ([e] ++ t). rewrite failures_app, error_lines_app, omap_app, IH.
  f_equal. by destruct e as [[] []| | | | | | | | | | | | |].
Qed.

Lemma dispatch_error_lines t : forallb is_dispatch t = true -> error_lines t = [].
Proof.
  induction t as [|x t IH]; [done|]. cbn [forallb]. intros [Hx Ht]%andb_prop.
  change (x :: t) with ([x] ++ t). rewrite error_lines_app, (IH Ht), app_nil_r.
  by destruct x as [[] []| | | | | | | | | | | | |].
Qed.

Lemma handled_error_lines {A} lm nt name e s :
  error_lines (trace (@handled A lm nt name e s).2)
  = error_lines (trace s) ++ [Decorated (error_msg lm name) e].
Proof.
  destruct (@handled_state A lm nt name e s) as (t & -> & Q & _).
  cbn [trace set_trace]. rewrite error_lines_app. f_equal.
  change (Log ERROR (Failure (error_msg lm name) e) :: t)
    with ([Log ERROR (Failure (error_msg lm name) e)] ++ t).
  by rewrite error_lines_app, (dispatch_error_lines t Q).
Qed.

Lemma send_report_error_lines self s :
  error_lines (trace (ETLBase._send_report self s).2)
  = error_lines (trace s)
    ++ match (ETLBase._send_report self s).1 with
       | Ok _ => []
       | Raise e => [Decorated "report sending error" e]
       end.
Proof.
  unfold ETLBase._send_report. rewrite error_handler_eq.
  set (s1 := set_trace (fun tr => tr ++ [Enter "_send_report"]) s).
  destruct (dispatch_send_report_wrapped self s1) as (t & E & Q).
  destruct (ETLBase._send_report_wrapped self s1) as [[[]|e] s2]; cbn [snd] in E; subst s2.
  - cbn [fst snd trace set_trace s1]. rewrite !error_lines_app, (dispatch_error_lines t Q).
    cbn. by rewrite !app_nil_r.
  - rewrite handled_error_lines, handled_raises. cbn [trace set_trace s1].
    rewrite !error_lines_app, (dispatch_error_lines t Q). cbn. by rewrite !app_nil_r.
Qed.

Lemma run_error_lines self s :
  let staged := ETLBase.stages self (started s) in
  let report := ETLBase._send_report self staged.2 in
  let out := ETLBase.run self s in
  error_lines (trace out.2)
  = error_lines (trace staged.2)
    ++ match report.1 with Ok _ => [] | Raise e => [Decorated "report sending error" e] end
    ++ match out.1 with Ok _ => [] | Raise e => [Decorated "ETL run error" e] end.
Proof.
  cbv zeta. rewrite run_eq.
  destruct (ETLBase.stages self (started s)) as [r s2]. cbn [fst snd].
  pose proof (send_report_error_lines self s2) as H2.
  destruct (ETLBase._send_report self s2) as [[[]|e'] s3]; cbn [fst snd] in *.
  - destruct r as [[]|e]; cbn [fst snd].
    + cbn [trace logged set_trace]. rewrite error_lines_app, H2. cbn.
      by rewrite !app_nil_r.
    + rewrite handled_error_lines, handled_raises. cbn [trace logged set_trace].
      rewrite error_lines_app, H2. cbn. by rewrite !app_nil_r.
  - rewrite handled_error_lines, handled_raises, H2. by rewrite <- !app_assoc.
Qed.

(** A strategy that writes every batch adds the error lines of its
    iterator, and no other. *)
Lemma save_error_lines saver cb p comp data chunks t1 t2 f s :
  passive_cb cb ->
  iterates data chunks t1 t2 f ->
  writable saver comp chunks ->
  error_lines (trace (save saver data p comp cb s).2)
  = error_lines (trace s) ++ error_lines (t1 ++ t2).
Proof.
  intros Hcb Hit Hw.
  assert (Hk : keeps_cb same_error_lines cb) by (by apply passive_cb_keeps).
  pose proof same_error_lines_preorder as HR.
  pose proof loop_event_error_lines as He.
  unfold iterates in Hit. rewrite error_lines_app.
  destruct saver; cbn [save writable] in *.
  - unfold CsvSaver.save, unlink. monad. fold (csv_codec comp).
    destruct (SaverStrategy._iter_chunks data) as [[first frames] last].
    destruct Hit as (-> & Hfirst & Hlast & _).
    rewrite (bind_ok _ _ _ _ _ (Hfirst _)).
    match goal with |- context [bind (CsvSaver.loop _ _ ?c _ _ _ _) _ ?st] =>
      destruct (csv_loop_spec cb p c Hcb chunks 0 mode_w true st Hw) as (s' & E & _);
      pose proof (keeps_csv_loop same_error_lines HR p He ltac:(done) cb Hk
                    chunks c 0 mode_w true st) as Hl end.
    rewrite E in Hl. unfold same_error_lines in Hl.
    cbn [snd trace set_trace set_fs] in Hl. rewrite !error_lines_app in Hl.
    cbn in Hl. rewrite app_nil_r in Hl.
    rewrite (bind_ok _ _ _ _ _ E). unfold bind at 1. rewrite Hlast. cbn [Nat.add].
    destruct f as [e|]; cbn [outcome]; [|destruct (Nat.eqb (total_rows chunks) 0)]; monad; unfold ret;
      cbn [snd trace set_trace]; rewrite ?error_lines_app, Hl; cbn;
      by rewrite ?app_nil_r, <- ?app_assoc.
  - unfold ExcelSaver.save. rewrite xlsx_guard, Hw. cbn [negb].
    unfold with_ExcelWriter, ExcelWriter_open. monad. unfold try_finally.
    destruct (SaverStrategy._iter_chunks data) as [[first frames] last].
    destruct Hit as (-> & Hfirst & Hlast & _).
    rewrite (bind_ok _ _ _ _ _ (Hfirst _)).
    match goal with |- context [bind (ExcelSaver.loop _ _ _ _) _ ?st] =>
      destruct (xlsx_loop_spec cb Hcb chunks 0 0 st) as (s' & E & _);
      pose proof (keeps_xlsx_loop same_error_lines HR He ltac:(done) cb Hk
                    chunks 0 0 st) as Hl end.
    rewrite E in Hl. unfold same_error_lines in Hl.
    cbn [snd trace set_trace set_fs set_book] in Hl. rewrite !error_lines_app in Hl.
    cbn in Hl. rewrite app_nil_r in Hl.
    rewrite (bind_ok _ _ _ _ _ E). unfold bind at 1. rewrite Hlast. cbn [Nat.add].
    unfold ExcelWriter_close.
    destruct f as [e|]; cbn [outcome]; monad; cbn [book set_trace];
      destruct (bool_decide (book s' = ∅)); monad; unfold ret, raise;
      cbn [snd trace set_trace set_fs]; rewrite ?error_lines_app, Hl; cbn;
      by rewrite ?app_nil_r, <- ?app_assoc.
  - destruct Hw as [Ht Hd]. unfold JsonSaver.save. cbv zeta.
    destruct (SaverStrategy._iter_chunks data) as [[first frames] last].
    destruct Hit as (-> & Hfirst & Hlast & _).
    rewrite (bind_ok _ _ _ _ _ (Hfirst _)).
    match goal with |- context [bind (JsonSaver.loop _ _ ?c _ _ _) _ ?st] =>
      destruct (json_loop_spec cb p c Hcb chunks 0 mode_w st Ht Hd) as (s' & E & _);
      pose proof (keeps_json_loop same_error_lines HR p He ltac:(done) cb Hk
                    chunks c 0 mode_w st) as Hl end.
    rewrite E in Hl. unfold same_error_lines in Hl.
    cbn [snd trace set_trace] in Hl.
    rewrite (bind_ok _ _ _ _ _ E). unfold bind at 1. rewrite Hlast. cbn [Nat.add].
    destruct f as [e|]; cbn [outcome]; [|destruct (Nat.eqb (total_rows chunks) 0)]; monad; unfold ret;
      cbn [snd trace set_trace]; rewrite ?error_lines_app, Hl, ?error_lines_app; cbn;
      by rewrite ?app_nil_r, <- ?app_assoc.
  - destruct Hw as [Ht Hd]. unfold ParquetSaver.save.
    destruct (SaverStrategy._iter_chunks data) as [[first frames] last].
    destruct Hit as (-> & Hfirst & Hlast & _).
    rewrite (bind_ok _ _ _ _ _ (Hfirst _)).
    match goal with |- context [bind (ParquetSaver.loop _ _ _ _ _) _ ?st] =>
      destruct (parquet_loop_spec cb p comp Hcb chunks 0 st Ht Hd) as (s' & E & _);
      pose proof (keeps_parquet_loop same_error_lines HR p He ltac:(done) ltac:(done)
                    cb Hk chunks comp 0 st) as Hl end.
    rewrite E in Hl. unfold same_error_lines in Hl.
    cbn [snd trace set_trace] in Hl.
    rewrite (bind_ok _ _ _ _ _ E). unfold bind at 1. rewrite Hlast. cbn [Nat.add].
    destruct f as [e|]; cbn [outcome]; monad; unfold ret;
      cbn [snd trace set_trace]; rewrite ?error_lines_app, Hl, ?error_lines_app; cbn;
      by rewrite ?app_nil_r, <- ?app_assoc.
Qed.

Lemma load_error_lines self saver data chunks t1 t2 f cb s :
  Container.saver_strategy_map !! export_format self = Some saver ->
  iterates data chunks t1 t2 f ->
  writable saver (compression self) chunks ->
  error_lines (trace (ETLBase.load self data cb s).2)
  = error_lines (trace s) ++ error_lines (t1 ++ t2)
    ++ match (ETLBase.load self data cb s).1 with
       | Ok _ => []
       | Raise e => [Decorated "data load error" e]
       end.
Proof.
  intros Hs Hit Hw. destruct (generate_filename_ok self s) as (path & Hp).
  rewrite (load_eq self saver path) by (by rewrite ?Hp).
  match goal with |- context [save saver data path ?c ?f0 ?st] =>
    pose proof (save_error_lines saver f0 path c data chunks t1 t2 f st
                  passive_update_metrics Hit Hw) as Hl;
    destruct (save saver data path c f0 st) as [[n|e] s1]
  end; cbn [snd trace set_filename set_trace] in Hl;
    rewrite error_lines_app in Hl; cbn in Hl; rewrite app_nil_r in Hl.
  - destruct (Nat.eqb n 0).
    + by rewrite handled_error_lines, handled_raises, Hl, <- !app_assoc.
    + cbn [fst snd trace set_trace]. rewrite error_lines_app, Hl. cbn.
      by rewrite !app_nil_r.
  - by rewrite handled_error_lines, handled_raises, Hl, <- !app_assoc.
Qed.

Lemma load_cursor_failure self saver data chunks t1 t2 e cb s :
  Container.saver_strategy_map !! export_format self = Some saver ->
  iterates data chunks t1 t2 (Some e) ->
  writable saver (compression self) chunks ->
  (saver = xlsx_saver -> nonempty chunks <> []) ->
  (ETLBase.load self data cb s).1 = Raise e.
Proof.
  intros Hs Hit Hw Hx. destruct (generate_filename_ok self s) as (path & Hp).
  rewrite (load_eq self saver path) by (by rewrite ?Hp).
  match goal with |- context [save saver data path ?c ?f0 ?st] =>
    destruct (save_spec saver f0 path c data chunks t1 t2 (Some e) st
                passive_update_metrics Hit Hw) as (s1 & E & _)
  end.
  rewrite E.
  assert (match saver, nonempty chunks with
          | xlsx_saver, [] => Raise NoVisibleSheet
          | _, _ => outcome (Some e) (total_rows chunks)
          end = Raise e) as ->.
  { destruct saver; try by destruct (nonempty chunks).
    specialize (Hx eq_refl). by destruct (nonempty chunks). }
  apply handled_raises.
Qed.

(** *** Python strings *)

Lemma forallb_reverse {A} (f : A -> bool) l : forallb f (reverse l) = forallb f l.
Proof.
  induction l as [|x l IH]; [done|].
  rewrite reverse_cons, forallb_app, IH. simpl. by rewrite andb_true_r, andb_comm.
Qed.

Lemma lstrip_by_spaces space l x :
  forallb space l = true -> Py.lstrip_by space (l ++ x) = Py.lstrip_by space x.
Proof.
  induction l as [|c l IH]; [done|]. simpl. intros [-> Hl]%andb_prop. by apply IH.
Qed.

Lemma lstrip_by_split space cs :
  exists l, cs = l ++ Py.lstrip_by space cs /\ forallb space l = true.
Proof.
  induction cs as [|c cs (l & IH & Hl)]; [by exists []|]. simpl.
  destruct (space c) eqn:Hc.
  - exists (c :: l). simpl. rewrite Hc, Hl. split; [by f_equal|done].
  - by exists [].
Qed.

(** What [strip] takes off is whitespace. *)
Lemma strip_by_split space cs :
  exists l r, cs = l ++ Py.strip_by space cs ++ r
              /\ forallb space l = true /\ forallb space r = true.
Proof.
  unfold Py.strip_by, Py.rstrip_by.
  destruct (lstrip_by_split space cs) as (l & E & Hl).
  destruct (lstrip_by_split space (reverse (Py.lstrip_by space cs))) as (r & Er & Hr).
  exists l, (reverse r). split; [|split; [done|by rewrite forallb_reverse]].
  rewrite <- reverse_app, <- Er, reverse_involutive. exact E.
Qed.

(** [strip] takes off all the whitespace around a text that neither
    starts nor ends with whitespace. *)
Lemma strip_by_spaces space l m r :
  forallb space l = true -> forallb space r = true ->
  match m with [] => True | c :: _ => space c = false end ->
  match reverse m with [] => True | c :: _ => space c = false end ->
  Py.strip_by space (l ++ m ++ r) = m.
Proof.
  intros Hl Hr Hfirst Hlast. unfold Py.strip_by, Py.rstrip_by.
  rewrite lstrip_by_spaces by done.
  assert (Py.lstrip_by space (m ++ r) = match m with [] => [] | _ => m ++ r end) as ->.
  { destruct m as [|c m]; simpl.
    - rewrite <- (app_nil_r r). rewrite lstrip_by_spaces by done. done.
    - by rewrite Hfirst. }
  destruct m as [|c m]; [done|].
  rewrite reverse_app, lstrip_by_spaces by (by rewrite forallb_reverse).
  destruct (reverse (c :: m)) as [|x y] eqn:E.
  - by rewrite <- (reverse_involutive (c :: m)), E.
  - simpl. rewrite Hlast. by rewrite <- E, reverse_involutive.
Qed.

Lemma lower_nil cs : Py.lower cs = [] -> cs = [].
Proof.
  destruct cs as [|c cs]; [done|]. unfold Py.lower. simpl. unfold Py.lower_char.
  by repeat case_match.
Qed.

(** A letter other than i and k comes from itself or from its capital. *)
Lemma lower_cons cs w ws :
  Py.lower cs = w :: ws -> w <> 105%N -> w <> 107%N ->
  exists c cs', cs = c :: cs' /\ (c = w \/ (c + 32)%N = w) /\ Py.lower cs' = ws.
Proof.
  destruct cs as [|c cs]; [done|]. unfold Py.lower. simpl. fold (Py.lower cs).
  unfold Py.lower_char. intros H Hi Hk. exists c, cs.
  repeat case_match; simplify_eq/=; auto.
Qed.

Lemma lower_spells word cs :
  105%N ∉ Py.chars word -> 107%N ∉ Py.chars word ->
  Py.lower cs = Py.chars word -> spells word cs.
Proof.
  unfold spells. generalize (Py.chars word) as ws. clear word.
  intros ws. revert cs. induction ws as [|w ws IH]; intros cs Hi Hk H.
  - apply lower_nil in H as ->. constructor.
  - apply not_elem_of_cons in Hi as [Hi Hi'], Hk as [Hk Hk'].
    apply lower_cons in H as (c & cs' & -> & Hc & H); [|done..].
    constructor; [done|]. by apply IH.
Qed.

(** *** Paths *)

Lemma split_slash_no_slash s : no_slash s = true -> Py.split_slash s = [s].
Proof.
  unfold no_slash. induction s as [|c r IH]; [done|]. simpl.
  intros [Hc Hr]%andb_prop. destruct (Ascii.eqb c "/"); [done|]. by rewrite IH.
Qed.

Lemma string_append_assoc (a b c : string) : (a +:+ b) +:+ c = a +:+ (b +:+ c).
Proof.
  induction a as [|x a IH]; [done|].
  change (String x ((a +:+ b) +:+ c) = String x (a +:+ (b +:+ c))). by f_equal.
Qed.

Lemma join_slash_snoc l x :
  Py.join_slash (l ++ [x])
  = match l with
    | [] => x
    | _ => Py.join_slash l +:+ "/" +:+ x
    end.
Proof.
  induction l as [|y l IH]; [done|].
  change ((y :: l) ++ [x]) with (y :: (l ++ [x])).
  destruct l as [|z l]; [done|].
  change (Py.join_slash (y :: (z :: l) ++ [x]))
    with (y +:+ "/" +:+ Py.join_slash ((z :: l) ++ [x])).
  rewrite IH.
  change (Py.join_slash (y :: z :: l)) with (y +:+ "/" +:+ Py.join_slash (z :: l)).
  by rewrite !string_append_assoc.
Qed.

(** The path that pathlib makes of a directory and a name without slash:
    the root and the components of the directory, and the name as the last
    component. *)
Lemma joinpath_name d name :
  no_slash name = true -> name <> "" -> name <> "." ->
  Py.joinpath d name = Py.anchor d +:+ Py.join_slash (Py.parts d ++ [name]).
Proof.
  intros Hn H1 H2. unfold Py.joinpath.
  assert (Py.anchor name = "") as ->.
  { destruct name as [|c r]; [done|]. simpl in Hn. apply andb_prop in Hn as [Hc _].
    destruct (Ascii.eqb_spec c "/"); [done|]. simpl.
    destruct c as [[] [] [] [] [] [] [] []]; try done. }
  rewrite bool_decide_eq_true_2 by done.
  unfold Py.parts at 2. rewrite split_slash_no_slash by done.
  rewrite filter_cons_True by done. rewrite filter_nil.
  unfold Py.render. rewrite bool_decide_eq_false_2; [done|].
  intros [_ H]. by destruct (Py.parts d).
Qed.

(** *** strategies/saver_strategy.py *)

(** X1.  Whatever the data, also an iterator that fails, and whatever the
    strategy and the outcome, [save] leaves every file other than its
    destination as it was. *)
Theorem save_touches_destination_only saver data p comp cb s q :
  passive_cb cb ->
  q <> p ->
  fs (save saver data p comp cb s).2 !! q = fs s !! q.
Proof. intros Hcb Hq. by apply (save_elsewhere saver data p comp cb Hcb s). Qed.

Lemma save_touches_destination_only_witness :
  passive_cb None
  /\ "old.json" <> "out.csv"
  /\ fs (save csv_saver (Chunks [batch1] None) "out.csv" None None with_old_file).2
       !! "old.json"
     = fs with_old_file !! "old.json".
Proof.
  split; [exact I|]. split; [discriminate|].
  apply (save_touches_destination_only csv_saver (Chunks [batch1] None) "out.csv"
           None None with_old_file "old.json"); [exact I | discriminate].
Defined.

(** X2.  When the iterator raises after having yielded its batches, the
    delimited-text, line-delimited and columnar strategies, given a
    compression value and labels that their writer takes, raise that
    exception after they have written and reported every batch that was
    yielded: the files, the calls of the writer and of the callback and the
    counter are those of the same batches from an iterator that ends
    normally.  What was written stays. *)
Theorem iterator_failure_after_writes saver cb p comp chunks e s :
  passive_cb cb ->
  saver <> xlsx_saver ->
  writable saver comp chunks ->
  let failed := save saver (Chunks chunks (Some e)) p comp cb s in
  let whole := save saver (Chunks chunks None) p comp cb s in
  failed.1 = Raise e
  /\ whole.1 = Ok (total_rows chunks)
  /\ fs failed.2 = fs whole.2
  /\ writes (trace failed.2) = writes (trace whole.2)
  /\ callbacks (trace failed.2) = callbacks (trace whole.2)
  /\ rows_processed failed.2 = rows_processed whole.2.
Proof. apply failing_spec. Qed.

Lemma iterator_failure_after_writes_witness :
  passive_cb None
  /\ csv_saver <> xlsx_saver
  /\ writable csv_saver (Some "gzip") [batch1]
  /\ (save csv_saver (Chunks [batch1] (Some (SourceError "db"))) "out.csv.gz"
        (Some "gzip") None (fresh ∅)).1 = Raise (SourceError "db")
  /\ fs (save csv_saver (Chunks [batch1] (Some (SourceError "db"))) "out.csv.gz"
           (Some "gzip") None (fresh ∅)).2
     = fs (save csv_saver (Chunks [batch1] None) "out.csv.gz" (Some "gzip") None
             (fresh ∅)).2.
Proof.
  assert (H1 : passive_cb None) by exact I.
  assert (H2 : csv_saver <> xlsx_saver) by discriminate.
  assert (H3 : writable csv_saver (Some "gzip") [batch1])
    by (intros _; vm_compute; reflexivity).
  split; [exact H1|]. split; [exact H2|]. split; [exact H3|].
  pose proof (iterator_failure_after_writes csv_saver None "out.csv.gz" (Some "gzip")
                [batch1] (SourceError "db") (fresh ∅) H1 H2 H3) as H.
  cbv zeta in H. destruct H as (Hr & _ & Hf & _). split; [exact Hr | exact Hf].
Defined.

(** X3.  The spreadsheet strategy under an iterator that raises: the
    writer is closed all the same, so the state is the one that the same
    batches leave without the failure.  With a non-empty batch before the
    failure the workbook of the batches written so far is saved and the
    exception of the iterator is raised; with none, the error of the
    writer, which finds no sheet, is raised in its place. *)
Theorem xlsx_iterator_failure cb p comp chunks e s :
  passive_cb cb ->
  xlsx_allows comp = true ->
  let failed := ExcelSaver.save (Chunks chunks (Some e)) p comp cb s in
  let whole := ExcelSaver.save (Chunks chunks None) p comp cb s in
  failed.2 = whole.2
  /\ failed.1 = match nonempty chunks with
                | [] => Raise NoVisibleSheet
                | _ => Raise e
                end
  /\ fs failed.2 !! p = match nonempty chunks with
                        | [] => Some []
                        | _ => Some [XlsxPiece (book failed.2)]
                        end.
Proof. apply xlsx_failing_spec. Qed.

Lemma xlsx_iterator_failure_witness :
  passive_cb None
  /\ xlsx_allows None = true
  /\ (ExcelSaver.save (Chunks [batch1] (Some (SourceError "db"))) "out.xlsx" None None
        (fresh ∅)).1 = Raise (SourceError "db")
  /\ (ExcelSaver.save (Chunks [] (Some (SourceError "db"))) "out.xlsx" None None
        (fresh ∅)).1 = Raise NoVisibleSheet.
Proof.
  assert (H1 : passive_cb None) by exact I.
  assert (H2 : xlsx_allows None = true) by reflexivity.
  split; [exact H1|]. split; [exact H2|].
  pose proof (xlsx_iterator_failure None "out.xlsx" None [batch1]
                (SourceError "db") (fresh ∅) H1 H2) as Ha.
  pose proof (xlsx_iterator_failure None "out.xlsx" None []
                (SourceError "db") (fresh ∅) H1 H2) as Hb.
  cbv zeta in Ha, Hb. destruct Ha as (_ & Ha & _). destruct Hb as (_ & Hb & _).
  split; [exact Ha | exact Hb].
Defined.



(** X5.  What a strategy whose writer takes the compression value and
    the labels of the batches leaves at its destination does not depend on
    what was there, nor on anything else of the state it starts in: for
    the delimited-text and the spreadsheet strategy always, for the
    line-delimited and the columnar one as soon as some batch is
    non-empty. *)
Theorem destination_replaced saver cb1 cb2 p comp chunks s1 s2 :
  passive_cb cb1 -> passive_cb cb2 ->
  writable saver comp chunks ->
  (saver = json_saver \/ saver = parquet_saver -> nonempty chunks <> []) ->
  fs (save saver (Chunks chunks None) p comp cb1 s1).2 !! p
  = fs (save saver (Chunks chunks None) p comp cb2 s2).2 !! p.
Proof.
  intros H1 H2 Hw Hne. pose proof (iterates_chunks chunks None) as Hit.
  destruct saver; cbn [save writable] in *.
  - destruct (csv_save_spec cb1 p comp _ chunks _ _ _ s1 H1 Hit Hw) as (s1' & E1 & _ & _ & F1).
    destruct (csv_save_spec cb2 p comp _ chunks _ _ _ s2 H2 Hit Hw) as (s2' & E2 & _ & _ & F2).
    rewrite E1, E2. cbn [snd]. rewrite F1, F2. destruct (nonempty chunks).
    + by rewrite !lookup_delete_eq.
    + by rewrite !lookup_insert_eq.
  - pose proof (xlsx_save_book cb1 p comp _ chunks _ _ _ s1 H1 Hit Hw) as B1.
    pose proof (xlsx_save_book cb2 p comp _ chunks _ _ _ s2 H2 Hit Hw) as B2.
    destruct (xlsx_save_spec cb1 p comp _ chunks _ _ _ s1 H1 Hit Hw) as (s1' & E1 & _ & _ & F1).
    destruct (xlsx_save_spec cb2 p comp _ chunks _ _ _ s2 H2 Hit Hw) as (s2' & E2 & _ & _ & F2).
    rewrite E1 in *. rewrite E2 in *. cbn [snd] in *. rewrite F1, F2.
    destruct (nonempty chunks); rewrite !lookup_insert_eq; [done|]. by rewrite B1, B2.
  - destruct Hw as [Ht Hd].
    destruct (json_save_spec cb1 p comp _ chunks _ _ _ s1 H1 Hit Ht Hd) as (s1' & E1 & _ & _ & F1).
    destruct (json_save_spec cb2 p comp _ chunks _ _ _ s2 H2 Hit Ht Hd) as (s2' & E2 & _ & _ & F2).
    rewrite E1, E2. cbn [snd]. rewrite F1, F2.
    destruct (nonempty chunks); [by destruct Hne; [left|]|].
    by rewrite !lookup_insert_eq.
  - destruct Hw as [Ht Hd].
    destruct (parquet_save_spec cb1 p comp _ chunks _ _ _ s1 H1 Hit Ht Hd) as (s1' & E1 & _ & _ & F1).
    destruct (parquet_save_spec cb2 p comp _ chunks _ _ _ s2 H2 Hit Ht Hd) as (s2' & E2 & _ & _ & F2).
    rewrite E1, E2. cbn [snd]. rewrite F1, F2.
    destruct (nonempty chunks) as [|c l] eqn:Hn; [by destruct Hne; [right|]|].
    rewrite last_cons. destruct (last l); by rewrite !lookup_insert_eq.
Qed.

Lemma destination_replaced_witness :
  passive_cb None
  /\ writable json_saver None [batch1]
  /\ nonempty [batch1] <> []
  /\ fs (save json_saver (Chunks [batch1] None) "old.json" None None (fresh ∅)).2
       !! "old.json"
     = fs (save json_saver (Chunks [batch1] None) "old.json" None None with_old_file).2
         !! "old.json".
Proof.
  assert (H : passive_cb None) by exact I.
  assert (Hw : writable json_saver None [batch1]).
  { split; [intros _; reflexivity|].
    unfold distinct. apply (bool_decide_unpack _). vm_compute. exact I. }
  assert (Hn : nonempty [batch1] <> []) by discriminate.
  split; [exact H|]. split; [exact Hw|]. split; [exact Hn|].
  apply (destination_replaced json_saver None None "old.json" None [batch1]
           (fresh ∅) with_old_file H H Hw).
  intros _. exact Hn.
Defined.

(** *** modules/decorators.py *)

(** X6.  For every number of retries, the chain of [error_handler] ends
    as the retried function ends: it returns what the function returns, in
    the same state, and raises what it raises.  On a failure it adds to the
    state nothing but events of the trace: one error line, with the given
    message or, without one, the name of the function, and then one
    dispatch to the Telegram observer when [notify] is set, none
    otherwise. *)
Theorem error_handler_keeps_outcome {A} lm nt r name (func : M A) s :
  let inner := RetryDecorator.handle r func (set_trace (fun tr => tr ++ [Enter name]) s) in
  let out := error_handler lm nt r name func s in
  out.1 = inner.1
  /\ match inner.1 with
     | Ok _ => out.2 = inner.2
     | Raise e =>
         exists t,
           out.2 = set_trace (fun tr =>
                     tr ++ Log ERROR (Failure (error_msg lm name) e) :: t) inner.2
           /\ forallb is_dispatch t = true
           /\ updates t = (if nt then [0] else [])
     end.
Proof.
  cbv zeta. rewrite error_handler_any.
  destruct (RetryDecorator.handle r func _) as [[a|e] s']; cbn [fst snd]; [done|].
  split; [apply handled_raises | apply handled_state].
Qed.

(** X7.  [RetryDecorator] on a function that fails [k] times and then
    returns, each failed attempt leaving its effect [tick] in the state:
    with at least [k] retries the wrapper returns what the attempt number
    [k] returns, and no attempt follows; with fewer, it makes
    [retries + 1] attempts and raises the exception of the last one. *)
Theorem retry_attempts {A} (func : M A) (tick : State -> State) (e : nat -> exn)
    (k : nat) (a : A) (s' : State) (retries : nat) (s : State) :
  (forall i, i < k ->
     func (Nat.iter i tick s) = (Raise (e i), Nat.iter (S i) tick s)) ->
  func (Nat.iter k tick s) = (Ok a, s') ->
  RetryDecorator.handle retries func s
  = if decide (k <= retries) then (Ok a, s')
    else (Raise (e retries), Nat.iter (S retries) tick s).
Proof.
  revert k e s. induction retries as [|r IH]; intros k e s Hfail Hok.
  - cbn [RetryDecorator.handle]. destruct k as [|k].
    + rewrite decide_True by lia. exact Hok.
    + rewrite decide_False by lia. apply (Hfail 0). lia.
  - cbn [RetryDecorator.handle]. unfold try_except. destruct k as [|k].
    + simpl in Hok. rewrite Hok. by rewrite decide_True by lia.
    + pose proof (Hfail 0 ltac:(lia)) as H0. cbn [Nat.iter nat_rect] in H0.
      rewrite H0.
      rewrite (IH k (fun i => e (S i)) (tick s)).
      * destruct (decide (k <= r)).
        -- by rewrite decide_True by lia.
        -- rewrite decide_False by lia. f_equal.
           change (tick (Nat.iter r tick (tick s))) with (Nat.iter (S r) tick (tick s)).
           by rewrite !Nat.iter_succ_r.
      * intros i Hi. rewrite <- !Nat.iter_succ_r. apply Hfail. lia.
      * rewrite <- Nat.iter_succ_r. exact Hok.
Qed.

Lemma retry_attempts_witness :
  (forall i, i < 2 ->
     flaky_fetch (Nat.iter i fetch_tick (fresh ∅))
     = (Raise (SourceError "busy"), Nat.iter (S i) fetch_tick (fresh ∅)))
  /\ flaky_fetch (Nat.iter 2 fetch_tick (fresh ∅))
     = (Ok tt, Nat.iter 2 fetch_tick (fresh ∅))
  /\ RetryDecorator.handle 2 flaky_fetch (fresh ∅)
     = (Ok tt, Nat.iter 2 fetch_tick (fresh ∅))
  /\ RetryDecorator.handle 1 flaky_fetch (fresh ∅)
     = (Raise (SourceError "busy"), Nat.iter 2 fetch_tick (fresh ∅)).
Proof.
  assert (H1 : forall i, i < 2 ->
     flaky_fetch (Nat.iter i fetch_tick (fresh ∅))
     = (Raise (SourceError "busy"), Nat.iter (S i) fetch_tick (fresh ∅))).
  { intros i Hi. destruct i as [|[|i]]; [reflexivity | reflexivity | lia]. }
  assert (H2 : flaky_fetch (Nat.iter 2 fetch_tick (fresh ∅))
               = (Ok tt, Nat.iter 2 fetch_tick (fresh ∅))) by reflexivity.
  split; [exact H1|]. split; [exact H2|]. split.
  - exact (retry_attempts flaky_fetch fetch_tick (fun _ => SourceError "busy") 2 tt
             (Nat.iter 2 fetch_tick (fresh ∅)) 2 (fresh ∅) H1 H2).
  - exact (retry_attempts flaky_fetch fetch_tick (fun _ => SourceError "busy") 2 tt
             (Nat.iter 2 fetch_tick (fresh ∅)) 1 (fresh ∅) H1 H2).
Defined.

(** X8.  Under [error_handler] with [retries], a function that fails at
    every attempt is attempted [retries + 1] times; the exception is then
    raised, after one error line and, when [notify] is set, one dispatch,
    whatever the number of attempts; no file is touched by the chain. *)
Theorem persistent_failure_logged_once {A} lm nt retries name (func : M A)
    (tick : State -> State) (e : exn) s :
  (forall st, func st = (Raise e, tick st)) ->
  let after := Nat.iter (S retries) tick (set_trace (fun tr => tr ++ [Enter name]) s) in
  let out := error_handler lm nt retries name func s in
  out.1 = Raise e
  /\ failures (trace out.2) = failures (trace after) ++ [(error_msg lm name, e)]
  /\ updates (trace out.2) = updates (trace after) ++ (if nt then [0] else [])
  /\ fs out.2 = fs after.
Proof.
  intros H. cbv zeta. rewrite error_handler_any, (retry_always_fails func tick e H).
  rewrite handled_raises, handled_failures.
  destruct (@handled_state A lm nt name e
              (Nat.iter (S retries) tick (set_trace (fun tr => tr ++ [Enter name]) s)))
    as (t & -> & _ & Hu).
  cbn [trace fs set_trace]. repeat split; try done.
  rewrite updates_app. f_equal. cbn. exact Hu.
Qed.

Lemma persistent_failure_logged_once_witness :
  (forall st, failing_fetch st = (Raise (SourceError "down"), fetch_tick st))
  /\ (error_handler None true 2 "fetch" failing_fetch (fresh ∅)).1
     = Raise (SourceError "down")
  /\ failures (trace (error_handler None true 2 "fetch" failing_fetch (fresh ∅)).2)
     = [("Error in fetch", SourceError "down")]
  /\ updates (trace (error_handler None true 2 "fetch" failing_fetch (fresh ∅)).2)
     = [0].
Proof.
  assert (H : forall st, failing_fetch st = (Raise (SourceError "down"), fetch_tick st))
    by (intros st; reflexivity).
  split; [exact H|].
  pose proof (persistent_failure_logged_once None true 2 "fetch" failing_fetch
                fetch_tick (SourceError "down") (fresh ∅) H) as Hp.
  cbv zeta in Hp. destruct Hp as (Hr & Hf & Hu & _).
  split; [exact Hr|]. split; [exact Hf | exact Hu].
Defined.

(** *** modules/notifications.py *)

(** X9.  Whatever calls of [attach] and [detach] a subject receives, in
    whatever order, its list never holds the same object twice. *)
Theorem subject_never_holds_duplicates (calls : list subject_call) :
  NoDup (map oid (foldl subject_step [] calls)).
Proof.
  assert (forall l, NoDup (map oid l) -> NoDup (map oid (foldl subject_step l calls))) as H.
  { induction calls as [|c calls IH]; intros l Hl; [done|]. cbn [foldl].
    apply IH. destruct c; cbn [subject_step]; [by apply attach_nodup|by apply detach_nodup]. }
  apply H. constructor.
Qed.

(** X10.  For an object that the subject does not hold: [detach] undoes
    [attach], a second [attach] changes nothing, and [detach] alone
    changes nothing and raises nothing. *)
Theorem attach_detach_round_trip l o :
  oid o ∉ map oid l ->
  NotificationSubject.detach (NotificationSubject.attach l o) o = l
  /\ NotificationSubject.attach (NotificationSubject.attach l o) o
     = NotificationSubject.attach l o
  /\ NotificationSubject.detach l o = l.
Proof.
  intros H. rewrite (attach_fresh l o H). split; [|split].
  - by apply detach_attach.
  - unfold NotificationSubject.attach. rewrite bool_decide_eq_true_2; [done|].
    rewrite map_app. apply elem_of_app. right. apply list_elem_of_here.
  - by apply detach_absent.
Qed.

Lemma attach_detach_round_trip_witness :
  (oid third_observer ∉ map oid email_then_telegram)
  /\ NotificationSubject.detach
       (NotificationSubject.attach email_then_telegram third_observer) third_observer
     = email_then_telegram
  /\ NotificationSubject.detach email_then_telegram third_observer
     = email_then_telegram.
Proof.
  assert (H : oid third_observer ∉ map oid email_then_telegram) by not_in_list.
  split; [exact H|].
  destruct (attach_detach_round_trip email_then_telegram third_observer H)
    as (H1 & _ & H3).
  split; [exact H1 | exact H3].
Defined.

(** X11.  After [detach], [notify] no longer calls the detached handler
    and still calls every other one, once, in the order of attachment. *)
Theorem detached_observer_not_called hs o message kwargs s :
  Forall channel hs ->
  NoDup (map oid hs) ->
  let out := NotificationSubject.notify (NotificationSubject.detach hs o) message kwargs s in
  out.1 = Ok tt
  /\ updates (trace out.2)
     = updates (trace s) ++ filter (fun i => i <> oid o) (map oid hs).
Proof.
  intros Hc Hn. cbv zeta.
  destruct (notify_ok (NotificationSubject.detach hs o) message kwargs s) as [E1 E2].
  { by apply detach_Forall. }
  split; [done|]. by rewrite E2, detach_oids.
Qed.

Lemma detached_observer_not_called_witness :
  Forall channel email_then_telegram
  /\ NoDup (map oid email_then_telegram)
  /\ updates (trace (NotificationSubject.notify
                       (NotificationSubject.detach email_then_telegram
                          unconfigured_email)
                       (EtlDone "export.csv") no_kwargs (fresh ∅)).2)
     = [1].
Proof.
  assert (H1 : Forall channel email_then_telegram).
  { repeat (apply Forall_cons_2; [discriminate|]). apply Forall_nil_2. }
  assert (H2 : NoDup (map oid email_then_telegram)).
  { apply NoDup_cons_2; [not_in_list | apply NoDup_singleton]. }
  split; [exact H1|]. split; [exact H2|].
  pose proof (detached_observer_not_called email_then_telegram
                unconfigured_email (EtlDone "export.csv") no_kwargs
                (fresh ∅) H1 H2) as H.
  cbv zeta in H. destruct H as [_ H]. exact H.
Defined.

(** X12.  [EmailObserver.update] never raises and returns [True] exactly
    when the configuration is complete, the attachment, if a path is
    given, can be opened, and the server answers; exactly then one mail is
    handed over, with the subject of the call or the default one, the
    message and the attachment.  A missing attachment cancels the mail.  No
    file is changed. *)
Theorem email_update_outcome c message kwargs s :
  let out := EmailObserver.update c message kwargs s in
  out.1 = Ok (email_goes_out c kwargs s)
  /\ mails (trace out.2)
     = mails (trace s)
       ++ (if email_goes_out c kwargs s
           then [SmtpSend (default Notice (kw_subject kwargs)) message
                   (kw_attachment_path kwargs)]
           else [])
  /\ fs out.2 = fs s.
Proof. apply email_update_spec. Qed.

(** X13.  [TelegramObserver.update] never raises and returns [True]
    exactly when token and chat are configured and the service answers;
    exactly then the message is posted, once.  The keyword arguments play
    no part, and no file is changed. *)
Theorem telegram_update_outcome c message kwargs s :
  let out := TelegramObserver.update c message kwargs s in
  let sent := TelegramObserver.complete c && telegram_up s in
  out.1 = Ok sent
  /\ posts (trace out.2) = posts (trace s) ++ (if sent then [message] else [])
  /\ fs out.2 = fs s.
Proof. apply telegram_update_spec. Qed.

(** *** config/config.py *)

(** X14.  [normalize_compression] is idempotent; a value that it lets
    through is returned as it was given, neither stripped nor lowered; and
    the strings that it takes for "no compression" are those made of
    whitespace around nothing, or around "none" or "null" with each letter
    small or capital. *)
Theorem normalize_compression_idempotent value :
  normalize_compression (normalize_compression value) = normalize_compression value
  /\ (forall c, normalize_compression value = Some c -> value = Some c)
  /\ (forall v,
        normalize_compression (Some v) = None
        <-> exists l m r,
              Py.chars v = l ++ m ++ r
              /\ forallb Py.is_space l = true /\ forallb Py.is_space r = true
              /\ (m = [] \/ spells "none" m \/ spells "null" m)).
Proof.
  split; [|split].
  - destruct (normalize_compression value) as [c|] eqn:E; [|done].
    destruct (normalize_some value c E) as [_ Hc].
    unfold normalize_compression. by rewrite bool_decide_eq_false_2.
  - intros c Hc. by apply normalize_some in Hc as [-> _].
  - intros v. rewrite normalize_none.
    change (Py.chars <$> ["none"; "null"; ""])
      with [Py.chars "none"; Py.chars "null"; []].
    rewrite !elem_of_cons, elem_of_nil. split.
    + intros H. destruct (strip_by_split Py.is_space (Py.chars v)) as (l & r & E & Hl & Hr).
      exists l, (Py.strip (Py.chars v)), r. split; [exact E|]. split; [done|]. split; [done|].
      destruct H as [H|[H|[H|[]]]].
      * right. left. apply lower_spells; [by vm_compute; not_in_list..|done].
      * right. right. apply lower_spells; [by vm_compute; not_in_list..|done].
      * left. by apply lower_nil.
    + intros (l & m & r & -> & Hl & Hr & Hm). unfold Py.strip.
      destruct Hm as [->|[Hm|Hm]].
      * rewrite strip_by_spaces by done. right. right. by left.
      * unfold spells in Hm. change (Py.chars "none") with [110; 111; 110; 101]%N in Hm.
        repeat match goal with H : Forall2 _ _ (_ :: _) |- _ =>
                 apply Forall2_cons_inv_r in H as (? & ? & ? & H & ->) end.
        apply Forall2_nil_inv_r in Hm as ->.
        repeat match goal with H : _ \/ _ |- _ => destruct H as [H|H] end;
          repeat match goal with H : (_ + 32)%N = _ |- _ =>
                   apply N.add_sub_eq_r in H; simpl in H end;
          subst; rewrite strip_by_spaces by done; left; reflexivity.
      * unfold spells in Hm. change (Py.chars "null") with [110; 117; 108; 108]%N in Hm.
        repeat match goal with H : Forall2 _ _ (_ :: _) |- _ =>
                 apply Forall2_cons_inv_r in H as (? & ? & ? & H & ->) end.
        apply Forall2_nil_inv_r in Hm as ->.
        repeat match goal with H : _ \/ _ |- _ => destruct H as [H|H] end;
          repeat match goal with H : (_ + 32)%N = _ |- _ =>
                   apply N.add_sub_eq_r in H; simpl in H end;
          subst; rewrite strip_by_spaces by done; right; left; reflexivity.
Qed.

(** *** etl/etl_base.py *)

(** X15.  The name of the export is "export_", the time stamp, a dot and
    the format, followed by a dot and the compression value exactly when
    the normal form of that value is not [None]; the value is appended as
    it was given.  When that name holds no slash, the path is what pathlib
    makes of the export directory and the name: the root and the
    components of the directory, then the name, with slashes between
    them; for the directory "." it is the name alone.  Neither function
    changes the state. *)
Theorem build_filename_suffix self s :
  let name := "export_" +:+ timestamp s +:+ "." +:+ export_format self
              +:+ match normalize_compression (compression self) with
                  | Some c => "." +:+ c
                  | None => ""
                  end in
  no_slash name = true ->
  ETLBase._build_filename self s = (Ok name, s)
  /\ ETLBase.generate_filename self s
     = (Ok (Py.anchor (exports_path self)
            +:+ Py.join_slash (Py.parts (exports_path self) ++ [name])), s)
  /\ (exports_path self = "." -> ETLBase.generate_filename self s = (Ok name, s)).
Proof.
  cbv zeta. intros Hn.
  assert (ETLBase._build_filename self s
          = (Ok ("export_" +:+ timestamp s +:+ "." +:+ export_format self
                 +:+ match normalize_compression (compression self) with
                     | Some c => "." +:+ c
                     | None => ""
                     end), s)) as Hb.
  { unfold ETLBase._build_filename, bind, gets, ret. cbn beta iota.
    pose proof (normalize_some (compression self)) as H.
    destruct (normalize_compression (compression self)) as [c|]; [|done].
    destruct (H c eq_refl) as [_ Hc]. apply normalized_not_none in Hc as [H1 H2].
    cbn [Py.truthy]. destruct (String.eqb_spec c ""); [done|].
    destruct (String.eqb_spec c "none"); [done|]. done. }
  assert (ETLBase.generate_filename self s
          = (Ok (Py.anchor (exports_path self)
                 +:+ Py.join_slash
                       (Py.parts (exports_path self)
                        ++ ["export_" +:+ timestamp s +:+ "." +:+ export_format self
                            +:+ match normalize_compression (compression self) with
                                | Some c => "." +:+ c
                                | None => ""
                                end])), s)) as Hg.
  { unfold ETLBase.generate_filename. rewrite (bind_ok _ _ _ _ _ Hb). unfold ret.
    by rewrite joinpath_name. }
  split; [exact Hb|]. split; [exact Hg|].
  intros Hd. rewrite Hg, Hd. reflexivity.
Qed.

Lemma build_filename_suffix_witness :
  no_slash "export_01.01.2025_00-00-00.xlsx.gzip" = true
  /\ ETLBase._build_filename xlsx_gzip_job (fresh ∅)
     = (Ok "export_01.01.2025_00-00-00.xlsx.gzip", fresh ∅)
  /\ ETLBase.generate_filename xlsx_gzip_job (fresh ∅)
     = (Ok "exports/export_01.01.2025_00-00-00.xlsx.gzip", fresh ∅).
Proof.
  assert (H : no_slash "export_01.01.2025_00-00-00.xlsx.gzip" = true) by reflexivity.
  split; [exact H|].
  pose proof (build_filename_suffix xlsx_gzip_job (fresh ∅) H) as (Hb & Hg & _).
  split; [exact Hb | exact Hg].
Defined.

(** X16.  With a format that is none of the four keys of the strategy
    map, compared as they are written, [load] raises the key error of the
    lookup before anything else happens: no file is touched, no writer is
    called, [filename] and the metrics are what they were. *)
Theorem load_unknown_format self data cb s :
  export_format self ∉ ["csv"; "xlsx"; "json"; "parquet"] ->
  let s' := (ETLBase.load self data cb s).2 in
  (ETLBase.load self data cb s).1 = Raise (KeyError (export_format self))
  /\ fs s' = fs s
  /\ filename s' = filename s
  /\ rows_processed s' = rows_processed s
  /\ memory_usage s' = memory_usage s
  /\ writes (trace s') = writes (trace s).
Proof.
  intros Hf%strategy_lookup_none. cbv zeta.
  assert (ETLBase.load self data cb s
          = handled (Some "data load error") true "load" (KeyError (export_format self))
              (set_trace (fun tr => tr ++ [Enter "load"]) s)) as ->.
  { unfold ETLBase.load. by rewrite error_handler_eq, Hf. }
  rewrite handled_raises.
  destruct (@handled_state unit (Some "data load error") true "load"
              (KeyError (export_format self))
              (set_trace (fun tr => tr ++ [Enter "load"]) s))
    as (t & -> & Q%dispatch_notice & _).
  cbn [fs filename rows_processed memory_usage trace set_trace].
  repeat split; try done.
  rewrite <- app_assoc, writes_app. cbn [app].
  change (Enter "load" :: Log ERROR (Failure (error_msg (Some "data load error") "load")
            (KeyError (export_format self))) :: t)
    with ([Enter "load"; Log ERROR (Failure (error_msg (Some "data load error") "load")
            (KeyError (export_format self)))] ++ t).
  rewrite writes_app, (proj1 (notice_writes t Q)). simpl. by rewrite app_nil_r.
Qed.

Lemma load_unknown_format_witness :
  (export_format upper_job ∉ ["csv"; "xlsx"; "json"; "parquet"])
  /\ (ETLBase.load upper_job (Chunks [batch1] None) None (fresh ∅)).1
     = Raise (KeyError "CSV")
  /\ fs (ETLBase.load upper_job (Chunks [batch1] None) None (fresh ∅)).2 = fs (fresh ∅).
Proof.
  assert (H : export_format upper_job ∉ ["csv"; "xlsx"; "json"; "parquet"])
    by not_in_list.
  split; [exact H|].
  pose proof (load_unknown_format upper_job (Chunks [batch1] None) None (fresh ∅) H) as Hl.
  cbv zeta in Hl. destruct Hl as (Hr & Hf & _). split; [exact Hr | exact Hf].
Defined.

(** X17.  Once the format resolves, [load] sets [filename] to the derived
    path before it saves, whatever the data: also when the strategy or the
    iterator raises, or no row is written, [filename] names the path
    afterwards. *)
Theorem load_sets_filename self saver data cb s path :
  Container.saver_strategy_map !! export_format self = Some saver ->
  (ETLBase.generate_filename self s).1 = Ok path ->
  filename (ETLBase.load self data cb s).2 = Some path.
Proof.
  intros Hs Hp. pose proof (load_frame self data cb s) as H. cbv zeta in H.
  rewrite Hs in H. by destruct (H path Hp) as (Hfn & _).
Qed.

Lemma load_sets_filename_witness :
  Container.saver_strategy_map !! export_format xlsx_gzip_job = Some xlsx_saver
  /\ (ETLBase.generate_filename xlsx_gzip_job (fresh ∅)).1
     = Ok "exports/export_01.01.2025_00-00-00.xlsx.gzip"
  /\ filename (ETLBase.load xlsx_gzip_job (Chunks [batch1] None) None (fresh ∅)).2
     = Some "exports/export_01.01.2025_00-00-00.xlsx.gzip".
Proof.
  assert (H1 : Container.saver_strategy_map !! export_format xlsx_gzip_job
               = Some xlsx_saver) by (vm_compute; reflexivity).
  assert (H2 : (ETLBase.generate_filename xlsx_gzip_job (fresh ∅)).1
               = Ok "exports/export_01.01.2025_00-00-00.xlsx.gzip") by reflexivity.
  split; [exact H1|]. split; [exact H2|].
  exact (load_sets_filename xlsx_gzip_job xlsx_saver (Chunks [batch1] None) None
           (fresh ∅) _ H1 H2).
Defined.

(** X18.  Whatever the data and the outcome, [load] never lowers the
    counter of rows and only appends to the memory samples; and a run of
    the database job, which sets the counter back to zero, keeps every
    sample of earlier runs of the same object. *)
Theorem metrics_only_grow self data cb s :
  let s' := (ETLBase.load self data cb s).2 in
  rows_processed s <= rows_processed s'
  /\ memory_usage s `prefix_of` memory_usage s'
  /\ (forall fmt comp dir email tg source st,
        memory_usage st `prefix_of`
          memory_usage (ETLBase.run (PostgresETL fmt comp dir email tg source) st).2).
Proof.
  assert (forall self data cb s, grown s (ETLBase.load self data cb s).2) as Hload.
  { clear. intros self data cb s.
    pose proof (load_frame self data cb s) as H. cbv zeta in H.
    destruct (Container.saver_strategy_map !! export_format self).
    - destruct (generate_filename_ok self s) as (path & Hp).
      destruct (H path) as (_ & _ & Hg); [by rewrite Hp|]. exact Hg.
    - destruct H as (_ & _ & Hr & Hm). split; [lia|by rewrite Hm]. }
  cbv zeta. destruct (Hload self data cb s) as [Hr Hm].
  split; [done|]. split; [done|].
  intros fmt comp dir email tg source st.
  destruct (run_tail (PostgresETL fmt comp dir email tg source) st) as (t & ->).
  cbn [memory_usage set_trace]. rewrite postgres_stages.
  match goal with |- context [ETLBase.load ?j ?d ?c ?x] =>
    destruct (Hload j d c x) as [_ H] end.
  exact H.
Qed.

(** X19.  The reporting step changes nothing but the trace: after the
    record of its call it adds only log lines, calls of observers and what
    they send; no file, no metric and no attribute of the object changes.
    When [filename] is not set, or no file is at that path, it adds nothing
    at all and returns. *)
Theorem send_report_only_notifies self s :
  exists t,
    (ETLBase._send_report self s).2
    = set_trace (fun tr => tr ++ Enter "_send_report" :: t) s
    /\ forallb is_notice t = true
    /\ ((filename s = None
         \/ (exists p, filename s = Some p /\ fs s !! p = None)) ->
        t = [] /\ (ETLBase._send_report self s).1 = Ok tt).
Proof. apply send_report_notices. Qed.

(** X20.  A run of the database job that returns normally had an
    iterator that ended normally and at least one row; the counter of rows
    holds the number of rows of the non-empty batches, [filename] is the
    derived path, and a file is at that path. *)
Theorem run_success fmt comp dir email tg chunks failure s :
  let job := PostgresETL fmt comp dir email tg (Chunks chunks failure) in
  let out := ETLBase.run job s in
  out.1 = Ok tt ->
  failure = None
  /\ total_rows chunks <> 0
  /\ rows_processed out.2 = total_rows chunks
  /\ exists path, (ETLBase.generate_filename job s).1 = Ok path
                  /\ filename out.2 = Some path
                  /\ is_Some (fs out.2 !! path).
Proof. apply run_ok. Qed.

Lemma run_success_witness :
  (ETLBase.run csv_job (fresh ∅)).1 = Ok tt
  /\ rows_processed (ETLBase.run csv_job (fresh ∅)).2 = total_rows [batch1]
  /\ exists path, filename (ETLBase.run csv_job (fresh ∅)).2 = Some path
                  /\ is_Some (fs (ETLBase.run csv_job (fresh ∅)).2 !! path).
Proof.
  assert (H : (ETLBase.run csv_job (fresh ∅)).1 = Ok tt) by (vm_compute; reflexivity).
  split; [exact H|].
  pose proof (run_success "csv" None "exports" true true [batch1] None (fresh ∅)) as Hr.
  cbv zeta in Hr. destruct (Hr H) as (_ & _ & Hn & path & _ & Hfn & Hf).
  split; [exact Hn|]. exists path. split; [exact Hfn | exact Hf].
Defined.

(** X21.  A run of the database job, whatever its source and its
    outcome, changes no file other than the one that [filename] names when
    the run is over. *)
Theorem run_touches_one_file fmt comp dir email tg source s q :
  let out := ETLBase.run (PostgresETL fmt comp dir email tg source) s in
  filename out.2 <> Some q ->
  fs out.2 !! q = fs s !! q.
Proof.
  cbv zeta. set (job := PostgresETL fmt comp dir email tg source).
  destruct (run_tail job s) as (t & ->). cbn [filename fs set_trace].
  unfold job. rewrite postgres_stages. fold job.
  set (st := set_trace _ (started s)).
  pose proof (load_frame job (extraction source) None st) as H. cbv zeta in H.
  destruct (Container.saver_strategy_map !! export_format job).
  - destruct (generate_filename_ok job st) as (path & Hp).
    destruct (H path) as (Hfn & He & _); [by rewrite Hp|].
    rewrite Hfn. intros Hq. rewrite He by congruence. done.
  - destruct H as (-> & _). done.
Qed.

Lemma run_touches_one_file_witness :
  filename (ETLBase.run csv_job with_old_file).2 <> Some "old.json"
  /\ fs (ETLBase.run csv_job with_old_file).2 !! "old.json"
     = fs with_old_file !! "old.json".
Proof.
  assert (H : filename (ETLBase.run csv_job with_old_file).2 <> Some "old.json")
    by (vm_compute; discriminate).
  split; [exact H|].
  exact (run_touches_one_file "csv" None "exports" true true (Chunks [batch1] None)
           with_old_file "old.json" H).
Defined.

(** X22.  Every decorated method that an exception passes through logs
    it once, under its own message: after a run of the database job the
    error lines of the decorators are those found before, then the line of
    [load] if the stages failed, the line of the reporting step if it
    failed, and the line of [run] if [run] raises.  The session manager
    logs at the same level: when the strategy has written every batch and
    the cursor then raises, its line comes first, so that this exception,
    unless the reporting step replaces it, is logged three times.
    Evaluated on a cursor that fails after one batch. *)
Theorem run_logs_each_level fmt comp dir email tg source s :
  let job := PostgresETL fmt comp dir email tg source in
  let staged := ETLBase.stages job (started s) in
  let report := ETLBase._send_report job staged.2 in
  let out := ETLBase.run job s in
  failures (trace out.2)
  = failures (trace s)
    ++ match staged.1 with Ok _ => [] | Raise e => [("data load error", e)] end
    ++ match report.1 with Ok _ => [] | Raise e => [("report sending error", e)] end
    ++ match out.1 with Ok _ => [] | Raise e => [("ETL run error", e)] end
  /\ (forall saver chunks failure,
        source = Chunks chunks failure ->
        Container.saver_strategy_map !! fmt = Some saver ->
        writable saver comp chunks ->
        error_lines (trace out.2)
        = error_lines (trace s)
          ++ match failure with Some e => [Transaction e] | None => [] end
          ++ match staged.1 with
             | Ok _ => []
             | Raise e => [Decorated "data load error" e]
             end
          ++ match report.1 with
             | Ok _ => []
             | Raise e => [Decorated "report sending error" e]
             end
          ++ match out.1 with Ok _ => [] | Raise e => [Decorated "ETL run error" e] end
        /\ (forall e, failure = Some e ->
              (saver = xlsx_saver -> nonempty chunks <> []) ->
              staged.1 = Raise e))
  /\ error_lines
       (trace (ETLBase.run
                 (PostgresETL "csv" None "exports" false false
                    (Chunks [batch1] (Some (SourceError "db")))) (fresh ∅)).2)
     = [Transaction (SourceError "db");
        Decorated "data load error" (SourceError "db");
        Decorated "ETL run error" (SourceError "db")].
Proof.
  cbv zeta. set (job := PostgresETL fmt comp dir email tg source).
  split; [|split; [|by vm_compute]].
  - rewrite run_eq.
    assert (failures (trace (ETLBase.stages job (started s)).2)
            = failures (trace s)
              ++ match (ETLBase.stages job (started s)).1 with
                 | Ok _ => [] | Raise e => [("data load error", e)] end) as H1.
    { unfold job. rewrite postgres_stages. rewrite load_failures.
      cbn [trace set_trace started set_metrics]. rewrite !failures_app. cbn.
      by rewrite !app_nil_r. }
    destruct (ETLBase.stages job (started s)) as [r s2]. cbn [fst snd] in *.
    pose proof (send_report_failures job s2) as H2.
    destruct (ETLBase._send_report job s2) as [[[]|e'] s3]; cbn [fst snd] in *.
    + destruct r as [[]|e]; cbn [fst snd].
      * cbn [trace logged set_trace]. rewrite failures_app, H2, H1. cbn.
        by rewrite !app_nil_r.
      * rewrite handled_failures, handled_raises. cbn [trace logged set_trace].
        rewrite failures_app, H2, H1. cbn. by rewrite !app_nil_r, <- !app_assoc.
    + rewrite handled_failures, handled_raises, H2, H1. by rewrite <- !app_assoc.
  - intros saver chunks failure -> Hs Hw.
    pose proof (run_error_lines job s) as Hrun. cbv zeta in Hrun. rewrite Hrun.
    unfold job. rewrite postgres_stages.
    set (st := set_trace (fun tr => tr ++ [Enter "extract"]) (started s)).
    split.
    + rewrite (load_error_lines
                 (PostgresETL fmt comp dir email tg (Chunks chunks failure))
                 saver _ chunks _ _ failure None st Hs
                 (iterates_extraction chunks failure) Hw).
      cbn [trace st set_trace started set_metrics]. rewrite !error_lines_app.
      destruct failure; cbn; by rewrite ?app_nil_r, <- ?app_assoc.
    + intros e -> Hx.
      by apply (load_cursor_failure
                  (PostgresETL fmt comp dir email tg (Chunks chunks (Some e)))
                  saver _ chunks _ _ e None st Hs
                  (iterates_extraction chunks (Some e))).
Qed.

(** X23.  A run of the delimited-text job whose batches hold no row
    raises the no-data error and leaves no file at the path that
    [filename] names; the reporting step, finding no file, returns without
    having built or called any observer. *)
Theorem csv_run_without_rows comp dir email tg chunks s :
  nonempty chunks = [] ->
  let job := PostgresETL "csv" comp dir email tg (Chunks chunks None) in
  let staged := ETLBase.stages job (started s) in
  let out := ETLBase.run job s in
  out.1 = Raise NoDataToSave
  /\ ETLBase._send_report job staged.2
     = (Ok tt, set_trace (fun tr => tr ++ [Enter "_send_report"]) staged.2)
  /\ exists path, (ETLBase.generate_filename job s).1 = Ok path
                  /\ filename out.2 = Some path
                  /\ fs out.2 !! path = None.
Proof.
  intros Hn. cbv zeta.
  set (job := PostgresETL "csv" comp dir email tg (Chunks chunks None)).
  destruct (run_tail job s) as (t & Et).
  pose proof (run_eq job s) as Hrun.
  unfold job in Et, Hrun |- *. rewrite postgres_stages in Et, Hrun |- *. fold job in Et, Hrun |- *.
  set (st := set_trace (fun tr => tr ++ [Enter "extract"]) (started s)) in *.
  destruct (generate_filename_ok job s) as (path & Hp).
  assert (ETLBase.generate_filename job st = (Ok path, st)) as Hp' by (by apply Hp).
  assert (Hload := load_eq job csv_saver path (extraction (Chunks chunks None)) None st
                     eq_refl).
  rewrite Hp' in Hload. specialize (Hload eq_refl).
  cbn [save compression job PostgresETL] in Hload.
  match type of Hload with context [CsvSaver.save ?d ?p ?c ?f ?x] =>
    destruct (csv_save_spec f p c d chunks _ _ None x passive_update_metrics
                (iterates_extraction chunks None)) as (s1 & E & _ & _ & Hf);
      [by rewrite Hn|];
    pose proof (save_same_object csv_saver d p c f passive_update_metrics x) as (Hfn & _);
    cbn [save] in Hfn
  end.
  cbn [outcome] in E.
  rewrite E in Hload, Hfn. cbn [snd filename set_filename] in Hfn.
  rewrite (total_rows_none chunks Hn) in Hload. cbn [Nat.eqb] in Hload.
  rewrite Hn in Hf.
  destruct (@handled_state unit (Some "data load error") true "load" NoDataToSave s1)
    as (t1 & E1 & _).
  pose proof (@handled_raises unit (Some "data load error") true "load" NoDataToSave s1) as R1.
  destruct (handled _ _ _ _ s1) as [r1 s2] eqn:Eh. cbn [fst snd] in E1, R1. subst r1.
  rewrite Hload in Et, Hrun |- *. cbn [fst snd] in Et |- *.
  assert (filename s2 = Some path /\ fs s2 !! path = None) as [Hfn2 Hfs2].
  { rewrite E1. cbn [filename fs set_trace]. split; [done|].
    rewrite Hf. cbn [fs set_fs set_filename set_trace]. apply lookup_delete_eq. }
  destruct (send_report_notices job s2) as (t2 & E2 & _ & Hskip).
  destruct Hskip as [-> Hr]; [right; by exists path|].
  assert (ETLBase._send_report job s2
          = (Ok tt, set_trace (fun tr => tr ++ [Enter "_send_report"]) s2)) as Erep.
  { destruct (ETLBase._send_report job s2) as [r3 s3]. cbn [fst snd] in *. by subst. }
  split; [|split; [exact Erep|]].
  - rewrite Hrun, Erep. apply handled_raises.
  - exists path. rewrite (Hp s eq_refl), Et. cbn [fst filename fs set_trace]. done.
Qed.

Lemma csv_run_without_rows_witness :
  nonempty [] = []
  /\ (ETLBase.run csv_empty_job (fresh mail_env)).1 = Raise NoDataToSave
  /\ exists path, filename (ETLBase.run csv_empty_job (fresh mail_env)).2 = Some path
                  /\ fs (ETLBase.run csv_empty_job (fresh mail_env)).2 !! path = None.
Proof.
  assert (H : nonempty [] = []) by reflexivity.
  split; [exact H|].
  pose proof (csv_run_without_rows None "exports" true true [] (fresh mail_env) H) as Hr.
  cbv zeta in Hr. destruct Hr as (Hraise & _ & path & _ & Hfn & Hf).
  split; [exact Hraise|]. exists path. split; [exact Hfn | exact Hf].
Defined.

(** X24.  What a run of the database job that returns normally has
    sent: to Telegram one message, the notice of completion with the name
    of the export file, when the job has the Telegram flag, token and chat
    are in the environment and the service answers, and nothing otherwise;
    by e-mail one mail, with that notice, the file name in the subject and
    the export file attached, when the job has the e-mail flag, the
    configuration read from the environment is complete and the server
    answers, and nothing otherwise. *)
Theorem successful_run_reports_once fmt comp dir email tg chunks failure s :
  let job := PostgresETL fmt comp dir email tg (Chunks chunks failure) in
  let out := ETLBase.run job s in
  out.1 = Ok tt ->
  exists path,
    filename out.2 = Some path
    /\ posts (trace out.2)
       = posts (trace s)
         ++ (if tg && telegram_goes_out s then [EtlDone (Py.basename path)] else [])
    /\ mails (trace out.2)
       = mails (trace s)
         ++ (if email && email_configured s
             then [SmtpSend (ExportOf (Py.basename path)) (EtlDone (Py.basename path))
                     (Some path)]
             else []).
Proof.
  cbv zeta. intros Hok.
  set (job := PostgresETL fmt comp dir email tg (Chunks chunks failure)) in *.
  revert Hok. rewrite run_eq.
  pose proof (postgres_stages fmt comp dir email tg (Chunks chunks failure) (started s)) as Est.
  fold job in Est.
  set (st := set_trace (fun tr => tr ++ [Enter "extract"]) (started s)) in *.
  pose proof (load_ok job _ chunks _ _ failure None st
                (iterates_extraction chunks failure)) as Hl.
  pose proof (load_ok_quiet job (extraction (Chunks chunks failure)) None st) as Hlp.
  rewrite <- Est in Hl, Hlp.
  destruct (ETLBase.stages job (started s)) as [r s2]. cbn [fst snd] in Hl, Hlp.
  unfold ETLBase._send_report. rewrite error_handler_eq.
  set (s2' := set_trace (fun tr => tr ++ [Enter "_send_report"]) s2).
  pose proof (send_report_wrapped_posts job s2') as Hw.
  pose proof (send_report_wrapped_mails job s2') as Hm.
  destruct (ETLBase._send_report_wrapped job s2') as [[[]|e'] s3] eqn:Ew.
  2:{ pose proof (@handled_raises unit (Some "report sending error") true
                    "_send_report" e' s3) as Hr.
      destruct (handled _ _ _ _ s3) as [r3 s4]. cbn [fst] in Hr. subst r3.
      by rewrite handled_raises. }
  destruct r as [[]|e]; [|by rewrite handled_raises]. intros _.
  destruct (Hl eq_refl) as (_ & _ & _ & path & _ & Hfn & Hf).
  destruct (Hlp eq_refl) as (Hp & Hmail & He & Ht & Hu).
  exists path. cbn [fst snd filename trace logged set_trace].
  specialize (Hw path Hfn Hf eq_refl). specialize (Hm path Hfn Hf eq_refl).
  cbn [snd] in Hw, Hm.
  assert (filename s3 = Some path) as ->.
  { destruct (calm_state (ETLBase._send_report_wrapped job) s2'
                (calm_send_report_wrapped job)) as (t & Et & _).
    rewrite Ew in Et. cbn [snd] in Et. by rewrite Et. }
  split; [done|]. split.
  - rewrite posts_app, Hw. cbn [trace s2' set_trace]. rewrite posts_app, Hp.
    cbn [trace st started set_trace set_metrics]. rewrite !posts_app. simpl.
    rewrite !app_nil_r. f_equal.
    unfold telegram_goes_out.
    cbn [env telegram_up s2' set_trace send_telegram job PostgresETL].
    rewrite He, Ht. done.
  - rewrite mails_app, Hm. cbn [trace s2' set_trace]. rewrite mails_app, Hmail.
    cbn [trace st started set_trace set_metrics]. rewrite !mails_app. simpl.
    rewrite !app_nil_r. f_equal.
    unfold email_configured, EmailObserver.init, bind, gets, ret, raise.
    cbn beta iota.
    cbn [env smtp_up s2' set_trace send_email job PostgresETL].
    rewrite He, Hu. cbn [env smtp_up st started set_trace set_metrics].
    destruct (env s !! "EMAIL_SMTP_PORT") as [v|]; [destruct (Py.int v)|]; done.
Qed.

Lemma successful_run_reports_once_witness :
  (ETLBase.run csv_job (fresh report_env)).1 = Ok tt
  /\ posts (trace (ETLBase.run csv_job (fresh report_env)).2)
     = [EtlDone "export_01.01.2025_00-00-00.csv"]
  /\ mails (trace (ETLBase.run csv_job (fresh report_env)).2)
     = [SmtpSend (ExportOf "export_01.01.2025_00-00-00.csv")
          (EtlDone "export_01.01.2025_00-00-00.csv")
          (Some "exports/export_01.01.2025_00-00-00.csv")].
Proof.
  assert (H : (ETLBase.run csv_job (fresh report_env)).1 = Ok tt)
    by (vm_compute; reflexivity).
  split; [exact H|].
  pose proof (successful_run_reports_once "csv" None "exports" true true [batch1] None
                (fresh report_env)) as Hr.
  cbv zeta in Hr. destruct (Hr H) as (path & Hfn & Hp & Hm).
  assert (Hc : filename (ETLBase.run csv_job (fresh report_env)).2
               = Some "exports/export_01.01.2025_00-00-00.csv")
    by (vm_compute; reflexivity).
  unfold csv_job in Hc. rewrite Hc in Hfn. injection Hfn as <-.
  split; [exact Hp | exact Hm].
Defined.

(** *** etl/etl_facade.py *)

(** X25.  When [run_etl] of a facade on the database job returns, the
    run has returned normally, and what [run_etl] returns is never [None]:
    it is the derived path, a file is at that path, at least one row was
    written, and the facade has logged its start and that path. *)
Theorem run_etl_returns_the_export fmt comp dir email tg chunks failure s v :
  let job := PostgresETL fmt comp dir email tg (Chunks chunks failure) in
  let out := ETLFacade.run_etl job s in
  out.1.1 = Ok v ->
  (ETLBase.run job s).1 = Ok tt
  /\ exists path, v = Some path
                  /\ (ETLBase.generate_filename job s).1 = Ok path
                  /\ is_Some (fs out.1.2 !! path)
                  /\ out.2 = [(INFO, ETLFacade.Starting);
                              (INFO, ETLFacade.Finished (Some path))]
                  /\ total_rows chunks <> 0.
Proof.
  cbv zeta. unfold ETLFacade.run_etl.
  pose proof (run_ok fmt comp dir email tg chunks failure s) as H. cbv zeta in H.
  destruct (ETLBase.run _ s) as [[[]|e] s'] eqn:E; cbn [fst snd] in *; [|done].
  intros [= <-]. destruct (H eq_refl) as (_ & Hn & _ & path & Hp & Hfn & Hf).
  split; [done|]. exists path. rewrite Hfn. done.
Qed.

Lemma run_etl_returns_the_export_witness :
  (ETLFacade.run_etl csv_job (fresh ∅)).1.1
  = Ok (Some "exports/export_01.01.2025_00-00-00.csv")
  /\ exists path, Some "exports/export_01.01.2025_00-00-00.csv" = Some path
                  /\ is_Some (fs (ETLFacade.run_etl csv_job (fresh ∅)).1.2 !! path).
Proof.
  assert (H : (ETLFacade.run_etl csv_job (fresh ∅)).1.1
              = Ok (Some "exports/export_01.01.2025_00-00-00.csv"))
    by (vm_compute; reflexivity).
  split; [exact H|].
  pose proof (run_etl_returns_the_export "csv" None "exports" true true [batch1] None
                (fresh ∅) (Some "exports/export_01.01.2025_00-00-00.csv")) as Hr.
  cbv zeta in Hr. destruct (Hr H) as (_ & path & Hv & _ & Hf & _).
  exists path. split; [exact Hv | exact Hf].
Defined.

(** *** modules/unit_of_work.py *)

(** The generator of [session_scope] run in two steps, as the
    [yield from] of [extract] runs it, does what it does around a block. *)
Lemma session_scope_enter_leave {B A} db (body : UnitOfWork.T B A) s :
  UnitOfWork.session_scope db body s
  = (let '(block, s') := body (@UnitOfWork.enter B s).2 in UnitOfWork.leave db block s').
Proof.
  unfold UnitOfWork.session_scope, UnitOfWork.leave, UnitOfWork.enter, UnitOfWork.ended.
  unfold UnitOfWork.try_finally, UnitOfWork.try_except, UnitOfWork.bind at 1 2 3.
  unfold UnitOfWork.tell at 1 2. unfold UnitOfWork.bind at 5. unfold UnitOfWork.tell at 4 5.
  cbn [snd]. unfold UnitOfWork.bind at 3.
  by destruct (body _) as [[a|e|b] s1].
Qed.

(** X26.  Whatever the block under [session_scope] does, the session,
    after its creation and the calls of the block, is asked to commit
    exactly when the block returned, to roll back exactly when the block or
    the commit raised an [Exception], and to close, once and last, in every
    case; a block that is left by an exception outside [Exception], as a
    generator that is closed early is, gets neither commit nor rollback,
    only the close.  The line at the error level is logged when the
    rollback went through.  The manager returns what the block returned
    only when commit and close went through; otherwise the error of the
    close comes out, else that of the rollback, else the exception of the
    block or of the commit. *)
Theorem session_scope_commits_or_rolls_back {B A} db (body : UnitOfWork.T B A) s :
  let inner :=
    body (set_trace (fun t => t ++ [Session NewSession; Log DEBUG TransactionBegun]) s) in
  let out := UnitOfWork.session_scope db body s in
  (exists tail,
     out.2 = set_trace (fun t => t ++ tail) inner.2
     /\ session_calls tail
        = match inner.1 with
          | UnitOfWork.Returns _ =>
              Commit :: match commit_error db with
                        | Some _ => [Rollback]
                        | None => []
                        end
          | UnitOfWork.Raises _ => [Rollback]
          | UnitOfWork.Exits _ => []
          end ++ [Close]
     /\ error_lines tail
        = match inner.1, commit_error db, rollback_error db with
          | UnitOfWork.Returns _, Some e, None | UnitOfWork.Raises e, _, None =>
              [Transaction e]
          | _, _, _ => []
          end)
  /\ out.1 = match close_error db with
             | Some e => UnitOfWork.Raises e
             | None =>
                 match inner.1, commit_error db with
                 | UnitOfWork.Returns a, None => UnitOfWork.Returns a
                 | UnitOfWork.Returns _, Some e | UnitOfWork.Raises e, _ =>
                     UnitOfWork.Raises (default e (rollback_error db))
                 | UnitOfWork.Exits b, _ => UnitOfWork.Exits b
                 end
             end.
Proof.
  cbv zeta. rewrite session_scope_enter_leave.
  unfold UnitOfWork.enter, UnitOfWork.bind, UnitOfWork.tell. cbn [snd].
  rewrite set_trace_app. cbn [app].
  destruct (body _) as [block s1]. cbn [fst snd].
  unfold UnitOfWork.leave, UnitOfWork.ended, UnitOfWork.method.
  unfold UnitOfWork.try_finally, UnitOfWork.try_except, UnitOfWork.bind,
    UnitOfWork.tell, UnitOfWork.ret, UnitOfWork.raise.
  destruct db as [q [ec|] [er|] [ex|]], block as [a|e|b];
    cbn [fst snd default commit_error rollback_error close_error];
    (split; [|done]); eexists;
    rewrite ?set_trace_app; (split; [reflexivity|]); split; reflexivity.
Qed.

(** *** etl/import pandas as pd.py *)

(** X27.  For a whole sum from 0 up to, and not including, 150000, the
    label that [sum_credit_type] returns names the interval of width 15000
    that holds the sum: its lower bound, a multiple of 15000, and its
    upper bound, 14999 above, each written with a space before the last
    three digits. *)
Theorem sum_credit_type_names_its_interval (val : Z) :
  (0 <= val < 150000)%Z ->
  let low := (15000 * (val / 15000))%Z in
  sum_credit_type val = spaced low +:+ " - " +:+ spaced (low + 14999).
Proof.
  intros [H0 H1]. cbv zeta.
  pose proof (Z.mul_div_le val 15000 ltac:(lia)) as Hlo.
  pose proof (Z.mul_succ_div_gt val 15000 ltac:(lia)) as Hhi.
  assert (0 <= val / 15000 < 10)%Z as Hq by lia.
  assert (val / 15000 = 0 \/ val / 15000 = 1 \/ val / 15000 = 2 \/ val / 15000 = 3
          \/ val / 15000 = 4 \/ val / 15000 = 5 \/ val / 15000 = 6 \/ val / 15000 = 7
          \/ val / 15000 = 8 \/ val / 15000 = 9)%Z as Hk by lia.
  unfold sum_credit_type.
  repeat (destruct Hk as [Hk|Hk]); rewrite Hk in *;
    repeat (rewrite (proj2 (Z.ltb_ge _ _)) by lia);
    rewrite (proj2 (Z.ltb_lt _ _)) by lia; reflexivity.
Qed.

Lemma sum_credit_type_names_its_interval_witness :
  (0 <= 29999 < 150000)%Z /\ sum_credit_type 29999 = "15 000 - 29 999".
Proof.
  split; [lia|]. apply (sum_credit_type_names_its_interval 29999). lia.
Defined.
